(** * Argument parsing of the lzma/xz command-line tool (src/lzma/args.c)

    A shallow embedding of [args.c]: the file's globals become one [state]
    record that every function threads explicitly, [my_exit] and the
    functions that do not return become the [Exit] outcome of a small
    error monad, and the code of other translation units (liblzma's preset
    table and cost model, [options.c], [util.c], [getopt_long], [fopen])
    is taken as the [Collaborators] interface.

    Machine integers: [size_t] and [uint64_t] values are [N] (LP64, both
    64 bits wide), [int] values are [Z]; wrap-around is written out where
    the code can reach it. *)

From Stdlib Require Import ZArith NArith List String Ascii Bool Lia.
From stdpp Require Import base list.
From Equations Require Import Equations.
Import ListNotations.

Local Open Scope string_scope.
Local Open Scope N_scope.

(** ** Outcomes *)

(** Every way [args.c] leaves the process instead of returning: the
    [my_exit(ERROR)] calls (one constructor per diagnostic), the two
    functions documented as "This doesn't return", a failed [assert], and
    the dereference of a null [optarg]. *)
Inductive exit_reason : Type :=
| E_too_many_filters        (* "Maximum number of filters is seven" *)
| E_invalid_suffix          (* "%s: Invalid filename suffix" *)
| E_unknown_format          (* "%s: Unknown file format type" *)
| E_unknown_check           (* "%s: Unknown integrity check type" *)
| E_files_twice             (* "Only one file can be specified with ..." *)
| E_files_open              (* "%s: %s", optarg, strerror(errno) *)
| E_try_help                (* show_try_help(); my_exit(ERROR) *)
| E_env_too_many_args       (* "... LZMA_OPT contains too many arguments" *)
| E_internal_error          (* "Internal error (bug)" *)
| E_lzma_format_filter      (* "With --format=lzma only the LZMA1 ..." *)
| E_memlimit_preset         (* "... too small for any internal filter preset" *)
| E_memlimit_filter_setup   (* "... too small for the given filter setup" *)
| E_collaborator            (* a fatal exit inside str_to_uint64 or
                               parse_options_* *)
| X_show_version
| X_show_help
| A_assert_failed
| U_null_optarg.

Inductive result (A : Type) : Type :=
| Ok (a : A)
| Exit (e : exit_reason).
Arguments Ok {A} a.
Arguments Exit {A} e.

Definition bind {A B : Type} (r : result A) (k : A -> result B) : result B :=
  match r with
  | Ok a => k a
  | Exit e => Exit e
  end.

Declare Scope result_scope.
Delimit Scope result_scope with result.
Notation "x <- r ;; k" := (bind r (fun x => k))
  (at level 100, r at next level, right associativity) : result_scope.
Local Open Scope result_scope.

(** A collaborator that exits on failure, seen as a partial function. *)
Definition or_exit {A : Type} (e : exit_reason) (o : option A) : result A :=
  match o with
  | Some a => Ok a
  | None => Exit e
  end.

(** ** Enumerations of private.h and of liblzma's headers *)

Inductive tool_mode : Type :=
| MODE_COMPRESS | MODE_DECOMPRESS | MODE_TEST | MODE_LIST.

Inductive format_type : Type :=
| FORMAT_AUTO | FORMAT_XZ | FORMAT_LZMA | FORMAT_RAW.

Inductive lzma_check : Type :=
| LZMA_CHECK_NONE | LZMA_CHECK_CRC32 | LZMA_CHECK_CRC64 | LZMA_CHECK_SHA256.

(** Filter identifiers.  The numeric values live in liblzma's headers; the
    code only compares them, so they are an enumeration here.
    [VLI_ZERO] is the id of a slot of the zero-initialised static array
    that has not been written yet. *)
Inductive lzma_vli : Type :=
| LZMA_FILTER_SUBBLOCK | LZMA_FILTER_X86 | LZMA_FILTER_POWERPC
| LZMA_FILTER_IA64 | LZMA_FILTER_ARM | LZMA_FILTER_ARMTHUMB
| LZMA_FILTER_SPARC | LZMA_FILTER_DELTA | LZMA_FILTER_LZMA1
| LZMA_FILTER_LZMA2 | LZMA_VLI_UNKNOWN | VLI_ZERO.

Definition tool_mode_eqb (a b : tool_mode) : bool :=
  match a, b with
  | MODE_COMPRESS, MODE_COMPRESS | MODE_DECOMPRESS, MODE_DECOMPRESS
  | MODE_TEST, MODE_TEST | MODE_LIST, MODE_LIST => true
  | _, _ => false
  end.

Definition format_type_eqb (a b : format_type) : bool :=
  match a, b with
  | FORMAT_AUTO, FORMAT_AUTO | FORMAT_XZ, FORMAT_XZ
  | FORMAT_LZMA, FORMAT_LZMA | FORMAT_RAW, FORMAT_RAW => true
  | _, _ => false
  end.

Definition lzma_vli_eqb (a b : lzma_vli) : bool :=
  match a, b with
  | LZMA_FILTER_SUBBLOCK, LZMA_FILTER_SUBBLOCK
  | LZMA_FILTER_X86, LZMA_FILTER_X86
  | LZMA_FILTER_POWERPC, LZMA_FILTER_POWERPC
  | LZMA_FILTER_IA64, LZMA_FILTER_IA64
  | LZMA_FILTER_ARM, LZMA_FILTER_ARM
  | LZMA_FILTER_ARMTHUMB, LZMA_FILTER_ARMTHUMB
  | LZMA_FILTER_SPARC, LZMA_FILTER_SPARC
  | LZMA_FILTER_DELTA, LZMA_FILTER_DELTA
  | LZMA_FILTER_LZMA1, LZMA_FILTER_LZMA1
  | LZMA_FILTER_LZMA2, LZMA_FILTER_LZMA2
  | LZMA_VLI_UNKNOWN, LZMA_VLI_UNKNOWN
  | VLI_ZERO, VLI_ZERO => true
  | _, _ => false
  end.

(** ** Limits *)

Definition INT_MAX : Z := (2 ^ 31 - 1)%Z.
Definition INT_MIN : Z := (- 2 ^ 31)%Z.
Definition UINT_MOD : N := 2 ^ 32.
Definition SIZE_MOD : N := 2 ^ 64.
Definition SIZE_MAX : N := SIZE_MOD - 1.

(** Modelled from the spec: liblzma's [LZMA_BLOCK_FILTERS_MAX], declared in
    a header that is not part of the sources; the chain holds "the maximum
    of 7 non-terminator entries" and the diagnostic of [add_filter] says
    seven. *)
Definition LZMA_BLOCK_FILTERS_MAX : nat := 7.

(** Pre-decrement of a [size_t]. *)
Definition size_dec (n : N) : N := (n + SIZE_MOD - 1) mod SIZE_MOD.

(** Pre-increment of an [unsigned int]. *)
Definition uint_inc (n : N) : N := (n + 1) mod UINT_MOD.

(** ** Collaborators *)

(** The options a filter entry can point to: [lzma_options_lzma] for LZMA1
    and LZMA2, and the option records of the delta and subblock filters. *)
Inductive options_blob (OL OD OS : Type) : Type :=
| Options_lzma (o : OL)
| Options_delta (o : OD)
| Options_subblock (o : OS).
Arguments Options_lzma {OL OD OS} o.
Arguments Options_delta {OL OD OS} o.
Arguments Options_subblock {OL OD OS} o.

(** What one run of the [getopt_long] loop over an argument vector yields:
    the successive return values with the [optarg] of each (up to the
    final -1), the value [optind] is left with, and the vector as
    [getopt_long] permuted it. *)
Record getopt_run : Type := {
  returned : list (Z * option string);
  last_optind : nat;
  permuted : list string
}.

Inductive has_arg_kind : Type :=
| no_argument | required_argument | optional_argument.

(** [struct option] of getopt.h; the [flag] member is NULL in every row of
    [long_opts] and is left out. *)
Record option_row : Type := {
  name : string;
  has_arg : has_arg_kind;
  val : Z
}.

(** Everything [args.c] calls or reads that is defined elsewhere.
    A function that exits the process on failure is an [option]-valued
    function; [lzma_lzma_preset] returns [None] where the C function
    returns true. *)
Class Collaborators
  (lzma_options_lzma lzma_options_delta lzma_options_subblock FILE : Type)
  : Type := {
  (* liblzma *)
  zeroed_options_lzma : lzma_options_lzma;
  lzma_lzma_preset : N -> option lzma_options_lzma;
  lzma_memusage_encoder :
    list (lzma_vli * option (options_blob lzma_options_lzma
                               lzma_options_delta lzma_options_subblock))
    -> N;
  lzma_memusage_decoder :
    list (lzma_vli * option (options_blob lzma_options_lzma
                               lzma_options_delta lzma_options_subblock))
    -> N;
  (* options.c *)
  parse_options_lzma : option string -> option lzma_options_lzma;
  parse_options_delta : option string -> option lzma_options_delta;
  parse_options_subblock : option string -> option lzma_options_subblock;
  (* util.c *)
  str_to_uint64 : string -> string -> N -> N -> option N;
  str_filename : string -> option string;
  (* the C library *)
  stdin : FILE;
  fopen : string -> string -> option FILE;
  getopt_long : list string -> string -> list option_row -> getopt_run;
  (* enum message_verbosity of private.h *)
  V_SILENT : Z;
  V_DEBUG : Z
}.

Section Args.

(** The option records of liblzma and the C library's [FILE] are opaque
    to [args.c]. *)
Context {lzma_options_lzma lzma_options_delta lzma_options_subblock : Type}.
Context {FILE : Type}.
Context {C : Collaborators lzma_options_lzma lzma_options_delta
               lzma_options_subblock FILE}.

Definition filter_options : Type :=
  options_blob lzma_options_lzma lzma_options_delta lzma_options_subblock.

(** The [void *options] member of a filter entry: null, the address of the
    function-static [opt_lzma] of [set_compression_settings], or a block
    that one of the [parse_options_*] functions allocated and filled. *)
Inductive options_ptr : Type :=
| NULL
| ADDR_opt_lzma
| ALLOCATED (o : filter_options).

Record lzma_filter : Type := {
  id : lzma_vli;
  options : options_ptr
}.

(** ** The globals *)

(** The globals of [args.c], the function-static [opt_lzma], and the
    globals of other files that [args.c] reads or assigns
    ([opt_memory], [opt_threads], [verbosity], [optind]). *)
Record state : Type := {
  opt_mode : tool_mode;
  opt_format : format_type;
  opt_suffix : option string;
  opt_files_name : option string;
  opt_files_split : ascii;
  opt_files_file : option FILE;
  opt_stdout : bool;
  opt_force : bool;
  opt_keep_original : bool;
  opt_preserve_name : bool;
  opt_check : lzma_check;
  opt_filters : list lzma_filter;
  preset_number : N;
  preset_default : bool;
  filter_count : nat;
  format_compress_auto : format_type;
  opt_lzma : lzma_options_lzma;
  opt_memory : N;
  opt_threads : N;
  verbosity : Z;
  optind : nat
}.

Definition set_opt_mode (v : tool_mode) (st : state) : state :=
  Build_state v (opt_format st) (opt_suffix st) (opt_files_name st)
    (opt_files_split st) (opt_files_file st) (opt_stdout st) (opt_force st)
    (opt_keep_original st) (opt_preserve_name st) (opt_check st)
    (opt_filters st) (preset_number st) (preset_default st) (filter_count st)
    (format_compress_auto st) (opt_lzma st) (opt_memory st) (opt_threads st)
    (verbosity st) (optind st).

Definition set_opt_format (v : format_type) (st : state) : state :=
  Build_state (opt_mode st) v (opt_suffix st) (opt_files_name st)
    (opt_files_split st) (opt_files_file st) (opt_stdout st) (opt_force st)
    (opt_keep_original st) (opt_preserve_name st) (opt_check st)
    (opt_filters st) (preset_number st) (preset_default st) (filter_count st)
    (format_compress_auto st) (opt_lzma st) (opt_memory st) (opt_threads st)
    (verbosity st) (optind st).

Definition set_opt_suffix (v : option string) (st : state) : state :=
  Build_state (opt_mode st) (opt_format st) v (opt_files_name st)
    (opt_files_split st) (opt_files_file st) (opt_stdout st) (opt_force st)
    (opt_keep_original st) (opt_preserve_name st) (opt_check st)
    (opt_filters st) (preset_number st) (preset_default st) (filter_count st)
    (format_compress_auto st) (opt_lzma st) (opt_memory st) (opt_threads st)
    (verbosity st) (optind st).

Definition set_opt_files_name (v : option string) (st : state) : state :=
  Build_state (opt_mode st) (opt_format st) (opt_suffix st) v
    (opt_files_split st) (opt_files_file st) (opt_stdout st) (opt_force st)
    (opt_keep_original st) (opt_preserve_name st) (opt_check st)
    (opt_filters st) (preset_number st) (preset_default st) (filter_count st)
    (format_compress_auto st) (opt_lzma st) (opt_memory st) (opt_threads st)
    (verbosity st) (optind st).

Definition set_opt_files_split (v : ascii) (st : state) : state :=
  Build_state (opt_mode st) (opt_format st) (opt_suffix st)
    (opt_files_name st) v (opt_files_file st) (opt_stdout st) (opt_force st)
    (opt_keep_original st) (opt_preserve_name st) (opt_check st)
    (opt_filters st) (preset_number st) (preset_default st) (filter_count st)
    (format_compress_auto st) (opt_lzma st) (opt_memory st) (opt_threads st)
    (verbosity st) (optind st).

Definition set_opt_files_file (v : option FILE) (st : state) : state :=
  Build_state (opt_mode st) (opt_format st) (opt_suffix st)
    (opt_files_name st) (opt_files_split st) v (opt_stdout st) (opt_force st)
    (opt_keep_original st) (opt_preserve_name st) (opt_check st)
    (opt_filters st) (preset_number st) (preset_default st) (filter_count st)
    (format_compress_auto st) (opt_lzma st) (opt_memory st) (opt_threads st)
    (verbosity st) (optind st).

Definition set_opt_stdout (v : bool) (st : state) : state :=
  Build_state (opt_mode st) (opt_format st) (opt_suffix st)
    (opt_files_name st) (opt_files_split st) (opt_files_file st) v
    (opt_force st) (opt_keep_original st) (opt_preserve_name st)
    (opt_check st) (opt_filters st) (preset_number st) (preset_default st)
    (filter_count st) (format_compress_auto st) (opt_lzma st) (opt_memory st)
    (opt_threads st) (verbosity st) (optind st).

Definition set_opt_force (v : bool) (st : state) : state :=
  Build_state (opt_mode st) (opt_format st) (opt_suffix st)
    (opt_files_name st) (opt_files_split st) (opt_files_file st)
    (opt_stdout st) v (opt_keep_original st) (opt_preserve_name st)
    (opt_check st) (opt_filters st) (preset_number st) (preset_default st)
    (filter_count st) (format_compress_auto st) (opt_lzma st) (opt_memory st)
    (opt_threads st) (verbosity st) (optind st).

Definition set_opt_keep_original (v : bool) (st : state) : state :=
  Build_state (opt_mode st) (opt_format st) (opt_suffix st)
    (opt_files_name st) (opt_files_split st) (opt_files_file st)
    (opt_stdout st) (opt_force st) v (opt_preserve_name st) (opt_check st)
    (opt_filters st) (preset_number st) (preset_default st) (filter_count st)
    (format_compress_auto st) (opt_lzma st) (opt_memory st) (opt_threads st)
    (verbosity st) (optind st).

Definition set_opt_preserve_name (v : bool) (st : state) : state :=
  Build_state (opt_mode st) (opt_format st) (opt_suffix st)
    (opt_files_name st) (opt_files_split st) (opt_files_file st)
    (opt_stdout st) (opt_force st) (opt_keep_original st) v (opt_check st)
    (opt_filters st) (preset_number st) (preset_default st) (filter_count st)
    (format_compress_auto st) (opt_lzma st) (opt_memory st) (opt_threads st)
    (verbosity st) (optind st).

Definition set_opt_check (v : lzma_check) (st : state) : state :=
  Build_state (opt_mode st) (opt_format st) (opt_suffix st)
    (opt_files_name st) (opt_files_split st) (opt_files_file st)
    (opt_stdout st) (opt_force st) (opt_keep_original st)
    (opt_preserve_name st) v (opt_filters st) (preset_number st)
    (preset_default st) (filter_count st) (format_compress_auto st)
    (opt_lzma st) (opt_memory st) (opt_threads st) (verbosity st)
    (optind st).

Definition set_opt_filters (v : list lzma_filter) (st : state) : state :=
  Build_state (opt_mode st) (opt_format st) (opt_suffix st)
    (opt_files_name st) (opt_files_split st) (opt_files_file st)
    (opt_stdout st) (opt_force st) (opt_keep_original st)
    (opt_preserve_name st) (opt_check st) v (preset_number st)
    (preset_default st) (filter_count st) (format_compress_auto st)
    (opt_lzma st) (opt_memory st) (opt_threads st) (verbosity st)
    (optind st).

Definition set_preset_number (v : N) (st : state) : state :=
  Build_state (opt_mode st) (opt_format st) (opt_suffix st)
    (opt_files_name st) (opt_files_split st) (opt_files_file st)
    (opt_stdout st) (opt_force st) (opt_keep_original st)
    (opt_preserve_name st) (opt_check st) (opt_filters st) v
    (preset_default st) (filter_count st) (format_compress_auto st)
    (opt_lzma st) (opt_memory st) (opt_threads st) (verbosity st)
    (optind st).

Definition set_preset_default (v : bool) (st : state) : state :=
  Build_state (opt_mode st) (opt_format st) (opt_suffix st)
    (opt_files_name st) (opt_files_split st) (opt_files_file st)
    (opt_stdout st) (opt_force st) (opt_keep_original st)
    (opt_preserve_name st) (opt_check st) (opt_filters st) (preset_number st)
    v (filter_count st) (format_compress_auto st) (opt_lzma st)
    (opt_memory st) (opt_threads st) (verbosity st) (optind st).

Definition set_filter_count (v : nat) (st : state) : state :=
  Build_state (opt_mode st) (opt_format st) (opt_suffix st)
    (opt_files_name st) (opt_files_split st) (opt_files_file st)
    (opt_stdout st) (opt_force st) (opt_keep_original st)
    (opt_preserve_name st) (opt_check st) (opt_filters st) (preset_number st)
    (preset_default st) v (format_compress_auto st) (opt_lzma st)
    (opt_memory st) (opt_threads st) (verbosity st) (optind st).

Definition set_format_compress_auto (v : format_type) (st : state) : state :=
  Build_state (opt_mode st) (opt_format st) (opt_suffix st)
    (opt_files_name st) (opt_files_split st) (opt_files_file st)
    (opt_stdout st) (opt_force st) (opt_keep_original st)
    (opt_preserve_name st) (opt_check st) (opt_filters st) (preset_number st)
    (preset_default st) (filter_count st) v (opt_lzma st) (opt_memory st)
    (opt_threads st) (verbosity st) (optind st).

Definition set_opt_lzma (v : lzma_options_lzma) (st : state) : state :=
  Build_state (opt_mode st) (opt_format st) (opt_suffix st)
    (opt_files_name st) (opt_files_split st) (opt_files_file st)
    (opt_stdout st) (opt_force st) (opt_keep_original st)
    (opt_preserve_name st) (opt_check st) (opt_filters st) (preset_number st)
    (preset_default st) (filter_count st) (format_compress_auto st) v
    (opt_memory st) (opt_threads st) (verbosity st) (optind st).

Definition set_opt_memory (v : N) (st : state) : state :=
  Build_state (opt_mode st) (opt_format st) (opt_suffix st)
    (opt_files_name st) (opt_files_split st) (opt_files_file st)
    (opt_stdout st) (opt_force st) (opt_keep_original st)
    (opt_preserve_name st) (opt_check st) (opt_filters st) (preset_number st)
    (preset_default st) (filter_count st) (format_compress_auto st)
    (opt_lzma st) v (opt_threads st) (verbosity st) (optind st).

Definition set_opt_threads (v : N) (st : state) : state :=
  Build_state (opt_mode st) (opt_format st) (opt_suffix st)
    (opt_files_name st) (opt_files_split st) (opt_files_file st)
    (opt_stdout st) (opt_force st) (opt_keep_original st)
    (opt_preserve_name st) (opt_check st) (opt_filters st) (preset_number st)
    (preset_default st) (filter_count st) (format_compress_auto st)
    (opt_lzma st) (opt_memory st) v (verbosity st) (optind st).

Definition set_verbosity (v : Z) (st : state) : state :=
  Build_state (opt_mode st) (opt_format st) (opt_suffix st)
    (opt_files_name st) (opt_files_split st) (opt_files_file st)
    (opt_stdout st) (opt_force st) (opt_keep_original st)
    (opt_preserve_name st) (opt_check st) (opt_filters st) (preset_number st)
    (preset_default st) (filter_count st) (format_compress_auto st)
    (opt_lzma st) (opt_memory st) (opt_threads st) v (optind st).

Definition set_optind (v : nat) (st : state) : state :=
  Build_state (opt_mode st) (opt_format st) (opt_suffix st)
    (opt_files_name st) (opt_files_split st) (opt_files_file st)
    (opt_stdout st) (opt_force st) (opt_keep_original st)
    (opt_preserve_name st) (opt_check st) (opt_filters st) (preset_number st)
    (preset_default st) (filter_count st) (format_compress_auto st)
    (opt_lzma st) (opt_memory st) (opt_threads st) (verbosity st) v.

(** The initialisers of lines 28-57; the four foreign globals have the
    values the caller's start-up code gave them. *)
Definition initial_state (memory threads : N) (verbose : Z) : state :=
  {| opt_mode := MODE_COMPRESS;
     opt_format := FORMAT_AUTO;
     opt_suffix := None;
     opt_files_name := None;
     opt_files_split := zero;
     opt_files_file := None;
     opt_stdout := false;
     opt_force := false;
     opt_keep_original := false;
     opt_preserve_name := false;
     opt_check := LZMA_CHECK_CRC64;
     opt_filters :=
       replicate (S LZMA_BLOCK_FILTERS_MAX) {| id := VLI_ZERO; options := NULL |};
     preset_number := 7;
     preset_default := true;
     filter_count := 0;
     format_compress_auto := FORMAT_XZ;
     opt_lzma := zeroed_options_lzma;
     opt_memory := memory;
     opt_threads := threads;
     verbosity := verbose;
     optind := 1 |}.

(** ** Option tables (lines 60-127) *)

(** The value of a character constant as an [int]. *)
Definition chr (a : ascii) : Z := Z.of_N (N_of_ascii a).

Definition OPT_SUBBLOCK : Z := INT_MIN.
Definition OPT_X86 : Z := (INT_MIN + 1)%Z.
Definition OPT_POWERPC : Z := (INT_MIN + 2)%Z.
Definition OPT_IA64 : Z := (INT_MIN + 3)%Z.
Definition OPT_ARM : Z := (INT_MIN + 4)%Z.
Definition OPT_ARMTHUMB : Z := (INT_MIN + 5)%Z.
Definition OPT_SPARC : Z := (INT_MIN + 6)%Z.
Definition OPT_DELTA : Z := (INT_MIN + 7)%Z.
Definition OPT_LZMA1 : Z := (INT_MIN + 8)%Z.
Definition OPT_LZMA2 : Z := (INT_MIN + 9)%Z.
Definition OPT_FILES : Z := (INT_MIN + 10)%Z.
Definition OPT_FILES0 : Z := (INT_MIN + 11)%Z.

Definition short_opts : string := "cC:dfF:hlLkM:qrS:tT:vVz123456789".

Definition long_opts : list option_row :=
  [ (* gzip-like options *)
    Build_option_row "fast" no_argument (chr "1");
    Build_option_row "best" no_argument (chr "9");
    Build_option_row "memory" required_argument (chr "M");
    Build_option_row "name" no_argument (chr "N");
    Build_option_row "suffix" required_argument (chr "S");
    Build_option_row "threads" required_argument (chr "T");
    Build_option_row "version" no_argument (chr "V");
    Build_option_row "stdout" no_argument (chr "c");
    Build_option_row "to-stdout" no_argument (chr "c");
    Build_option_row "decompress" no_argument (chr "d");
    Build_option_row "uncompress" no_argument (chr "d");
    Build_option_row "force" no_argument (chr "f");
    Build_option_row "help" no_argument (chr "h");
    Build_option_row "list" no_argument (chr "l");
    Build_option_row "info" no_argument (chr "l");
    Build_option_row "keep" no_argument (chr "k");
    Build_option_row "no-name" no_argument (chr "n");
    Build_option_row "quiet" no_argument (chr "q");
    Build_option_row "test" no_argument (chr "t");
    Build_option_row "verbose" no_argument (chr "v");
    Build_option_row "compress" no_argument (chr "z");
    (* Filters *)
    Build_option_row "subblock" optional_argument OPT_SUBBLOCK;
    Build_option_row "x86" no_argument OPT_X86;
    Build_option_row "bcj" no_argument OPT_X86;
    Build_option_row "powerpc" no_argument OPT_POWERPC;
    Build_option_row "ppc" no_argument OPT_POWERPC;
    Build_option_row "ia64" no_argument OPT_IA64;
    Build_option_row "itanium" no_argument OPT_IA64;
    Build_option_row "arm" no_argument OPT_ARM;
    Build_option_row "armthumb" no_argument OPT_ARMTHUMB;
    Build_option_row "sparc" no_argument OPT_SPARC;
    Build_option_row "delta" optional_argument OPT_DELTA;
    Build_option_row "lzma1" optional_argument OPT_LZMA1;
    Build_option_row "lzma2" optional_argument OPT_LZMA2;
    (* Other *)
    Build_option_row "format" required_argument (chr "F");
    Build_option_row "check" required_argument (chr "C");
    Build_option_row "files" optional_argument OPT_FILES;
    Build_option_row "files0" optional_argument OPT_FILES0 ].

(** ** add_filter (lines 130-166) *)

Definition add_filter (id : lzma_vli) (opt_str : option string) (st : state)
  : result state :=
  if Nat.eqb (filter_count st) LZMA_BLOCK_FILTERS_MAX then
    Exit E_too_many_filters
  else
    o <- match id with
         | LZMA_FILTER_SUBBLOCK =>
             b <- or_exit E_collaborator (parse_options_subblock opt_str) ;;
             Ok (ALLOCATED (Options_subblock b))
         | LZMA_FILTER_DELTA =>
             b <- or_exit E_collaborator (parse_options_delta opt_str) ;;
             Ok (ALLOCATED (Options_delta b))
         | LZMA_FILTER_LZMA1 | LZMA_FILTER_LZMA2 =>
             b <- or_exit E_collaborator (parse_options_lzma opt_str) ;;
             Ok (ALLOCATED (Options_lzma b))
         | _ =>
             match opt_str with
             | None => Ok NULL
             | Some _ => Exit A_assert_failed
             end
         end ;;
    Ok (set_preset_default false
          (set_filter_count (S (filter_count st))
             (set_opt_filters
                (<[filter_count st := {| id := id; options := o |}]>
                   (opt_filters st)) st))).

(** ** parse_real (lines 169-413) *)

(** The test [p != NULL]. *)
Definition non_null {A : Type} (p : option A) : bool :=
  match p with
  | Some _ => true
  | None => false
  end.

(** [strchr]: the rest of the string from the first occurrence of [c] on,
    or [None] for the null pointer. *)
Fixpoint strchr (s : string) (c : ascii) : option string :=
  match s with
  | EmptyString => None
  | String a rest => if Ascii.eqb a c then Some s else strchr rest c
  end.

(** The search loops of [--format] and [--check]: the first row whose
    string compares equal to [optarg]; running off the table is the fatal
    branch. *)
Fixpoint types_lookup {T : Type} (types : list (string * T)) (arg : string)
  : option T :=
  match types with
  | [] => None
  | (str, t) :: rest =>
      if String.eqb str arg then Some t else types_lookup rest arg
  end.

Definition format_types : list (string * format_type) :=
  [ ("auto", FORMAT_AUTO); ("xz", FORMAT_XZ); ("lzma", FORMAT_LZMA);
    ("alone", FORMAT_LZMA); ("raw", FORMAT_RAW) ].

Definition check_types : list (string * lzma_check) :=
  [ ("none", LZMA_CHECK_NONE); ("crc32", LZMA_CHECK_CRC32);
    ("crc64", LZMA_CHECK_CRC64); ("sha256", LZMA_CHECK_SHA256) ].

(** An option that [getopt_long] hands over with its required argument. *)
Definition required (optarg : option string) : result string :=
  or_exit U_null_optarg optarg.

(** The body of [case OPT_FILES0], which [case OPT_FILES] falls into. *)
Definition files_from (c : Z) (optarg : option string) (st : state)
  : result state :=
  match opt_files_name st with
  | Some _ => Exit E_files_twice
  | None =>
      match optarg with
      | None =>
          Ok (set_opt_files_file (Some stdin)
                (set_opt_files_name (Some "(stdin)") st))
      | Some path =>
          f <- or_exit E_files_open
                 (fopen path (if (c =? OPT_FILES)%Z then "r" else "rb")) ;;
          Ok (set_opt_files_file (Some f)
                (set_opt_files_name (Some path) st))
      end
  end.

(** One turn of the [while] loop: the [switch] on the value [c] that
    [getopt_long] returned. *)
Definition parse_option (c : Z) (optarg : option string) (st : state)
  : result state :=
  if ((chr "1" <=? c) && (c <=? chr "9"))%Z then
    Ok (set_preset_default false
          (set_preset_number (Z.to_N (c - chr "0")) st))
  else if (c =? chr "M")%Z then
    arg <- required optarg ;;
    m <- or_exit E_collaborator (str_to_uint64 "memory" arg 1 SIZE_MAX) ;;
    Ok (set_opt_memory m st)
  else if (c =? chr "N")%Z then Ok (set_opt_preserve_name true st)
  else if (c =? chr "S")%Z then
    arg <- required optarg ;;
    if String.eqb arg EmptyString || non_null (strchr arg "/")
    then Exit E_invalid_suffix
    else Ok (set_opt_suffix (Some arg) st)
  else if (c =? chr "T")%Z then
    arg <- required optarg ;;
    t <- or_exit E_collaborator (str_to_uint64 "threads" arg 1 SIZE_MAX) ;;
    Ok (set_opt_threads t st)
  else if (c =? chr "V")%Z then Exit X_show_version
  else if (c =? chr "c")%Z then Ok (set_opt_stdout true st)
  else if (c =? chr "d")%Z then Ok (set_opt_mode MODE_DECOMPRESS st)
  else if (c =? chr "f")%Z then Ok (set_opt_force true st)
  else if (c =? chr "h")%Z then Exit X_show_help
  else if (c =? chr "l")%Z then Ok (set_opt_mode MODE_LIST st)
  else if (c =? chr "k")%Z then Ok (set_opt_keep_original true st)
  else if (c =? chr "n")%Z then Ok (set_opt_preserve_name false st)
  else if (c =? chr "q")%Z then
    Ok (if (verbosity st >? V_SILENT)%Z
        then set_verbosity (verbosity st - 1)%Z st else st)
  else if (c =? chr "t")%Z then Ok (set_opt_mode MODE_TEST st)
  else if (c =? chr "v")%Z then
    Ok (if (verbosity st <? V_DEBUG)%Z
        then set_verbosity (verbosity st + 1)%Z st else st)
  else if (c =? chr "z")%Z then Ok (set_opt_mode MODE_COMPRESS st)
  else if (c =? OPT_SUBBLOCK)%Z then add_filter LZMA_FILTER_SUBBLOCK optarg st
  else if (c =? OPT_X86)%Z then add_filter LZMA_FILTER_X86 None st
  else if (c =? OPT_POWERPC)%Z then add_filter LZMA_FILTER_POWERPC None st
  else if (c =? OPT_IA64)%Z then add_filter LZMA_FILTER_IA64 None st
  else if (c =? OPT_ARM)%Z then add_filter LZMA_FILTER_ARM None st
  else if (c =? OPT_ARMTHUMB)%Z then add_filter LZMA_FILTER_ARMTHUMB None st
  else if (c =? OPT_SPARC)%Z then add_filter LZMA_FILTER_SPARC None st
  else if (c =? OPT_DELTA)%Z then add_filter LZMA_FILTER_DELTA optarg st
  else if (c =? OPT_LZMA1)%Z then add_filter LZMA_FILTER_LZMA1 optarg st
  else if (c =? OPT_LZMA2)%Z then add_filter LZMA_FILTER_LZMA2 optarg st
  else if (c =? chr "F")%Z then
    arg <- required optarg ;;
    f <- or_exit E_unknown_format (types_lookup format_types arg) ;;
    Ok (set_opt_format f st)
  else if (c =? chr "C")%Z then
    arg <- required optarg ;;
    k <- or_exit E_unknown_check (types_lookup check_types arg) ;;
    Ok (set_opt_check k st)
  else if (c =? OPT_FILES)%Z then
    files_from c optarg (set_opt_files_split "010"%char st)
  else if (c =? OPT_FILES0)%Z then files_from c optarg st
  else Exit E_try_help.

(** The loop over the values [getopt_long] returns until it returns -1. *)
Fixpoint parse_options (rets : list (Z * option string)) (st : state)
  : result state :=
  match rets with
  | [] => Ok st
  | (c, optarg) :: rest =>
      st' <- parse_option c optarg st ;;
      parse_options rest st'
  end.

(** [parse_real]: besides the globals it leaves [optind] and the permuted
    argument vector behind.  Both callers start it with [optind] at 1. *)
Definition parse_real (argv : list string) (st : state)
  : result (state * list string) :=
  let run := getopt_long argv short_opts long_opts in
  st' <- parse_options (returned run) st ;;
  Ok (set_optind (last_optind run) st', permuted run).

(** ** parse_environment (lines 416-462) *)

(** [isspace] in the "C" locale: space and the five controls from
    horizontal tab to carriage return. *)
Definition isspace (a : ascii) : bool :=
  let n := N_of_ascii a in (n =? 32) || ((9 <=? n) && (n <=? 13)).

(** The first [for] loop: the number of arguments in [env], counted from
    the [argc] and [prev_was_space] it is entered with. *)
Fixpoint count_args (env : string) (argc : N) (prev_was_space : bool)
  : result N :=
  match env with
  | EmptyString => Ok argc
  | String a rest =>
      if isspace a then count_args rest argc true
      else if prev_was_space then
        let argc' := uint_inc argc in
        if (Z.of_N argc' >? INT_MAX)%Z then Exit E_env_too_many_args
        else count_args rest argc' false
      else count_args rest argc prev_was_space
  end.

(** A slot of the synthetic vector: as [xmalloc] left it, [argv0], the
    address [env + i], or the null pointer. *)
Inductive arg_ptr : Type :=
| UNINIT
| PTR_argv0
| PTR_env (i : nat)
| PTR_NULL.

(** The second [for] loop, over the characters from index [i] on:
    [argv[argc++] = env + i] at the first character of every run of
    non-space characters.  No character of [env] is overwritten. *)
Fixpoint fill_args (env : string) (i : nat) (argc : N) (prev_was_space : bool)
  (argv : list arg_ptr) : list arg_ptr * N :=
  match env with
  | EmptyString => (argv, argc)
  | String a rest =>
      if isspace a then fill_args rest (S i) argc true argv
      else if prev_was_space then
        fill_args rest (S i) (uint_inc argc) false
          (<[N.to_nat argc := PTR_env i]> argv)
      else fill_args rest (S i) argc prev_was_space argv
  end.

(** Lines 425-455: the vector and the [argc] handed to [parse_real]. *)
Definition environment_argv (env : string) : result (list arg_ptr * N) :=
  argc <- count_args env 1 true ;;
  let argv := replicate (N.to_nat argc + 1) UNINIT in
  let argv := <[0%nat := PTR_argv0]> argv in
  let argv := <[N.to_nat argc := PTR_NULL]> argv in
  Ok (fill_args env 0 1 true argv).

(** The characters from index [i] of [s] up to its terminating NUL: the C
    string at the address [s + i]. *)
Fixpoint string_at (s : string) (i : nat) : string :=
  match i, s with
  | O, _ => s
  | S j, String _ rest => string_at rest j
  | S _, EmptyString => EmptyString
  end.

(** The C string a slot points to; none for the null pointer and for a
    slot that was never written. *)
Definition arg_string (argv0 env : string) (p : arg_ptr) : option string :=
  match p with
  | PTR_argv0 => Some argv0
  | PTR_env i => Some (string_at env i)
  | PTR_NULL | UNINIT => None
  end.

(** What a reader of the vector sees: one C string per slot, [None] at the
    terminating null pointer. *)
Definition argv_view (argv0 env : string) (argv : list arg_ptr)
  : list (option string) :=
  map (arg_string argv0 env) argv.

(** The [argc] strings [getopt_long] is given. *)
Definition argv_strings (argv0 env : string) (argv : list arg_ptr) (argc : N)
  : list string :=
  omap (arg_string argv0 env) (take (N.to_nat argc) argv).

(** [getenv("LZMA_OPT")] and the global [argv0] are inputs. *)
Definition parse_environment (getenv_LZMA_OPT : option string)
  (argv0 : string) (st : state) : result state :=
  match getenv_LZMA_OPT with
  | None => Ok st
  | Some env =>
      v <- environment_argv env ;;
      r <- parse_real (argv_strings argv0 env (fst v) (snd v)) st ;;
      Ok (fst r)
  end.

(** ** set_compression_settings (lines 465-544) *)

(** The entries a reader of [opt_filters] sees: those before the first
    [LZMA_VLI_UNKNOWN]. *)
Fixpoint filters_upto_unknown (fs : list lzma_filter) : list lzma_filter :=
  match fs with
  | [] => []
  | f :: rest =>
      if lzma_vli_eqb (id f) LZMA_VLI_UNKNOWN then []
      else f :: filters_upto_unknown rest
  end.

(** What an [options] pointer points to right now.  [ADDR_opt_lzma] reads
    the current contents of [opt_lzma], so an entry that holds it changes
    whenever [lzma_lzma_preset] refills [opt_lzma]. *)
Definition deref (st : state) (p : options_ptr) : option filter_options :=
  match p with
  | NULL => None
  | ADDR_opt_lzma => Some (Options_lzma (opt_lzma st))
  | ALLOCATED o => Some o
  end.

(** The chain [lzma_memusage_encoder(opt_filters)] and
    [lzma_memusage_decoder(opt_filters)] are given. *)
Definition chain (st : state) : list (lzma_vli * option filter_options) :=
  map (fun f => (id f, deref st (options f)))
    (filters_upto_unknown (opt_filters st)).

(** The filter the default chain consists of. *)
Definition default_filter_id (format : format_type) : lzma_vli :=
  if format_type_eqb format FORMAT_LZMA
  then LZMA_FILTER_LZMA1 else LZMA_FILTER_LZMA2.

(** Lines 470-480. *)
Definition default_chain (st : state) : result state :=
  if Nat.eqb (filter_count st) 0 then
    o <- or_exit E_internal_error (lzma_lzma_preset (preset_number st)) ;;
    let f := {| id := default_filter_id (opt_format st);
                options := ADDR_opt_lzma |} in
    Ok (set_filter_count 1
          (set_opt_filters (<[0%nat := f]> (opt_filters st))
             (set_opt_lzma o st)))
  else Ok st.

(** Line 483: only the [id] member of the slot is assigned. *)
Definition terminate_chain (st : state) : state :=
  set_opt_filters
    (alter (fun f => {| id := LZMA_VLI_UNKNOWN; options := options f |})
       (filter_count st) (opt_filters st)) st.

(** [opt_filters[i].id]. *)
Definition filter_id (st : state) (i : nat) : lzma_vli :=
  match opt_filters st !! i with
  | Some f => id f
  | None => VLI_ZERO
  end.

(** Lines 487-492. *)
Definition lzma_format_check (st : state) : result state :=
  if format_type_eqb (opt_format st) FORMAT_LZMA
     && (negb (Nat.eqb (filter_count st) 1)
         || negb (lzma_vli_eqb (filter_id st 0) LZMA_FILTER_LZMA1))
  then Exit E_lzma_format_filter
  else Ok st.

(** Lines 497-499. *)
Definition initial_memory_usage (st : state) : N :=
  if tool_mode_eqb (opt_mode st) MODE_COMPRESS
  then lzma_memusage_encoder (chain st)
  else lzma_memusage_decoder (chain st).

(** The number of turns the loop of lines 504-518 has left at most: the
    decrements that take [preset_number] down to 1, through the wrap to
    [SIZE_MAX] when it starts at 0. *)
Definition turns_left (n : N) : nat :=
  N.to_nat (if n <? SIZE_MOD then size_dec n else SIZE_MOD).

(** The [while] loop of lines 504-518, entered with the local
    [memory_usage]; it returns the globals and the final [memory_usage].
    The pre-decrement is stored before [lzma_lzma_preset] is called, and
    the usage is recomputed with [lzma_memusage_encoder] whatever the
    mode. *)
Equations? lower_preset (st : state) (memory_usage : N) : result (state * N)
  by wf (turns_left (preset_number st)) lt :=
  lower_preset st memory_usage with N.ltb (opt_memory st) memory_usage := {
    | false => Ok (st, memory_usage)
    | true with N.eq_dec (preset_number st) 1 := {
      | left _ => Exit E_memlimit_preset
      | right Hne with lzma_lzma_preset (size_dec (preset_number st)) := {
        | None => Exit E_internal_error
        | Some o =>
            let st' := set_opt_lzma o
                         (set_preset_number (size_dec (preset_number st)) st) in
            lower_preset st' (lzma_memusage_encoder (chain st')) } } }.
Proof.
  simpl. unfold turns_left. set (n := preset_number st) in *.
  assert (Hmod : forall k, size_dec k < SIZE_MOD)
    by (intros k; apply N.mod_lt; discriminate).
  assert (Hpos : forall k, 1 <= k < SIZE_MOD -> size_dec k = k - 1).
  { intros k Hk. unfold size_dec.
    replace (k + SIZE_MOD - 1) with (k - 1 + 1 * SIZE_MOD) by lia.
    rewrite N.Div0.mod_add. apply N.mod_small. lia. }
  assert (Hnat : forall a b : N, a < b -> (N.to_nat a < N.to_nat b)%nat)
    by (intros; lia).
  apply Hnat.
  rewrite (proj2 (N.ltb_lt _ _) (Hmod n)).
  destruct (N.ltb_spec n SIZE_MOD) as [Hb | Hb]; [| apply Hmod].
  destruct (N.eq_dec n 0) as [Hz | Hz]; [rewrite Hz; reflexivity |].
  rewrite (Hpos n) by lia. rewrite (Hpos (n - 1)) by lia. lia.
Qed.

(** Lines 503-531. *)
Definition memory_limit (st : state) (memory_usage : N)
  : result (state * N) :=
  if preset_default st then lower_preset st memory_usage
  else if opt_memory st <? memory_usage then Exit E_memlimit_filter_setup
  else Ok (st, memory_usage).

(** Lines 535-541.  A failed [assert] ends the process. *)
Definition limit_threads (memory_usage : N) (st : state) : result state :=
  if memory_usage =? 0 then Exit A_assert_failed
  else
    let thread_limit := opt_memory st / memory_usage in
    let thread_limit := if thread_limit =? 0 then 1 else thread_limit in
    Ok (if thread_limit <? opt_threads st
        then set_opt_threads thread_limit st else st).

(** Lines 470-531: the globals and the local [memory_usage] as they
    reach the thread limit. *)
Definition settle_memory_usage (st : state) : result (state * N) :=
  st1 <- default_chain st ;;
  st2 <- lzma_format_check (terminate_chain st1) ;;
  memory_limit st2 (initial_memory_usage st2).

Definition set_compression_settings (st : state) : result state :=
  r <- settle_memory_usage st ;;
  limit_threads (snd r) (fst r).

(** ** Vocabulary of the statements *)

(** [opt_filters] has the [LZMA_BLOCK_FILTERS_MAX + 1] slots of its
    declaration. *)
Definition array_sized (st : state) : Prop :=
  length (opt_filters st) = S LZMA_BLOCK_FILTERS_MAX.

(** The chain that consists of the default filter with the options [o]. *)
Definition preset_chain (format : format_type) (o : lzma_options_lzma)
  : list (lzma_vli * option filter_options) :=
  [(default_filter_id format, Some (Options_lzma o))].

(** The shape of [opt_filters] once the default chain is in place and
    terminated: the default filter, whose options are [opt_lzma] itself,
    then the terminator. *)
Definition holds_default_chain (st : state) : Prop :=
  exists p rest,
    opt_filters st =
      {| id := default_filter_id (opt_format st); options := ADDR_opt_lzma |}
      :: {| id := LZMA_VLI_UNKNOWN; options := p |} :: rest.

(** The usage the Resolver computes first, for a default chain at the
    options [o]. *)
Definition first_estimate (st : state) (o : lzma_options_lzma) : N :=
  if tool_mode_eqb (opt_mode st) MODE_COMPRESS
  then lzma_memusage_encoder (preset_chain (opt_format st) o)
  else lzma_memusage_decoder (preset_chain (opt_format st) o).

(** The values [getopt_long] returns for [-1] ... [-9], [--fast] and
    [--best]. *)
Definition is_preset_flag (c : Z) : bool :=
  ((chr "1" <=? c) && (c <=? chr "9"))%Z.

(** The values [getopt_long] returns for the filter options, [--subblock]
    to [--lzma2]. *)
Definition is_filter_flag (c : Z) : bool :=
  ((OPT_SUBBLOCK <=? c) && (c <=? OPT_LZMA2))%Z.

(** The verbosity is a level of [enum message_verbosity]. *)
Definition verbosity_in_range (st : state) : Prop :=
  (V_SILENT <= verbosity st <= V_DEBUG)%Z.

(** One [--quiet] or [--verbose] on a level [v], as the spec words it: a
    step down unless at the floor, a step up unless at the ceiling. *)
Definition saturating_step (v : Z) (r : Z * option string) : Z :=
  if (fst r =? chr "q")%Z
  then (if (V_SILENT <? v)%Z then v - 1 else v)%Z
  else (if (v <? V_DEBUG)%Z then v + 1 else v)%Z.

(** An option that is neither a preset flag nor a filter flag. *)
Definition leaves_chain_alone (r : Z * option string) : Prop :=
  is_preset_flag (fst r) = false /\ is_filter_flag (fst r) = false.

(** Two states with the same preset and the same chain. *)
Definition same_chain (st st' : state) : Prop :=
  preset_number st' = preset_number st /\
  preset_default st' = preset_default st /\
  filter_count st' = filter_count st /\
  opt_filters st' = opt_filters st.

(** The fields the loop leaves alone. *)
Definition same_but_preset (st st' : state) : Prop :=
  opt_mode st' = opt_mode st /\ opt_format st' = opt_format st /\
  opt_stdout st' = opt_stdout st /\
  opt_keep_original st' = opt_keep_original st /\
  opt_filters st' = opt_filters st /\ filter_count st' = filter_count st /\
  preset_default st' = preset_default st /\
  opt_memory st' = opt_memory st /\ opt_threads st' = opt_threads st.

(** The offsets the second loop of [parse_environment] stores, counted
    from [i]: where a character that is not a space follows the start of
    the value or a space. *)
Fixpoint token_starts (env : string) (i : nat) (prev_was_space : bool)
  : list nat :=
  match env with
  | EmptyString => []
  | String a rest =>
      if isspace a then token_starts rest (S i) true
      else if prev_was_space then i :: token_starts rest (S i) false
      else token_starts rest (S i) false
  end.

(** The strings at those offsets: the rest of the value from each token
    on. *)
Fixpoint token_suffixes (env : string) (prev_was_space : bool)
  : list string :=
  match env with
  | EmptyString => []
  | String a rest =>
      if isspace a then token_suffixes rest true
      else if prev_was_space then env :: token_suffixes rest false
      else token_suffixes rest false
  end.

(** The characters of [s] before its first space. *)
Fixpoint first_token (s : string) : string :=
  match s with
  | EmptyString => EmptyString
  | String a rest =>
      if isspace a then EmptyString else String a (first_token rest)
  end.

(** The whitespace-delimited tokens of a value, as the spec words them:
    the pieces between space characters, without the empty ones that a
    run of spaces or a leading or trailing space leaves. *)
Fixpoint split_at_spaces (s : string) : list string :=
  match s with
  | EmptyString => [EmptyString]
  | String a rest =>
      if isspace a then EmptyString :: split_at_spaces rest
      else match split_at_spaces rest with
           | piece :: pieces => String a piece :: pieces
           | [] => [String a EmptyString]
           end
  end.

Definition non_empty (s : string) : bool :=
  match s with
  | EmptyString => false
  | String _ _ => true
  end.

Definition tokens (s : string) : list string :=
  List.filter non_empty (split_at_spaces s).

(** ** parse_args (lines 547-597) *)

(** [strstr]: the rest of [s] from the first occurrence of [needle] on, or
    [None] for the null pointer. *)
Fixpoint strstr (s needle : string) : option string :=
  if String.prefix needle s then Some s
  else match s with
       | EmptyString => None
       | String _ rest => strstr rest needle
       end.

(** Lines 551-566, for the [argv[0]] of the process. *)
Definition name_defaults (arg0 : string) (st : state) : state :=
  match str_filename arg0 with
  | None => st
  | Some name =>
      let st := if non_null (strstr name "lz")
                then set_format_compress_auto FORMAT_LZMA st else st in
      if non_null (strstr name "cat")
      then set_opt_stdout true (set_opt_mode MODE_DECOMPRESS st)
      else if non_null (strstr name "un") then set_opt_mode MODE_DECOMPRESS st
      else st
  end.

(** Lines 551-573: everything up to and including the two [parse_real]
    passes. *)
Definition parse_flags (getenv_LZMA_OPT : option string) (argv0 : string)
  (argv : list string) (st : state) : result (state * list string) :=
  let st := match argv with
            | arg0 :: _ => name_defaults arg0 st
            | [] => st
            end in
  st <- parse_environment getenv_LZMA_OPT argv0 st ;;
  parse_real argv (set_optind 1 st).

(** Lines 575-584. *)
Definition stdout_and_format (st : state) : state :=
  let st := if opt_stdout st || tool_mode_eqb (opt_mode st) MODE_TEST
            then set_opt_stdout true (set_opt_keep_original true st)
            else st in
  if tool_mode_eqb (opt_mode st) MODE_COMPRESS
     && format_type_eqb (opt_format st) FORMAT_AUTO
  then set_opt_format (format_compress_auto st) st
  else st.

(** Lines 575-587, on the globals the two passes left. *)
Definition finish_settings (st : state) : result state :=
  let st := stdout_and_format st in
  if tool_mode_eqb (opt_mode st) MODE_COMPRESS
     || format_type_eqb (opt_format st) FORMAT_RAW
  then set_compression_settings st
  else Ok st.

(** [parse_args] returns the file names to process next to the globals. *)
Definition parse_args (getenv_LZMA_OPT : option string) (argv0 : string)
  (argv : list string) (st : state) : result (state * list string) :=
  r <- parse_flags getenv_LZMA_OPT argv0 argv st ;;
  st <- finish_settings (fst r) ;;
  match snd r !! optind st, opt_files_name st with
  | None, None => Ok (st, ["-"])
  | _, _ => Ok (st, drop (optind st) (snd r))
  end.

(** The values the [getopt_long] loop of the environment pass meets:
    none when [LZMA_OPT] is unset or has too many arguments. *)
Definition environment_returned (getenv_LZMA_OPT : option string)
  (argv0 : string) : list (Z * option string) :=
  match getenv_LZMA_OPT with
  | None => []
  | Some env =>
      match environment_argv env with
      | Ok v =>
          returned
            (getopt_long (argv_strings argv0 env (fst v) (snd v))
               short_opts long_opts)
      | Exit _ => []
      end
  end.

(** The values the loop of the command-line pass meets. *)
Definition command_line_returned (argv : list string)
  : list (Z * option string) :=
  returned (getopt_long argv short_opts long_opts).

(** ** Vocabulary of the further statements *)

(** The mode an option selects, for the four options that select one. *)
Definition mode_of_flag (c : Z) : option tool_mode :=
  if (c =? chr "d")%Z then Some MODE_DECOMPRESS
  else if (c =? chr "l")%Z then Some MODE_LIST
  else if (c =? chr "t")%Z then Some MODE_TEST
  else if (c =? chr "z")%Z then Some MODE_COMPRESS
  else None.

(** The filter an option adds, for the ten filter options. *)
Definition filter_of_flag (c : Z) : option lzma_vli :=
  if (c =? OPT_SUBBLOCK)%Z then Some LZMA_FILTER_SUBBLOCK
  else if (c =? OPT_X86)%Z then Some LZMA_FILTER_X86
  else if (c =? OPT_POWERPC)%Z then Some LZMA_FILTER_POWERPC
  else if (c =? OPT_IA64)%Z then Some LZMA_FILTER_IA64
  else if (c =? OPT_ARM)%Z then Some LZMA_FILTER_ARM
  else if (c =? OPT_ARMTHUMB)%Z then Some LZMA_FILTER_ARMTHUMB
  else if (c =? OPT_SPARC)%Z then Some LZMA_FILTER_SPARC
  else if (c =? OPT_DELTA)%Z then Some LZMA_FILTER_DELTA
  else if (c =? OPT_LZMA1)%Z then Some LZMA_FILTER_LZMA1
  else if (c =? OPT_LZMA2)%Z then Some LZMA_FILTER_LZMA2
  else None.

(** The two options that name a list of files. *)
Definition is_files_flag (c : Z) : bool :=
  ((c =? OPT_FILES) || (c =? OPT_FILES0))%Z.

(** What the [switch] of [parse_real] does to the globals when it does not
    end the process, one rule per group of [case] labels. *)
Inductive option_effect (st : state) : Z -> option string -> state -> Prop :=
| effect_preset c optarg :
    is_preset_flag c = true ->
    option_effect st c optarg
      (set_preset_default false (set_preset_number (Z.to_N (c - chr "0")) st))
| effect_memory arg m :
    str_to_uint64 "memory" arg 1 SIZE_MAX = Some m ->
    option_effect st (chr "M") (Some arg) (set_opt_memory m st)
| effect_name optarg :
    option_effect st (chr "N") optarg (set_opt_preserve_name true st)
| effect_no_name optarg :
    option_effect st (chr "n") optarg (set_opt_preserve_name false st)
| effect_suffix arg :
    arg <> EmptyString ->
    strchr arg "/" = None ->
    option_effect st (chr "S") (Some arg) (set_opt_suffix (Some arg) st)
| effect_threads arg t :
    str_to_uint64 "threads" arg 1 SIZE_MAX = Some t ->
    option_effect st (chr "T") (Some arg) (set_opt_threads t st)
| effect_stdout optarg :
    option_effect st (chr "c") optarg (set_opt_stdout true st)
| effect_force optarg :
    option_effect st (chr "f") optarg (set_opt_force true st)
| effect_keep optarg :
    option_effect st (chr "k") optarg (set_opt_keep_original true st)
| effect_mode c optarg m :
    mode_of_flag c = Some m ->
    option_effect st c optarg (set_opt_mode m st)
| effect_quiet optarg :
    option_effect st (chr "q") optarg
      (if (verbosity st >? V_SILENT)%Z
       then set_verbosity (verbosity st - 1)%Z st else st)
| effect_verbose optarg :
    option_effect st (chr "v") optarg
      (if (verbosity st <? V_DEBUG)%Z
       then set_verbosity (verbosity st + 1)%Z st else st)
| effect_filter c optarg i opt_str st' :
    filter_of_flag c = Some i ->
    add_filter i opt_str st = Ok st' ->
    option_effect st c optarg st'
| effect_format arg f :
    types_lookup format_types arg = Some f ->
    option_effect st (chr "F") (Some arg) (set_opt_format f st)
| effect_check arg k :
    types_lookup check_types arg = Some k ->
    option_effect st (chr "C") (Some arg) (set_opt_check k st)
| effect_files c optarg name f :
    is_files_flag c = true ->
    opt_files_name st = None ->
    option_effect st c optarg
      (set_opt_files_file (Some f)
         (set_opt_files_name (Some name)
            (if (c =? OPT_FILES)%Z
             then set_opt_files_split "010"%char st else st))).

(** The mode the last mode option of a sequence leaves, from [m]. *)
Definition last_mode (rets : list (Z * option string)) (m : tool_mode)
  : tool_mode :=
  fold_left
    (fun m r => match mode_of_flag (fst r) with
                | Some m' => m'
                | None => m
                end) rets m.

(** The filters a sequence of options adds, in their order. *)
Definition filters_of_flags (rets : list (Z * option string))
  : list lzma_vli :=
  omap (fun r => filter_of_flag (fst r)) rets.

(** The number of [--files] and [--files0] in a sequence of options. *)
Definition files_flags (rets : list (Z * option string)) : nat :=
  length (List.filter (fun r => is_files_flag (fst r)) rets).

(** Do the options an entry points to belong to the filter of its id?
    LZMA options for LZMA1 and LZMA2, the delta and subblock records for
    their filters, none for the six simple filters. *)
Definition kind_fits (i : lzma_vli) (o : option filter_options) : bool :=
  match i, o with
  | LZMA_FILTER_SUBBLOCK, Some (Options_subblock _)
  | LZMA_FILTER_DELTA, Some (Options_delta _)
  | LZMA_FILTER_LZMA1, Some (Options_lzma _)
  | LZMA_FILTER_LZMA2, Some (Options_lzma _)
  | LZMA_FILTER_X86, None | LZMA_FILTER_POWERPC, None
  | LZMA_FILTER_IA64, None | LZMA_FILTER_ARM, None
  | LZMA_FILTER_ARMTHUMB, None | LZMA_FILTER_SPARC, None => true
  | _, _ => false
  end.

(** The state of [opt_filters] that [add_filter] keeps: the array has its
    eight slots, at most seven of them are in use, and each slot in use
    holds a filter with options of its kind. *)
Definition chain_ok (st : state) : Prop :=
  array_sized st /\
  (filter_count st <= LZMA_BLOCK_FILTERS_MAX)%nat /\
  forall i f,
    (i < filter_count st)%nat ->
    opt_filters st !! i = Some f ->
    kind_fits (id f) (deref st (options f)) = true.

(** The globals [set_compression_settings] has no assignment to. *)
Definition untouched_by_settings (st st' : state) : Prop :=
  opt_mode st' = opt_mode st /\ opt_format st' = opt_format st /\
  opt_suffix st' = opt_suffix st /\
  opt_files_name st' = opt_files_name st /\
  opt_files_split st' = opt_files_split st /\
  opt_files_file st' = opt_files_file st /\
  opt_stdout st' = opt_stdout st /\ opt_force st' = opt_force st /\
  opt_keep_original st' = opt_keep_original st /\
  opt_preserve_name st' = opt_preserve_name st /\
  opt_check st' = opt_check st /\
  preset_default st' = preset_default st /\
  format_compress_auto st' = format_compress_auto st /\
  opt_memory st' = opt_memory st /\ verbosity st' = verbosity st /\
  optind st' = optind st.

(** A file list that is named counts for one. *)
Definition named_lists (st : state) : nat :=
  match opt_files_name st with
  | Some _ => 1
  | None => 0
  end.

(** A suffix the code can work with: not empty and without a slash. *)
Definition usable_suffix (s : string) : Prop :=
  s <> EmptyString /\ ~ In "/"%char (list_ascii_of_string s).

(** The state [parse_args] starts from after the invocation name was
    looked at. *)
Definition named_state (argv : list string) (st : state) : state :=
  match argv with
  | arg0 :: _ => name_defaults arg0 st
  | [] => st
  end.

End Args.

(** ** A small instance of the collaborators

    It runs the model on concrete command lines: presets whose options
    are the level itself, a cost model that charges an encoder ten times
    what it charges a decoder, decimal numbers, and a [getopt_long] for
    short options without permutation. *)
Module Sample.

Fixpoint decimal (s : string) (acc : N) : option N :=
  match s with
  | EmptyString => Some acc
  | String a rest =>
      let d := N_of_ascii a in
      if (48 <=? d) && (d <=? 57) then decimal rest (10 * acc + (d - 48))
      else None
  end.

Definition decimal_in_range (_ value : string) (min max : N) : option N :=
  match value with
  | EmptyString => None
  | _ =>
      match decimal value 0 with
      | Some n => if (min <=? n) && (n <=? max) then Some n else None
      | None => None
      end
  end.

Definition preset (level : N) : option N :=
  if (1 <=? level) && (level <=? 9) then Some level else None.

Definition cost (unit_cost : N)
  (filters : list (lzma_vli * option (options_blob N unit unit))) : N :=
  fold_right
    (fun f acc =>
       match snd f with
       | Some (Options_lzma level) => unit_cost * level + acc
       | _ => 1 + acc
       end) 0 filters.

(** Does the short option [c] take an argument according to [opts]? *)
Fixpoint takes_arg (opts : string) (c : ascii) : bool :=
  match opts with
  | String a (String b rest as tl) =>
      if Ascii.eqb a c then Ascii.eqb b ":" else takes_arg tl c
  | _ => false
  end.

Fixpoint is_short (opts : string) (c : ascii) : bool :=
  match opts with
  | EmptyString => false
  | String a rest => (Ascii.eqb a c && negb (Ascii.eqb c ":")) || is_short rest c
  end.

(** Arguments of the shape [-x], with the next argument as [optarg] where
    [x] takes one; the scan stops at the first other argument. *)
Fixpoint scan (opts : string) (args : list string) (index : nat)
  : list (Z * option string) * nat :=
  match args with
  | String "-" (String c EmptyString) :: rest =>
      if is_short opts c then
        if takes_arg opts c then
          match rest with
          | value :: rest' =>
              let r := scan opts rest' (S (S index)) in
              ((chr c, Some value) :: fst r, snd r)
          | [] => ([(chr "?", None)], S index)
          end
        else
          let r := scan opts rest (S index) in
          ((chr c, None) :: fst r, snd r)
      else
        let r := scan opts rest (S index) in
        ((chr "?", None) :: fst r, snd r)
  | _ => ([], index)
  end.

Definition short_getopt (argv : list string) (opts : string)
  (_ : list option_row) : getopt_run :=
  let r := scan opts (tail argv) 1 in
  {| returned := fst r; last_optind := snd r; permuted := argv |}.

#[export] Instance collaborators : Collaborators N unit unit string := {|
  zeroed_options_lzma := 0;
  lzma_lzma_preset := preset;
  lzma_memusage_encoder := cost 100;
  lzma_memusage_decoder := cost 10;
  parse_options_lzma := fun _ => Some 5;
  parse_options_delta := fun _ => Some tt;
  parse_options_subblock := fun _ => Some tt;
  str_to_uint64 := decimal_in_range;
  str_filename := fun s => Some s;
  stdin := "(stdin)";
  fopen := fun path _ => Some path;
  getopt_long := short_getopt;
  V_SILENT := 0;
  V_DEBUG := 4
|}.

(** A second [getopt_long], which also knows long options: [--name] and
    [--name=value], looked up in the table by their full name. *)
Fixpoint split_equals (s : string) : string * option string :=
  match s with
  | EmptyString => (EmptyString, None)
  | String a rest =>
      if Ascii.eqb a "=" then (EmptyString, Some rest)
      else let r := split_equals rest in (String a (fst r), snd r)
  end.

Fixpoint long_row (word : string) (rows : list option_row)
  : option option_row :=
  match rows with
  | [] => None
  | row :: rest =>
      if String.eqb (name row) word then Some row else long_row word rest
  end.

Fixpoint scan_long (opts : string) (rows : list option_row)
  (args : list string) (index : nat) : list (Z * option string) * nat :=
  match args with
  | String "-" (String "-" EmptyString) :: _ => ([], S index)
  | String "-" (String "-" word) :: rest =>
      let r := scan_long opts rows rest (S index) in
      match long_row (fst (split_equals word)) rows with
      | Some row =>
          ((val row,
            match has_arg row with
            | no_argument => None
            | _ => snd (split_equals word)
            end) :: fst r, snd r)
      | None => ((chr "?", None) :: fst r, snd r)
      end
  | String "-" (String c EmptyString) :: rest =>
      if is_short opts c then
        if takes_arg opts c then
          match rest with
          | value :: rest' =>
              let r := scan_long opts rows rest' (S (S index)) in
              ((chr c, Some value) :: fst r, snd r)
          | [] => ([(chr "?", None)], S index)
          end
        else
          let r := scan_long opts rows rest (S index) in
          ((chr c, None) :: fst r, snd r)
      else
        let r := scan_long opts rows rest (S index) in
        ((chr "?", None) :: fst r, snd r)
  | _ => ([], index)
  end.

Definition long_getopt (argv : list string) (opts : string)
  (rows : list option_row) : getopt_run :=
  let r := scan_long opts rows (tail argv) 1 in
  {| returned := fst r; last_optind := snd r; permuted := argv |}.

(** The collaborators with the second [getopt_long]. *)
Definition collaborators_long : Collaborators N unit unit string := {|
  zeroed_options_lzma := 0;
  lzma_lzma_preset := preset;
  lzma_memusage_encoder := cost 100;
  lzma_memusage_decoder := cost 10;
  parse_options_lzma := fun _ => Some 5;
  parse_options_delta := fun _ => Some tt;
  parse_options_subblock := fun _ => Some tt;
  str_to_uint64 := decimal_in_range;
  str_filename := fun s => Some s;
  stdin := "(stdin)";
  fopen := fun path _ => Some path;
  getopt_long := long_getopt;
  V_SILENT := 0;
  V_DEBUG := 4
|}.

Definition start_with (memory threads : N) : @state N unit unit string :=
  initial_state memory threads 2.

Definition start : @state N unit unit string := start_with 1000 4.

End Sample.

#[local] Existing Instance Sample.collaborators.

(** * Properties *)

Section ResolverFacts.

Context {lzma_options_lzma lzma_options_delta lzma_options_subblock : Type}.
Context {FILE : Type}.
Context {C : Collaborators lzma_options_lzma lzma_options_delta
               lzma_options_subblock FILE}.

Local Abbreviation state :=
  (@state lzma_options_lzma lzma_options_delta lzma_options_subblock FILE).

Local Abbreviation filter_options :=
  (@filter_options lzma_options_lzma lzma_options_delta
     lzma_options_subblock).

Local Abbreviation lzma_filter :=
  (@lzma_filter lzma_options_lzma lzma_options_delta lzma_options_subblock).

Lemma bind_ok {A B : Type} (r : result A) (k : A -> result B) (b : B) :
  bind r k = Ok b -> exists a, r = Ok a /\ k a = Ok b.
Proof. destruct r as [a | e]; simpl; [eauto | discriminate]. Qed.

Lemma size_dec_pos (n : N) : 1 <= n < SIZE_MOD -> size_dec n = n - 1.
Proof.
  intros [H1 H2]. unfold size_dec.
  replace (n + SIZE_MOD - 1) with (n - 1 + 1 * SIZE_MOD) by lia.
  rewrite N.Div0.mod_add. apply N.mod_small. lia.
Qed.

(** One turn of the loop, as the C text reads. *)
Lemma lower_preset_step (st : state) (memory_usage : N) :
  lower_preset st memory_usage =
  if opt_memory st <? memory_usage then
    if preset_number st =? 1 then Exit E_memlimit_preset
    else
      match lzma_lzma_preset (size_dec (preset_number st)) with
      | None => Exit E_internal_error
      | Some o =>
          let st' := set_opt_lzma o
                       (set_preset_number (size_dec (preset_number st)) st) in
          lower_preset st' (lzma_memusage_encoder (chain st'))
      end
  else Ok (st, memory_usage).
Proof.
  simp lower_preset.
  destruct (opt_memory st <? memory_usage); simpl; [| reflexivity].
  destruct (N.eq_dec (preset_number st) 1) as [He | Hne]; simpl.
  - rewrite He. reflexivity.
  - rewrite (proj2 (N.eqb_neq _ _) Hne).
    destruct (lzma_lzma_preset (size_dec (preset_number st))); reflexivity.
Qed.

Lemma same_but_preset_refl (st : state) : same_but_preset st st.
Proof. repeat split. Qed.

Lemma same_but_preset_trans (a b c : state) :
  same_but_preset a b -> same_but_preset b c -> same_but_preset a c.
Proof.
  unfold same_but_preset. intros Hab Hbc.
  decompose [and] Hab. decompose [and] Hbc. repeat split; congruence.
Qed.

Lemma lower_preset_frame (st : state) (mu : N) (st' : state) (mu' : N) :
  lower_preset st mu = Ok (st', mu') ->
  same_but_preset st st' /\ mu' <= opt_memory st.
Proof.
  funelim (lower_preset st mu); intros Hrun; try discriminate Hrun.
  - inversion Hrun; subst. split; [apply same_but_preset_refl |].
    apply N.ltb_ge. assumption.
  - match goal with
    | IH : forall st' mu', _ -> same_but_preset _ _ /\ _ |- _ =>
        destruct (IH _ _ Hrun) as [Hs Hle]
    end.
    split; [| exact Hle].
    eapply same_but_preset_trans; [| exact Hs]. repeat split.
Qed.

Lemma memory_limit_frame (st : state) (mu : N) (st' : state) (mu' : N) :
  memory_limit st mu = Ok (st', mu') ->
  same_but_preset st st' /\ mu' <= opt_memory st.
Proof.
  unfold memory_limit. destruct (preset_default st).
  - apply lower_preset_frame.
  - destruct (N.ltb_spec (opt_memory st) mu) as [Hlt | Hge];
      [discriminate |].
    intros Hrun. inversion Hrun; subst.
    split; [apply same_but_preset_refl | exact Hge].
Qed.

Lemma default_chain_frame (st st1 : state) :
  default_chain st = Ok st1 ->
  opt_mode st1 = opt_mode st /\ opt_format st1 = opt_format st /\
  opt_stdout st1 = opt_stdout st /\
  opt_keep_original st1 = opt_keep_original st /\
  preset_default st1 = preset_default st /\
  preset_number st1 = preset_number st /\
  opt_memory st1 = opt_memory st /\ opt_threads st1 = opt_threads st.
Proof.
  unfold default_chain. destruct (Nat.eqb (filter_count st) 0).
  - destruct (lzma_lzma_preset (preset_number st)); simpl;
      [| discriminate].
    intros Hrun. inversion Hrun; subst. repeat split.
  - intros Hrun. inversion Hrun; subst. repeat split.
Qed.

Lemma lzma_format_check_ok (st st' : state) :
  lzma_format_check st = Ok st' -> st' = st.
Proof.
  unfold lzma_format_check.
  destruct (_ && _); [discriminate | congruence].
Qed.

(** The stages before the thread limit never touch the mode, the output
    flags, the budget or the requested thread count, and a usage they let
    through fits the budget. *)
Lemma settle_memory_usage_frame (st st' : state) (U : N) :
  settle_memory_usage st = Ok (st', U) ->
  opt_mode st' = opt_mode st /\ opt_stdout st' = opt_stdout st /\
  opt_keep_original st' = opt_keep_original st /\
  preset_default st' = preset_default st /\
  opt_memory st' = opt_memory st /\ opt_threads st' = opt_threads st /\
  U <= opt_memory st.
Proof.
  unfold settle_memory_usage. intros Hrun.
  apply bind_ok in Hrun as (st1 & H1 & Hrun).
  apply bind_ok in Hrun as (st2 & H2 & Hrun).
  apply lzma_format_check_ok in H2. subst st2.
  apply default_chain_frame in H1. decompose [and] H1.
  apply memory_limit_frame in Hrun as [Hs Hle].
  unfold same_but_preset in Hs. decompose [and] Hs. simpl in *.
  repeat split; congruence.
Qed.

(** C3.  Whenever the stages before the thread limit end with the usage
    [U > 0], the Resolver returns, and the thread count it leaves is
    [min (t, max (1, B / U))] for the requested count [t] and the budget
    [B]: never above [t], and 1 when [t] is 1. *)
Theorem thread_limit_formula (st st1 : state) (U : N) :
  1 <= opt_threads st ->
  0 < U ->
  settle_memory_usage st = Ok (st1, U) ->
  exists st',
    set_compression_settings st = Ok st' /\
    opt_threads st' = N.min (opt_threads st) (N.max 1 (opt_memory st / U)) /\
    opt_threads st' <= opt_threads st /\
    (opt_threads st = 1 -> opt_threads st' = 1).
Proof.
  intros Ht HU Hrun.
  pose proof (settle_memory_usage_frame _ _ _ Hrun) as Hf.
  decompose [and] Hf. clear Hf.
  unfold set_compression_settings. rewrite Hrun. simpl.
  unfold limit_threads.
  destruct (N.eqb_spec U 0) as [-> | _]; [lia |].
  eexists. split; [reflexivity |].
  replace (opt_memory st1) with (opt_memory st) by congruence.
  replace (opt_threads st1) with (opt_threads st) by congruence.
  assert (Ht1 : opt_threads st1 = opt_threads st) by congruence.
  generalize (opt_memory st / U). intros q.
  set (t := opt_threads st) in *.
  assert (Hlimit : (if q =? 0 then 1 else q) = N.max 1 q).
  { destruct (N.eqb_spec q 0) as [-> | Hnz]; lia. }
  rewrite Hlimit.
  assert (Hv : opt_threads
                 (if N.max 1 q <? t
                  then set_opt_threads (N.max 1 q) st1 else st1)
               = N.min t (N.max 1 q)).
  { destruct (N.ltb_spec (N.max 1 q) t); simpl; lia. }
  rewrite Hv. repeat split; lia.
Qed.

(** *** The default chain *)

Lemma default_filter_id_known (format : format_type) :
  lzma_vli_eqb (default_filter_id format) LZMA_VLI_UNKNOWN = false.
Proof. unfold default_filter_id. destruct (format_type_eqb _ _); reflexivity. Qed.

Lemma chain_of_default (st : state) :
  holds_default_chain st ->
  chain st = preset_chain (opt_format st) (opt_lzma st).
Proof.
  intros (p & rest & Hf). unfold chain. rewrite Hf. simpl.
  rewrite default_filter_id_known. reflexivity.
Qed.

Lemma default_chain_run (st : state) (o : lzma_options_lzma) :
  filter_count st = 0%nat ->
  array_sized st ->
  lzma_lzma_preset (preset_number st) = Some o ->
  exists st1,
    default_chain st = Ok st1 /\
    filter_count st1 = 1%nat /\ opt_lzma st1 = o /\
    holds_default_chain (terminate_chain st1) /\
    lzma_format_check (terminate_chain st1) = Ok (terminate_chain st1).
Proof.
  intros Hc Hlen Ho. unfold default_chain. rewrite Hc, Ho. simpl.
  eexists. split; [reflexivity |]. split; [reflexivity |].
  split; [reflexivity |].
  unfold array_sized in Hlen.
  destruct (opt_filters st) as [| f0 [| f1 rest]] eqn:Hf;
    try discriminate Hlen.
  split.
  - exists (options f1), rest. reflexivity.
  - unfold lzma_format_check, filter_id, terminate_chain. simpl.
    unfold default_filter_id.
    destruct (format_type_eqb (opt_format st) FORMAT_LZMA); reflexivity.
Qed.

(** In a state that holds the default chain the loop keeps [opt_lzma] at
    the preset of the current level, and with it the chain. *)
Lemma lower_preset_keeps_preset (st : state) (mu : N) (st' : state) (mu' : N) :
  lower_preset st mu = Ok (st', mu') ->
  (exists o, lzma_lzma_preset (preset_number st) = Some o /\ opt_lzma st = o) ->
  exists o', lzma_lzma_preset (preset_number st') = Some o' /\ opt_lzma st' = o'.
Proof.
  funelim (lower_preset st mu); intros Hrun Hinv; try discriminate Hrun.
  - inversion Hrun; subst. exact Hinv.
  - match goal with
    | IH : forall st' mu', _ -> _ -> exists o', _ |- _ =>
        apply (IH _ _ Hrun)
    end.
    simpl. eauto.
Qed.

Lemma holds_default_chain_same (st st' : state) :
  opt_filters st' = opt_filters st ->
  opt_format st' = opt_format st ->
  holds_default_chain st -> holds_default_chain st'.
Proof.
  intros Hf Hfmt (p & rest & H). exists p, rest. congruence.
Qed.

(** The loop on a default chain, entered at level [k + 1] with a usage
    over the budget: it stops at the first level below whose encoder
    usage fits, and at level 1 it gives up. *)
Lemma lower_preset_first_fit (opts : N -> lzma_options_lzma) (k : nat) :
  forall (st : state) (mu : N),
    preset_number st = N.of_nat (S k) ->
    preset_number st < SIZE_MOD ->
    (forall q, 1 <= q < preset_number st ->
               lzma_lzma_preset q = Some (opts q)) ->
    holds_default_chain st ->
    opt_memory st < mu ->
    (exists p st',
        1 <= p < preset_number st /\
        lzma_memusage_encoder (preset_chain (opt_format st) (opts p))
          <= opt_memory st /\
        (forall q, p < q < preset_number st ->
           opt_memory st
             < lzma_memusage_encoder (preset_chain (opt_format st) (opts q))) /\
        lower_preset st mu =
          Ok (st', lzma_memusage_encoder
                     (preset_chain (opt_format st) (opts p))) /\
        preset_number st' = p /\ opt_lzma st' = opts p /\
        same_but_preset st st')
    \/ ((forall q, 1 <= q < preset_number st ->
           opt_memory st
             < lzma_memusage_encoder (preset_chain (opt_format st) (opts q))) /\
        lower_preset st mu = Exit E_memlimit_preset).
Proof.
  induction k as [| k IH]; intros st mu Hn Hsize Hopts Hdef Hover.
  - right. split; [intros q Hq; rewrite Hn in Hq; lia |].
    rewrite lower_preset_step.
    rewrite (proj2 (N.ltb_lt _ _) Hover), Hn. reflexivity.
  - assert (Hdec : size_dec (preset_number st) = N.of_nat (S k))
      by (rewrite size_dec_pos; lia).
    assert (Hne : (preset_number st =? 1) = false)
      by (apply N.eqb_neq; lia).
    set (st1 := set_opt_lzma (opts (N.of_nat (S k)))
                  (set_preset_number (N.of_nat (S k)) st)).
    assert (Hstep : lower_preset st mu =
                    lower_preset st1 (lzma_memusage_encoder (chain st1))).
    { rewrite lower_preset_step.
      rewrite (proj2 (N.ltb_lt _ _) Hover), Hne, Hdec.
      rewrite (Hopts (N.of_nat (S k))) by lia. reflexivity. }
    assert (Hdef1 : holds_default_chain st1)
      by (apply (holds_default_chain_same st); [reflexivity .. | exact Hdef]).
    assert (Hchain : chain st1 =
                     preset_chain (opt_format st) (opts (N.of_nat (S k))))
      by (rewrite (chain_of_default st1 Hdef1); reflexivity).
    rewrite Hchain in Hstep.
    set (mu1 := lzma_memusage_encoder
                  (preset_chain (opt_format st) (opts (N.of_nat (S k)))))
      in *.
    destruct (N.ltb_spec (opt_memory st) mu1) as [Hstill | Hfits].
    + destruct (IH st1 mu1 eq_refl) as [Hfound | Hnone];
        [simpl; lia | intros q Hq; apply Hopts; simpl in Hq; lia
         | exact Hdef1 | exact Hstill | |].
      * destruct Hfound as (p & st' & Hp & Hfit & Habove & Hrun & E1 & E2 & Hs).
        simpl in Hp, Hfit, Habove, Hrun.
        left. exists p, st'. rewrite Hstep.
        split; [lia |]. split; [exact Hfit |].
        split.
        { intros q Hq. destruct (N.eq_dec q (N.of_nat (S k))) as [-> | Hq'].
          - exact Hstill.
          - apply Habove. lia. }
        split; [exact Hrun |]. split; [exact E1 |]. split; [exact E2 |].
        eapply same_but_preset_trans; [| exact Hs]. repeat split.
      * destruct Hnone as [Hall Hrun]. simpl in Hall, Hrun.
        right. rewrite Hstep. split; [| exact Hrun].
        intros q Hq. destruct (N.eq_dec q (N.of_nat (S k))) as [-> | Hq'].
        { exact Hstill. }
        { apply Hall. lia. }
    + left. exists (N.of_nat (S k)), st1. rewrite Hstep.
      split; [lia |]. split; [exact Hfits |].
      split; [intros q Hq; lia |].
      split.
      { rewrite lower_preset_step.
        change (opt_memory st1) with (opt_memory st).
        rewrite (proj2 (N.ltb_ge _ _) Hfits). reflexivity. }
      repeat split.
Qed.

Lemma limit_threads_ok (U : N) (st : state) :
  0 < U ->
  exists st',
    limit_threads U st = Ok st' /\
    opt_filters st' = opt_filters st /\ opt_lzma st' = opt_lzma st /\
    opt_format st' = opt_format st /\
    preset_number st' = preset_number st /\
    preset_default st' = preset_default st /\
    filter_count st' = filter_count st.
Proof.
  intros HU. unfold limit_threads.
  destruct (N.eqb_spec U 0) as [-> | _]; [lia |].
  eexists. split; [reflexivity |].
  destruct (_ <? opt_threads st); repeat split.
Qed.

(** The stages before the budget is looked at, on the default path. *)
Lemma settle_default_path (st : state) (o : lzma_options_lzma) :
  filter_count st = 0%nat ->
  array_sized st ->
  lzma_lzma_preset (preset_number st) = Some o ->
  exists st2,
    settle_memory_usage st = memory_limit st2 (first_estimate st o) /\
    holds_default_chain st2 /\ opt_lzma st2 = o /\
    filter_count st2 = 1%nat /\
    opt_format st2 = opt_format st /\ opt_mode st2 = opt_mode st /\
    preset_number st2 = preset_number st /\
    preset_default st2 = preset_default st /\
    opt_memory st2 = opt_memory st /\ opt_threads st2 = opt_threads st.
Proof.
  intros Hc Hlen Ho.
  destruct (default_chain_run st o Hc Hlen Ho)
    as (st1 & Hrun & Hcount & Hlz & Hdef & Hcheck).
  exists (terminate_chain st1).
  apply default_chain_frame in Hrun as Hframe. decompose [and] Hframe.
  unfold settle_memory_usage. rewrite Hrun. simpl. rewrite Hcheck. simpl.
  assert (Hest : initial_memory_usage (terminate_chain st1)
                 = first_estimate st o).
  { unfold initial_memory_usage, first_estimate.
    rewrite (chain_of_default _ Hdef). simpl.
    replace (opt_mode st1) with (opt_mode st) by congruence.
    replace (opt_format st1) with (opt_format st) by congruence.
    rewrite Hlz. reflexivity. }
  rewrite Hest. repeat split; simpl; congruence.
Qed.

(** The loop of lines 504-518 in every mode.  On the default path, with
    the first estimate over the budget [B], the Resolver takes the preset
    down one level at a time, refills [opt_lzma] and recomputes the usage
    of the chain at every level, and returns at the first level whose
    recomputed usage fits [B]; when no level down to 1 fits it ends with
    the "too small for any internal filter preset" exit.  The first
    estimate is the one of the mode; every recomputed usage is the one of
    [lzma_memusage_encoder], whatever the mode, as line 517 has it. *)
Lemma default_preset_lowered_to_first_encoder_fit
  (st : state) (opts : N -> lzma_options_lzma) :
  preset_default st = true ->
  filter_count st = 0%nat ->
  array_sized st ->
  1 <= preset_number st <= 9 ->
  (forall q, 1 <= q <= preset_number st ->
     lzma_lzma_preset q = Some (opts q)) ->
  (forall q, 1 <= q < preset_number st ->
     0 < lzma_memusage_encoder (preset_chain (opt_format st) (opts q))) ->
  opt_memory st < first_estimate st (opts (preset_number st)) ->
  (exists p st',
      1 <= p < preset_number st /\
      lzma_memusage_encoder (preset_chain (opt_format st) (opts p))
        <= opt_memory st /\
      (forall q, p < q < preset_number st ->
         opt_memory st
           < lzma_memusage_encoder (preset_chain (opt_format st) (opts q))) /\
      set_compression_settings st = Ok st' /\
      preset_number st' = p /\
      chain st' = preset_chain (opt_format st) (opts p))
  \/ ((forall q, 1 <= q < preset_number st ->
         opt_memory st
           < lzma_memusage_encoder (preset_chain (opt_format st) (opts q))) /\
      set_compression_settings st = Exit E_memlimit_preset).
Proof.
  intros Hdefault Hc Hlen Hn Hopts Hpos Hover.
  destruct (settle_default_path st (opts (preset_number st)) Hc Hlen)
    as (st2 & Hsettle & Hdef & Hlz & Hc2 & Hfmt & Hmode & Hnum & Hpd & Hmem
        & Hthr);
    [apply Hopts; lia |].
  unfold set_compression_settings. rewrite Hsettle.
  unfold memory_limit. rewrite Hpd, Hdefault.
  destruct (lower_preset_first_fit opts (N.to_nat (preset_number st) - 1)
              st2 (first_estimate st (opts (preset_number st))))
    as [Hfound | Hnone].
  - rewrite Hnum. lia.
  - rewrite Hnum. unfold SIZE_MOD. lia.
  - intros q Hq. apply Hopts. lia.
  - exact Hdef.
  - rewrite Hmem. exact Hover.
  - destruct Hfound as (p & st' & Hp & Hfit & Habove & Hrun & E1 & E2 & Hs).
    rewrite Hfmt, Hmem, Hnum in *.
    left. rewrite Hrun. simpl.
    destruct (limit_threads_ok
                (lzma_memusage_encoder (preset_chain (opt_format st) (opts p)))
                st') as (st3 & Hlimit & Hf3 & Hl3 & Hfmt3 & Hn3 & _);
      [apply Hpos; lia |].
    exists p, st3. rewrite Hlimit.
    repeat (split; [assumption || congruence |]).
    unfold same_but_preset in Hs. decompose [and] Hs.
    assert (Hdef3 : holds_default_chain st3).
    { apply (holds_default_chain_same st2); [congruence .. | exact Hdef]. }
    rewrite (chain_of_default st3 Hdef3). congruence.
  - destruct Hnone as [Hall Hrun]. rewrite Hfmt, Hmem, Hnum in *.
    right. rewrite Hrun. split; [exact Hall | reflexivity].
Qed.

(** When compressing, the recomputed usage is the estimate of the mode:
    the Resolver returns at the first level below the start whose
    estimate fits the budget, or ends with the level-1 exit when none
    does. *)
Lemma compressing_preset_lowered_to_first_fit
  (st : state) (opts : N -> lzma_options_lzma) :
  opt_mode st = MODE_COMPRESS ->
  preset_default st = true ->
  filter_count st = 0%nat ->
  array_sized st ->
  1 <= preset_number st <= 9 ->
  (forall q, 1 <= q <= preset_number st ->
     lzma_lzma_preset q = Some (opts q)) ->
  (forall q, 1 <= q < preset_number st -> 0 < first_estimate st (opts q)) ->
  opt_memory st < first_estimate st (opts (preset_number st)) ->
  (exists p st',
      1 <= p < preset_number st /\
      first_estimate st (opts p) <= opt_memory st /\
      (forall q, p < q < preset_number st ->
         opt_memory st < first_estimate st (opts q)) /\
      set_compression_settings st = Ok st' /\
      preset_number st' = p /\
      chain st' = preset_chain (opt_format st) (opts p))
  \/ ((forall q, 1 <= q < preset_number st ->
         opt_memory st < first_estimate st (opts q)) /\
      set_compression_settings st = Exit E_memlimit_preset).
Proof.
  intros Hmode Hdefault Hc Hlen Hn Hopts Hpos Hover.
  assert (Hest : forall o,
             first_estimate st o
             = lzma_memusage_encoder (preset_chain (opt_format st) o))
    by (intros o; unfold first_estimate; rewrite Hmode; reflexivity).
  setoid_rewrite Hest. setoid_rewrite Hest in Hpos.
  apply default_preset_lowered_to_first_encoder_fit; assumption.
Qed.

Lemma limit_threads_frame (U : N) (st st' : state) :
  limit_threads U st = Ok st' ->
  opt_mode st' = opt_mode st /\ opt_stdout st' = opt_stdout st /\
  opt_keep_original st' = opt_keep_original st /\
  opt_filters st' = opt_filters st /\ opt_lzma st' = opt_lzma st /\
  opt_format st' = opt_format st /\
  preset_number st' = preset_number st /\
  preset_default st' = preset_default st /\
  filter_count st' = filter_count st.
Proof.
  unfold limit_threads. destruct (U =? 0); [discriminate |].
  intros H. inversion H; subst.
  destruct (_ <? opt_threads st); repeat split.
Qed.

Lemma set_compression_settings_frame (st st' : state) :
  set_compression_settings st = Ok st' ->
  opt_mode st' = opt_mode st /\ opt_stdout st' = opt_stdout st /\
  opt_keep_original st' = opt_keep_original st.
Proof.
  unfold set_compression_settings. intros H.
  apply bind_ok in H as ([st1 U] & Hsettle & Hlimit). simpl in Hlimit.
  apply settle_memory_usage_frame in Hsettle.
  apply limit_threads_frame in Hlimit.
  decompose [and] Hsettle. decompose [and] Hlimit.
  repeat split; congruence.
Qed.

(** Whatever the mode, a usage the loop returns after it lowered the
    preset is the one of [lzma_memusage_encoder]. *)
Lemma lowered_usage_is_encoder_cost (st : state) (mu : N)
  (st' : state) (mu' : N) :
  lower_preset st mu = Ok (st', mu') ->
  opt_memory st < mu ->
  mu' = lzma_memusage_encoder (chain st').
Proof.
  funelim (lower_preset st mu); intros Hrun Hover; try discriminate Hrun.
  - match goal with
    | Hb : (_ <? _) = false |- _ => apply N.ltb_ge in Hb; lia
    end.
  - match goal with
    | IH : forall st' mu', _ -> _ -> mu' = _ |- _ => rename IH into IHloop
    end.
    match type of Hrun with
    | lower_preset ?s ?m = _ =>
        destruct (N.ltb_spec (opt_memory s) m) as [Hstill | Hfits]
    end.
    + apply IHloop; assumption.
    + rewrite lower_preset_step in Hrun.
      rewrite (proj2 (N.ltb_ge _ _) Hfits) in Hrun.
      inversion Hrun; subst. reflexivity.
Qed.

Lemma lower_preset_exits (st : state) (mu : N) (e : exit_reason) :
  lower_preset st mu = Exit e ->
  e = E_memlimit_preset \/ e = E_internal_error.
Proof.
  funelim (lower_preset st mu); intros Hrun; try discriminate Hrun.
  - inversion Hrun. left. reflexivity.
  - auto.
  - inversion Hrun. right. reflexivity.
Qed.

Lemma memory_limit_exits (st : state) (mu : N) (e : exit_reason) :
  memory_limit st mu = Exit e -> e <> E_lzma_format_filter.
Proof.
  unfold memory_limit. destruct (preset_default st).
  - intros H. apply lower_preset_exits in H as [-> | ->]; discriminate.
  - destruct (_ <? _); intros H; inversion H. discriminate.
Qed.

(** An explicit setup over the budget is fatal at once. *)
Lemma explicit_chain_over_budget (st : state) (o : lzma_options_lzma) :
  preset_default st = false ->
  filter_count st = 0%nat ->
  array_sized st ->
  lzma_lzma_preset (preset_number st) = Some o ->
  opt_memory st < first_estimate st o ->
  set_compression_settings st = Exit E_memlimit_filter_setup.
Proof.
  intros Hpd Hc Hlen Ho Hover.
  destruct (settle_default_path st o Hc Hlen Ho)
    as (st2 & Hsettle & _ & _ & _ & _ & _ & _ & Hpd2 & Hmem & _).
  unfold set_compression_settings. rewrite Hsettle.
  unfold memory_limit. rewrite Hpd2, Hpd, Hmem.
  rewrite (proj2 (N.ltb_lt _ _) Hover). reflexivity.
Qed.

(** C5, as amended.  With an empty chain and a level whose preset exists,
    lines 470-483 leave a chain of exactly one filter, LZMA1 for the
    legacy format and LZMA2 otherwise, whose options are the preset of
    that level; [preset_default] is not assigned, so the chain is open to
    degradation only if it was before.  When the Resolver returns, the
    chain is still that one filter, with the preset of the level the
    Resolver ended at, which is the level it started at unless
    [preset_default] was set. *)
Theorem default_chain_is_the_preset (st : state) (o : lzma_options_lzma) :
  filter_count st = 0%nat ->
  array_sized st ->
  lzma_lzma_preset (preset_number st) = Some o ->
  (exists st1,
      default_chain st = Ok st1 /\
      filter_count st1 = 1%nat /\
      chain (terminate_chain st1) = preset_chain (opt_format st) o /\
      preset_number st1 = preset_number st /\
      preset_default st1 = preset_default st)
  /\ (forall st',
        set_compression_settings st = Ok st' ->
        filter_count st' = 1%nat /\
        preset_default st' = preset_default st /\
        (preset_default st = false -> preset_number st' = preset_number st) /\
        exists o',
          lzma_lzma_preset (preset_number st') = Some o' /\
          chain st' = preset_chain (opt_format st) o').
Proof.
  intros Hc Hlen Ho. split.
  - destruct (default_chain_run st o Hc Hlen Ho)
      as (st1 & Hrun & Hcount & Hlz & Hdef & _).
    exists st1. apply default_chain_frame in Hrun as Hframe.
    decompose [and] Hframe.
    repeat (split; [assumption || congruence |]).
    split; [| split; congruence].
    rewrite (chain_of_default _ Hdef). simpl. congruence.
  - intros st' Hrun.
    destruct (settle_default_path st o Hc Hlen Ho)
      as (st2 & Hsettle & Hdef & Hlz & Hc2 & Hfmt & _ & Hnum & Hpd & _).
    unfold set_compression_settings in Hrun. rewrite Hsettle in Hrun.
    apply bind_ok in Hrun as ([st3 U] & Hlimit & Hthreads).
    simpl in Hthreads. apply limit_threads_frame in Hthreads.
    decompose [and] Hthreads. clear Hthreads.
    assert (Hkept : exists o', lzma_lzma_preset (preset_number st3) = Some o'
                               /\ opt_lzma st3 = o').
    { unfold memory_limit in Hlimit. destruct (preset_default st2).
      - apply (lower_preset_keeps_preset _ _ _ _ Hlimit).
        exists o. split; congruence.
      - destruct (_ <? _); [discriminate |]. inversion Hlimit; subst.
        exists (opt_lzma st3). split; congruence. }
    assert (Hexplicit : preset_default st = false ->
                        preset_number st3 = preset_number st).
    { intros Hfalse. unfold memory_limit in Hlimit.
      rewrite Hpd, Hfalse in Hlimit.
      destruct (_ <? _); [discriminate |]. inversion Hlimit; subst.
      exact Hnum. }
    apply memory_limit_frame in Hlimit as [Hs _].
    unfold same_but_preset in Hs. decompose [and] Hs. clear Hs.
    destruct Hkept as (o' & Ho' & Hlz3).
    split; [congruence |]. split; [congruence |].
    split; [intros Hfalse; rewrite <- (Hexplicit Hfalse); congruence |].
    exists o'. split; [congruence |].
    assert (Hdef' : holds_default_chain st').
    { apply (holds_default_chain_same st2); [congruence .. | exact Hdef]. }
    rewrite (chain_of_default _ Hdef'). congruence.
Qed.

(** C6.  With the legacy format, let [st1] hold the chain as line 487
    meets it, after the default chain was filled in for an empty one.
    If it is exactly one entry with the id LZMA1 the check lets it pass
    and the Resolver does not end with the legacy-format exit; every
    other chain ends the Resolver with that exit. *)
Theorem lzma_format_allows_only_lzma1 (st st1 : state) :
  opt_format st = FORMAT_LZMA ->
  default_chain st = Ok st1 ->
  (filter_count st1 = 1%nat /\ filter_id st1 0 = LZMA_FILTER_LZMA1 ->
   lzma_format_check (terminate_chain st1) = Ok (terminate_chain st1) /\
   set_compression_settings st <> Exit E_lzma_format_filter)
  /\ (~ (filter_count st1 = 1%nat /\ filter_id st1 0 = LZMA_FILTER_LZMA1) ->
      set_compression_settings st = Exit E_lzma_format_filter).
Proof.
  intros Hfmt Hrun.
  apply default_chain_frame in Hrun as Hframe.
  destruct Hframe as (_ & Hfmt1 & _).
  assert (Hid : filter_count st1 = 1%nat ->
                filter_id (terminate_chain st1) 0 = filter_id st1 0).
  { intros Hc. unfold filter_id, terminate_chain. simpl. rewrite Hc.
    rewrite list_lookup_alter_ne by discriminate. reflexivity. }
  unfold set_compression_settings, settle_memory_usage. rewrite Hrun. simpl.
  unfold lzma_format_check.
  change (opt_format (terminate_chain st1)) with (opt_format st1).
  change (filter_count (terminate_chain st1)) with (filter_count st1).
  rewrite Hfmt1, Hfmt. simpl.
  split.
  - intros [Hc Hlz]. rewrite (Hid Hc), Hc, Hlz. simpl.
    split; [reflexivity |].
    destruct (memory_limit _ _) as [[st3 U] | e] eqn:Hlimit; simpl.
    + unfold limit_threads. destruct (U =? 0); discriminate.
    + apply memory_limit_exits in Hlimit. congruence.
  - intros Hnot.
    destruct (Nat.eqb_spec (filter_count st1) 1) as [Hc | Hc];
      [| reflexivity].
    rewrite (Hid Hc). simpl.
    destruct (filter_id st1 0) eqn:Hlz; try reflexivity.
    exfalso. apply Hnot. split; [exact Hc | reflexivity].
Qed.

(** *** What the Resolver leaves alone *)

Lemma untouched_by_settings_refl (st : state) : untouched_by_settings st st.
Proof. repeat split. Qed.

Lemma untouched_by_settings_trans (a b c : state) :
  untouched_by_settings a b -> untouched_by_settings b c ->
  untouched_by_settings a c.
Proof.
  unfold untouched_by_settings. intros Hab Hbc.
  decompose [and] Hab. decompose [and] Hbc. repeat split; congruence.
Qed.

Lemma lower_preset_untouched (st : state) (mu : N) (st' : state) (mu' : N) :
  lower_preset st mu = Ok (st', mu') -> untouched_by_settings st st'.
Proof.
  funelim (lower_preset st mu); intros Hrun; try discriminate Hrun.
  - inversion Hrun; subst. apply untouched_by_settings_refl.
  - match goal with
    | IH : forall st' mu', _ -> untouched_by_settings _ _ |- _ =>
        pose proof (IH _ _ Hrun) as Hs
    end.
    eapply untouched_by_settings_trans; [| exact Hs]. repeat split.
Qed.

Lemma settle_memory_usage_untouched (st st' : state) (U : N) :
  settle_memory_usage st = Ok (st', U) -> untouched_by_settings st st'.
Proof.
  unfold settle_memory_usage. intros Hrun.
  apply bind_ok in Hrun as (st1 & H1 & Hrun).
  apply bind_ok in Hrun as (st2 & H2 & Hrun).
  apply lzma_format_check_ok in H2. subst st2.
  assert (Hs1 : untouched_by_settings st (terminate_chain st1)).
  { unfold default_chain in H1. destruct (Nat.eqb (filter_count st) 0).
    - destruct (lzma_lzma_preset (preset_number st)); simpl in H1;
        [| discriminate]. inversion H1; subst. repeat split.
    - inversion H1; subst. repeat split. }
  eapply untouched_by_settings_trans; [exact Hs1 |].
  unfold memory_limit in Hrun.
  destruct (preset_default (terminate_chain st1)).
  - apply (lower_preset_untouched _ _ _ _ Hrun).
  - destruct (_ <? _); [discriminate |]. inversion Hrun; subst.
    apply untouched_by_settings_refl.
Qed.

Lemma set_compression_settings_untouched (st st' : state) :
  set_compression_settings st = Ok st' ->
  untouched_by_settings st st'.
Proof.
  unfold set_compression_settings. intros H.
  apply bind_ok in H as ([st1 U] & Hsettle & Hlimit). simpl in Hlimit.
  apply settle_memory_usage_untouched in Hsettle.
  eapply untouched_by_settings_trans; [exact Hsettle |].
  unfold limit_threads in Hlimit. destruct (U =? 0); [discriminate |].
  inversion Hlimit; subst.
  destruct (_ <? opt_threads st1); repeat split.
Qed.

(** X1.  When the Resolver returns, sixteen of the globals are as it met
    them: the mode, the format, the suffix, the three file-list globals,
    the four boolean switches, the check, the default mark, the format
    for automatic selection, the budget, the verbosity and [optind].  It
    writes the chain, the filter count, the preset and its options, and
    the thread count, nothing else. *)
Theorem settings_touch_chain_and_threads_only (st st' : state) :
  set_compression_settings st = Ok st' ->
  untouched_by_settings st st'.
Proof. apply set_compression_settings_untouched. Qed.

(** X2.  When the Resolver returns, the usage [U] it settled on is
    positive and within the budget, and the thread count it leaves times
    [U] is within the budget too; the count is not above the requested
    one, and not 0 unless 0 was requested. *)
Theorem threads_fit_the_budget (st st' : state) :
  set_compression_settings st = Ok st' ->
  exists st1 U,
    settle_memory_usage st = Ok (st1, U) /\
    0 < U <= opt_memory st /\
    opt_threads st' * U <= opt_memory st /\
    opt_threads st' <= opt_threads st /\
    (1 <= opt_threads st -> 1 <= opt_threads st').
Proof.
  unfold set_compression_settings. intros H.
  apply bind_ok in H as ([st1 U] & Hsettle & Hlimit). simpl in Hlimit.
  exists st1, U. split; [exact Hsettle |].
  pose proof (settle_memory_usage_frame _ _ _ Hsettle) as Hf.
  destruct Hf as (_ & _ & _ & _ & Hmem & Hthr & HU).
  unfold limit_threads in Hlimit.
  destruct (N.eqb_spec U 0) as [-> | HU0]; [discriminate |].
  inversion Hlimit; subst. clear Hlimit.
  rewrite Hmem, Hthr.
  assert (Hdiv : 1 <= opt_memory st / U).
  { apply N.div_le_lower_bound; lia. }
  assert (Hmul : opt_memory st / U * U <= opt_memory st).
  { rewrite N.mul_comm. apply N.Div0.mul_div_le. }
  destruct (N.eqb_spec (opt_memory st / U) 0) as [Hz | _]; [lia |].
  split; [lia |].
  destruct (N.ltb_spec (opt_memory st / U) (opt_threads st)) as [Hlt | Hge];
    simpl.
  - split; [exact Hmul |]. split; [lia |]. intros _. exact Hdiv.
  - rewrite Hthr. split; [nia |]. split; [lia |]. auto.
Qed.

Lemma chain_same (st st' : state) :
  opt_filters st' = opt_filters st ->
  opt_lzma st' = opt_lzma st ->
  chain st' = chain st.
Proof.
  intros Hf Hl. unfold chain. rewrite Hf. apply map_ext.
  intros f. unfold deref. rewrite Hl. reflexivity.
Qed.

(** X3.  The Resolver alters the setup only on the default path and only
    over the budget.  If the chain is explicit, or if the first estimate
    fits, a Resolver that returns leaves the chain as line 483
    terminated it, with the preset and its options as they were, and the
    first estimate is within the budget. *)
Theorem settings_kept_unless_default_over_budget (st st1 st' : state) :
  default_chain st = Ok st1 ->
  set_compression_settings st = Ok st' ->
  preset_default st = false
  \/ initial_memory_usage (terminate_chain st1) <= opt_memory st ->
  opt_filters st' = opt_filters (terminate_chain st1) /\
  filter_count st' = filter_count st1 /\
  opt_lzma st' = opt_lzma st1 /\
  preset_number st' = preset_number st /\
  chain st' = chain (terminate_chain st1) /\
  initial_memory_usage (terminate_chain st1) <= opt_memory st.
Proof.
  intros Hdefault Hrun Hcase.
  apply default_chain_frame in Hdefault as Hframe.
  destruct Hframe as (_ & _ & _ & _ & Hpd & Hnum & Hmem & _).
  unfold set_compression_settings, settle_memory_usage in Hrun.
  rewrite Hdefault in Hrun. simpl in Hrun.
  apply bind_ok in Hrun as ([st3 U] & Hsettle & Hlimit).
  apply bind_ok in Hsettle as (st2 & Hcheck & Hsettle).
  apply lzma_format_check_ok in Hcheck. subst st2. simpl in Hlimit.
  set (st2 := terminate_chain st1) in *.
  assert (Hkept : st3 = st2 /\ initial_memory_usage st2 <= opt_memory st).
  { unfold memory_limit in Hsettle.
    change (preset_default st2) with (preset_default st1) in Hsettle.
    change (opt_memory st2) with (opt_memory st1) in Hsettle.
    rewrite Hpd, Hmem in Hsettle.
    destruct (N.ltb_spec (opt_memory st) (initial_memory_usage st2))
      as [Hover | Hfits].
    - destruct (preset_default st); [| discriminate Hsettle].
      destruct Hcase as [Hfalse | Hle]; [discriminate Hfalse | lia].
    - destruct (preset_default st).
      + rewrite lower_preset_step in Hsettle.
        change (opt_memory st2) with (opt_memory st1) in Hsettle.
        rewrite Hmem, (proj2 (N.ltb_ge _ _) Hfits) in Hsettle.
        inversion Hsettle; subst. split; [reflexivity | exact Hfits].
      + inversion Hsettle; subst. split; [reflexivity | exact Hfits]. }
  destruct Hkept as [-> Hfits].
  apply limit_threads_frame in Hlimit.
  destruct Hlimit as (_ & _ & _ & Hf & Hl & _ & Hn & _ & Hc).
  split; [exact Hf |]. split; [exact Hc |]. split; [exact Hl |].
  split; [rewrite Hn; exact Hnum |].
  split; [apply chain_same; assumption | exact Hfits].
Qed.

(** *** The chain the Resolver hands on *)

Lemma kind_fits_known (i : lzma_vli) (o : option filter_options) :
  kind_fits i o = true -> lzma_vli_eqb i LZMA_VLI_UNKNOWN = false.
Proof. destruct i; simpl; intros H; try reflexivity; discriminate H. Qed.

Lemma kind_fits_any_state (st st' : state) (i : lzma_vli) (p : options_ptr) :
  kind_fits i (deref st' p) = kind_fits i (deref st p).
Proof. destruct p, i; reflexivity. Qed.

Lemma chain_ok_same (st st' : state) :
  opt_filters st' = opt_filters st ->
  filter_count st' = filter_count st ->
  chain_ok st -> chain_ok st'.
Proof.
  unfold chain_ok, array_sized. intros Hf Hc (Hlen & Hmax & Hfit).
  rewrite Hf, Hc. repeat split; try assumption.
  intros i f Hi Hlook. rewrite (kind_fits_any_state st). eauto.
Qed.

(** A reader that stops at the first [LZMA_VLI_UNKNOWN] sees the [k]
    entries before it. *)
Lemma filters_upto_unknown_take (k : nat) :
  forall l : list lzma_filter,
    (forall i f, (i < k)%nat -> l !! i = Some f ->
                 lzma_vli_eqb (id f) LZMA_VLI_UNKNOWN = false) ->
    (exists f, l !! k = Some f /\ id f = LZMA_VLI_UNKNOWN) ->
    filters_upto_unknown l = take k l.
Proof.
  induction k as [| k IH]; intros l Hbefore (f & Hk & Hid).
  - destruct l as [| f0 l]; [reflexivity |]. simpl in Hk.
    inversion Hk; subst. simpl. rewrite Hid. reflexivity.
  - destruct l as [| f0 l]; [discriminate Hk |]. simpl.
    rewrite (Hbefore 0%nat f0) by (simpl; auto with lia).
    f_equal. apply IH.
    + intros i g Hi Hg. apply (Hbefore (S i) g); [lia | exact Hg].
    + exists f. split; [exact Hk | exact Hid].
Qed.

Lemma default_chain_chain_ok (st st1 : state) :
  chain_ok st ->
  default_chain st = Ok st1 ->
  chain_ok st1 /\ (1 <= filter_count st1)%nat.
Proof.
  unfold default_chain. intros Hok.
  destruct (Nat.eqb_spec (filter_count st) 0) as [Hc | Hc].
  - destruct (lzma_lzma_preset (preset_number st)); simpl;
      [| discriminate].
    intros H. inversion H; subst. clear H.
    destruct Hok as (Hlen & Hmax & _). unfold chain_ok, array_sized in *.
    simpl. rewrite length_insert.
    split; [| lia]. split; [exact Hlen |].
    split; [unfold LZMA_BLOCK_FILTERS_MAX; lia |].
    intros i f Hi Hlook. assert (i = 0%nat) as -> by lia.
    rewrite list_lookup_insert_eq in Hlook
      by (rewrite Hlen; unfold LZMA_BLOCK_FILTERS_MAX; lia).
    inversion Hlook; subst. simpl. unfold default_filter_id.
    destruct (format_type_eqb _ _); reflexivity.
  - intros H. inversion H; subst. split; [exact Hok | lia].
Qed.

Lemma terminate_chain_chain_ok (st : state) :
  chain_ok st ->
  chain_ok (terminate_chain st) /\
  filter_id (terminate_chain st) (filter_count st) = LZMA_VLI_UNKNOWN.
Proof.
  intros (Hlen & Hmax & Hfit). unfold chain_ok, array_sized in *.
  unfold terminate_chain, filter_id. simpl. rewrite length_alter.
  split.
  - split; [exact Hlen |]. split; [exact Hmax |].
    intros i f Hi Hlook.
    rewrite list_lookup_alter_ne in Hlook by lia.
    rewrite (kind_fits_any_state st). eauto.
  - rewrite list_lookup_alter_eq.
    destruct (lookup_lt_is_Some_2 (opt_filters st) (filter_count st))
      as [f Hf]; [rewrite Hlen; lia |].
    rewrite Hf. reflexivity.
Qed.

Lemma set_compression_settings_chain (st st' : state) :
  chain_ok st ->
  set_compression_settings st = Ok st' ->
  chain_ok st' /\
  (1 <= filter_count st')%nat /\
  filter_id st' (filter_count st') = LZMA_VLI_UNKNOWN /\
  length (chain st') = filter_count st' /\
  Forall (fun e => kind_fits (fst e) (snd e) = true) (chain st').
Proof.
  intros Hok Hrun.
  unfold set_compression_settings, settle_memory_usage in Hrun.
  apply bind_ok in Hrun as ([st3 U] & Hsettle & Hlimit).
  apply bind_ok in Hsettle as (st1 & Hdefault & Hsettle).
  apply bind_ok in Hsettle as (st2 & Hcheck & Hsettle).
  apply lzma_format_check_ok in Hcheck. subst st2. simpl in Hlimit.
  destruct (default_chain_chain_ok _ _ Hok Hdefault) as [Hok1 Hone].
  destruct (terminate_chain_chain_ok _ Hok1) as [Hok2 Hend].
  apply memory_limit_frame in Hsettle as [Hs _].
  destruct Hs as (_ & _ & _ & _ & Hf3 & Hc3 & _).
  apply limit_threads_frame in Hlimit.
  destruct Hlimit as (_ & _ & _ & Hf & _ & _ & _ & _ & Hc).
  assert (Hfilters : opt_filters st' = opt_filters (terminate_chain st1))
    by congruence.
  assert (Hcount : filter_count st' = filter_count st1)
    by (rewrite Hc, Hc3; reflexivity).
  assert (Hok' : chain_ok st').
  { apply (chain_ok_same (terminate_chain st1)); assumption. }
  assert (Hend' : filter_id st' (filter_count st') = LZMA_VLI_UNKNOWN).
  { unfold filter_id in *. rewrite Hfilters, Hcount. exact Hend. }
  split; [exact Hok' |]. split; [lia |]. split; [exact Hend' |].
  destruct Hok' as (Hlen & Hmax & Hfit). unfold array_sized in Hlen.
  assert (Hview : filters_upto_unknown (opt_filters st')
                  = take (filter_count st') (opt_filters st')).
  { apply filters_upto_unknown_take.
    - intros i f Hi Hlook. apply (kind_fits_known _ _ (Hfit i f Hi Hlook)).
    - unfold filter_id in Hend'.
      destruct (opt_filters st' !! filter_count st') as [f |] eqn:Hlook;
        [| discriminate Hend'].
      exists f. split; [reflexivity | exact Hend']. }
  unfold chain. rewrite Hview. split.
  - rewrite length_map, length_take_le; [reflexivity |].
    rewrite Hlen. lia.
  - apply Forall_map. apply Forall_lookup. intros i f Hlook. simpl.
    apply lookup_take_Some in Hlook as [Hlook Hi]. eauto.
Qed.

(** X4.  From a chain as [add_filter] keeps it, a Resolver that returns
    hands on a chain of at least one and at most seven filters, each with
    options of its own kind, and the slot behind them holds
    [LZMA_VLI_UNKNOWN]: a reader that stops at the terminator sees
    exactly [filter_count] filters. *)
Theorem settled_chain_is_terminated (st st' : state) :
  chain_ok st ->
  set_compression_settings st = Ok st' ->
  chain_ok st' /\
  (1 <= filter_count st')%nat /\
  filter_id st' (filter_count st') = LZMA_VLI_UNKNOWN /\
  length (chain st') = filter_count st' /\
  Forall (fun e => kind_fits (fst e) (snd e) = true) (chain st').
Proof. apply set_compression_settings_chain. Qed.

(** *** How the Resolver ends the process *)

(** X5.  The ways the Resolver ends the process, each with what brings
    it about: the internal error needs a call of [lzma_lzma_preset], so
    an empty chain or the default mark; the legacy-format exit needs the
    legacy format and filters of the user; the preset exit needs the
    default mark and the filter-setup exit its absence; the remaining
    one is the failed assertion. *)
Theorem settings_exits (st : state) (e : exit_reason) :
  array_sized st ->
  set_compression_settings st = Exit e ->
  (e = E_internal_error /\
   (filter_count st = 0%nat \/ preset_default st = true))
  \/ (e = E_lzma_format_filter /\
      opt_format st = FORMAT_LZMA /\ filter_count st <> 0%nat)
  \/ (e = E_memlimit_preset /\ preset_default st = true)
  \/ (e = E_memlimit_filter_setup /\ preset_default st = false)
  \/ e = A_assert_failed.
Proof.
  intros Hlen Hrun.
  unfold set_compression_settings, settle_memory_usage in Hrun.
  destruct (default_chain st) as [st1 | e1] eqn:Hdefault; simpl in Hrun.
  - apply default_chain_frame in Hdefault as Hframe.
    destruct Hframe as (_ & Hfmt & _ & _ & Hpd & _).
    destruct (lzma_format_check (terminate_chain st1)) as [st2 | e2]
      eqn:Hcheck; simpl in Hrun.
    + apply lzma_format_check_ok in Hcheck. subst st2.
      destruct (memory_limit _ _) as [[st3 U] | e3] eqn:Hlimit;
        simpl in Hrun.
      * unfold limit_threads in Hrun. destruct (U =? 0);
          inversion Hrun. auto 10.
      * inversion Hrun; subst. clear Hrun. unfold memory_limit in Hlimit.
        change (preset_default (terminate_chain st1))
          with (preset_default st1) in Hlimit.
        rewrite Hpd in Hlimit. destruct (preset_default st).
        -- apply lower_preset_exits in Hlimit as [-> | ->]; auto 10.
        -- destruct (_ <? _); inversion Hlimit. auto 10.
    + inversion Hrun; subst. clear Hrun. right. left.
      unfold lzma_format_check in Hcheck.
      change (opt_format (terminate_chain st1)) with (opt_format st1)
        in Hcheck.
      rewrite Hfmt in Hcheck.
      destruct (format_type_eqb (opt_format st) FORMAT_LZMA) eqn:Hlzma;
        simpl in Hcheck; [| discriminate Hcheck].
      destruct (_ || _) eqn:Hbad; inversion Hcheck. clear Hcheck.
      split; [reflexivity |].
      split; [destruct (opt_format st); (reflexivity || discriminate Hlzma) |].
      intros Hc.
      destruct (lzma_lzma_preset (preset_number st)) as [o |] eqn:Ho.
      * destruct (default_chain_run st o Hc Hlen Ho)
          as (st1' & Hrun' & _ & _ & _ & Hpass).
        rewrite Hdefault in Hrun'. inversion Hrun'; subst.
        unfold lzma_format_check in Hpass.
        change (opt_format (terminate_chain st1')) with (opt_format st1')
          in Hpass.
        rewrite Hfmt, Hlzma in Hpass. simpl in Hpass.
        rewrite Hbad in Hpass. discriminate Hpass.
      * unfold default_chain in Hdefault. rewrite Hc, Ho in Hdefault.
        discriminate Hdefault.
  - inversion Hrun; subst. clear Hrun. left.
    unfold default_chain in Hdefault.
    destruct (Nat.eqb_spec (filter_count st) 0) as [Hc | Hc];
      [| discriminate Hdefault].
    destruct (lzma_lzma_preset (preset_number st)); simpl in Hdefault;
      inversion Hdefault. auto.
Qed.

Lemma lower_preset_level (st : state) (mu : N) (st' : state) (mu' : N) :
  lower_preset st mu = Ok (st', mu') ->
  1 <= preset_number st < SIZE_MOD ->
  1 <= preset_number st' <= preset_number st.
Proof.
  funelim (lower_preset st mu); intros Hrun Hn; try discriminate Hrun.
  - inversion Hrun; subst. lia.
  - match goal with
    | IH : forall st' mu', _ -> _ -> 1 <= preset_number _ <= _ |- _ =>
        pose proof (IH _ _ Hrun) as Hlevel
    end.
    simpl in Hlevel. rewrite size_dec_pos in Hlevel by exact Hn.
    assert (Hge : 2 <= preset_number st) by lia.
    unfold SIZE_MOD in *. lia.
Qed.

(** The Resolver takes a preset level of 1 to 9 to a level of 1 to 9 that
    is not above it. *)
Lemma settings_keep_level_in_range (st st' : state) :
  set_compression_settings st = Ok st' ->
  1 <= preset_number st <= 9 ->
  1 <= preset_number st' <= preset_number st.
Proof.
  unfold set_compression_settings, settle_memory_usage. intros Hrun Hn.
  apply bind_ok in Hrun as ([st3 U] & Hsettle & Hlimit).
  apply bind_ok in Hsettle as (st1 & Hdefault & Hsettle).
  apply bind_ok in Hsettle as (st2 & Hcheck & Hsettle).
  apply lzma_format_check_ok in Hcheck. subst st2. simpl in Hlimit.
  apply default_chain_frame in Hdefault.
  destruct Hdefault as (_ & _ & _ & _ & _ & Hnum & _).
  apply limit_threads_frame in Hlimit.
  destruct Hlimit as (_ & _ & _ & _ & _ & _ & Hn' & _).
  rewrite Hn'. unfold memory_limit in Hsettle.
  destruct (preset_default (terminate_chain st1)).
  - apply lower_preset_level in Hsettle; simpl in *;
      rewrite Hnum in *; unfold SIZE_MOD; lia.
  - destruct (_ <? _); [discriminate |]. inversion Hsettle; subst.
    simpl. lia.
Qed.

End ResolverFacts.

Section FlagFacts.

Context {lzma_options_lzma lzma_options_delta lzma_options_subblock : Type}.
Context {FILE : Type}.
Context {C : Collaborators lzma_options_lzma lzma_options_delta
               lzma_options_subblock FILE}.

Local Abbreviation state :=
  (@state lzma_options_lzma lzma_options_delta lzma_options_subblock FILE).

Local Abbreviation filter_options :=
  (@filter_options lzma_options_lzma lzma_options_delta
     lzma_options_subblock).

Local Abbreviation lzma_filter :=
  (@lzma_filter lzma_options_lzma lzma_options_delta lzma_options_subblock).

(** Takes the equation [H : parse_option c optarg st = Ok st'] apart, one
    branch of the [switch] per goal. *)
Ltac switch_cases H :=
  unfold parse_option in H;
  repeat lazymatch type of H with
    | (if ?b then _ else _) = _ => destruct b eqn:?
    | bind ?r _ = _ => destruct r eqn:?; simpl in H
    | files_from _ _ _ = _ => unfold files_from in H
    | match ?x with _ => _ end = _ => destruct x eqn:?
    | Exit _ = Ok _ => discriminate H
    end.

Ltac eqb_facts :=
  repeat match goal with
    | E : (_ =? _)%Z = true |- _ => apply Z.eqb_eq in E
    end.

Lemma add_filter_effect (i : lzma_vli) (s : option string) (st st' : state) :
  add_filter i s st = Ok st' ->
  preset_default st' = false /\
  preset_number st' = preset_number st /\
  filter_count st' = S (filter_count st) /\
  length (opt_filters st') = length (opt_filters st) /\
  verbosity st' = verbosity st.
Proof.
  unfold add_filter.
  destruct (Nat.eqb (filter_count st) LZMA_BLOCK_FILTERS_MAX);
    [discriminate |].
  intros H. apply bind_ok in H as (o & _ & H).
  inversion H; subst. simpl. rewrite length_insert. repeat split.
Qed.

(** What one option does to the preset and the chain. *)
Lemma parse_option_chain (c : Z) (optarg : option string) (st st' : state) :
  parse_option c optarg st = Ok st' ->
  (is_preset_flag c = true /\
   st' = set_preset_default false
           (set_preset_number (Z.to_N (c - chr "0")) st))
  \/ (is_filter_flag c = true /\ exists i s, add_filter i s st = Ok st')
  \/ (is_preset_flag c = false /\ is_filter_flag c = false /\
      preset_number st' = preset_number st /\
      preset_default st' = preset_default st /\
      filter_count st' = filter_count st /\
      opt_filters st' = opt_filters st).
Proof.
  intros H. switch_cases H; eqb_facts; subst.
  all: try (left; split; [assumption | congruence]).
  all: try (right; left; split; [reflexivity | eauto]; fail).
  all: right; right.
  all: split; [reflexivity | split; [reflexivity |]].
  all: inversion H; subst; clear H.
  all: repeat match goal with
         | |- context [if ?b then _ else _] => destruct b
         end.
  all: repeat split.
Qed.

(** What one option does to the verbosity. *)
Lemma parse_option_verbosity (c : Z) (optarg : option string)
  (st st' : state) :
  parse_option c optarg st = Ok st' ->
  verbosity st' =
    if (c =? chr "q")%Z || (c =? chr "v")%Z
    then saturating_step (verbosity st) (c, optarg)
    else verbosity st.
Proof.
  intros H.
  destruct (is_preset_flag c || is_filter_flag c) eqn:Hchain.
  - assert (Hqv : (c =? chr "q")%Z || (c =? chr "v")%Z = false).
    { apply orb_false_iff.
      split; apply Z.eqb_neq; intros ->; vm_compute in Hchain;
        discriminate Hchain. }
    rewrite Hqv.
    destruct (parse_option_chain _ _ _ _ H)
      as [[_ ->] | [(_ & i & s & Hadd) | (Hp & Hf & _)]].
    + reflexivity.
    + apply add_filter_effect in Hadd. tauto.
    + rewrite Hp, Hf in Hchain. discriminate Hchain.
  - apply orb_false_iff in Hchain as [Hpreset Hfilter].
    unfold is_preset_flag in Hpreset.
    switch_cases H; eqb_facts; subst;
      try discriminate Hfilter; try congruence.
    all: inversion H; subst; clear H; try reflexivity.
    all: unfold saturating_step; simpl fst.
    all: try change (chr "q" =? chr "q")%Z with true.
    all: try change (chr "v" =? chr "q")%Z with false.
    all: simpl orb; cbv iota.
    all: rewrite ?Z.gtb_ltb.
    all: repeat match goal with
           | |- context [if ?b then _ else _] => destruct b
           end; reflexivity.
Qed.

Lemma parse_options_app (xs ys : list (Z * option string)) (st st' : state) :
  parse_options (xs ++ ys) st = Ok st' ->
  exists st1, parse_options xs st = Ok st1 /\ parse_options ys st1 = Ok st'.
Proof.
  revert st. induction xs as [| [c optarg] xs IH]; intros st H; simpl in *.
  - eauto.
  - apply bind_ok in H as (st0 & H0 & H). rewrite H0. simpl. auto.
Qed.

(** *** Verbosity *)

Lemma saturating_step_in_range (v : Z) (r : Z * option string) :
  (V_SILENT <= v <= V_DEBUG)%Z ->
  (V_SILENT <= saturating_step v r <= V_DEBUG)%Z.
Proof.
  intros Hv. unfold saturating_step.
  destruct (fst r =? chr "q")%Z;
    [destruct (Z.ltb_spec V_SILENT v) | destruct (Z.ltb_spec v V_DEBUG)];
    lia.
Qed.

(** Whatever the options are, a level in range stays in range. *)
Lemma parse_options_verbosity_in_range (rets : list (Z * option string))
  (st st' : state) :
  parse_options rets st = Ok st' ->
  verbosity_in_range st -> verbosity_in_range st'.
Proof.
  revert st. induction rets as [| [c optarg] rets IH]; intros st H Hv;
    simpl in H.
  - inversion H; subst. exact Hv.
  - apply bind_ok in H as (st0 & H0 & H). apply (IH st0 H).
    unfold verbosity_in_range in *.
    rewrite (parse_option_verbosity _ _ _ _ H0).
    destruct (_ || _); [apply saturating_step_in_range |]; exact Hv.
Qed.

Lemma quiet_or_verbose_runs (c : Z) (optarg : option string) (st : state) :
  c = chr "q" \/ c = chr "v" ->
  exists st', parse_option c optarg st = Ok st'.
Proof. intros [-> | ->]; eexists; reflexivity. Qed.

(** C8.  From a level within [V_SILENT, V_DEBUG], any sequence of
    [--quiet] and [--verbose] is processed to its end; each [--quiet]
    takes the level down by one only above [V_SILENT] and each
    [--verbose] takes it up by one only below [V_DEBUG], so the level
    never leaves the range. *)
Theorem verbosity_saturates (rets : list (Z * option string)) (st : state) :
  verbosity_in_range st ->
  Forall (fun r => fst r = chr "q" \/ fst r = chr "v") rets ->
  exists st',
    parse_options rets st = Ok st' /\
    verbosity st' = fold_left saturating_step rets (verbosity st) /\
    verbosity_in_range st'.
Proof.
  intros Hv Hall. revert st Hv.
  induction Hall as [| [c optarg] rets Hc _ IH]; intros st Hv; simpl.
  - exists st. auto.
  - simpl in Hc.
    destruct (quiet_or_verbose_runs c optarg st Hc) as [st0 H0].
    rewrite H0. simpl.
    pose proof (parse_option_verbosity _ _ _ _ H0) as Hstep.
    assert (Hqv : (c =? chr "q")%Z || (c =? chr "v")%Z = true)
      by (destruct Hc as [-> | ->]; reflexivity).
    rewrite Hqv in Hstep.
    destruct (IH st0) as (st' & Hrun & Hval & Hrange).
    + unfold verbosity_in_range. rewrite Hstep.
      apply saturating_step_in_range. exact Hv.
    + exists st'. rewrite Hstep in Hval. auto.
Qed.

(** *** The preset across the two passes *)

Lemma same_chain_trans (a b c : state) :
  same_chain a b -> same_chain b c -> same_chain a c.
Proof.
  unfold same_chain. intros Hab Hbc.
  decompose [and] Hab. decompose [and] Hbc. repeat split; congruence.
Qed.

Lemma parse_options_same_chain (rets : list (Z * option string))
  (st st' : state) :
  Forall leaves_chain_alone rets ->
  parse_options rets st = Ok st' ->
  same_chain st st'.
Proof.
  intros Hall. revert st.
  induction Hall as [| [c optarg] rets [Hp Hf] _ IH]; intros st H;
    simpl in *.
  - inversion H; subst. repeat split.
  - apply bind_ok in H as (st0 & H0 & H).
    apply (same_chain_trans st st0 st'); [| apply IH; exact H].
    destruct (parse_option_chain _ _ _ _ H0)
      as [[Hp' _] | [[Hf' _] | (_ & _ & Hsame)]];
      [congruence | congruence | exact Hsame].
Qed.

Lemma preset_flag_is_no_filter_flag (c : Z) :
  is_preset_flag c = true -> is_filter_flag c = false.
Proof.
  unfold is_preset_flag, is_filter_flag, OPT_LZMA2, INT_MIN.
  change (chr "1") with 49%Z.
  intros H. apply andb_true_iff in H as [Hlo _]. apply Z.leb_le in Hlo.
  apply andb_false_iff. right. apply Z.leb_gt. lia.
Qed.

Lemma parse_option_stays_explicit (c : Z) (optarg : option string)
  (st st' : state) :
  parse_option c optarg st = Ok st' ->
  preset_default st = false -> preset_default st' = false.
Proof.
  intros H Hpd.
  destruct (parse_option_chain _ _ _ _ H)
    as [[_ ->] | [(_ & i & s & Hadd) | (_ & _ & _ & Hsame & _)]].
  - reflexivity.
  - apply add_filter_effect in Hadd. tauto.
  - congruence.
Qed.

Lemma parse_options_stays_explicit (rets : list (Z * option string))
  (st st' : state) :
  parse_options rets st = Ok st' ->
  preset_default st = false -> preset_default st' = false.
Proof.
  revert st. induction rets as [| [c optarg] rets IH]; intros st H Hpd;
    simpl in H.
  - inversion H; subst. exact Hpd.
  - apply bind_ok in H as (st0 & H0 & H).
    apply (IH st0 H). apply (parse_option_stays_explicit _ _ _ _ H0 Hpd).
Qed.

(** C1, as amended.  In any sequence of options, a numeric preset flag
    clears [preset_default], and nothing after it sets it again; the
    level is the one of the flag unless a later option changes the preset
    or the chain.  With the chain still empty, a first estimate over the
    budget then ends the Resolver with the "too small for the given
    filter setup" exit: the preset is not lowered. *)
Theorem preset_flag_makes_setup_explicit
  (before after : list (Z * option string)) (c : Z) (optarg : option string)
  (st st2 : state) :
  is_preset_flag c = true ->
  parse_options (before ++ (c, optarg) :: after) st = Ok st2 ->
  preset_default st2 = false /\
  (Forall leaves_chain_alone after ->
   preset_number st2 = Z.to_N (c - chr "0")) /\
  (forall o,
     filter_count st2 = 0%nat ->
     array_sized st2 ->
     lzma_lzma_preset (preset_number st2) = Some o ->
     opt_memory st2 < first_estimate st2 o ->
     set_compression_settings st2 = Exit E_memlimit_filter_setup).
Proof.
  intros Hc Hrun.
  apply parse_options_app in Hrun as (st0 & _ & Hrun). simpl in Hrun.
  apply bind_ok in Hrun as (st1 & Hflag & Hrest).
  assert (Hst1 : st1 = set_preset_default false
                         (set_preset_number (Z.to_N (c - chr "0")) st0)).
  { destruct (parse_option_chain _ _ _ _ Hflag)
      as [[_ E] | [(Hf & _) | (Hp & _)]]; [exact E | | congruence].
    rewrite (preset_flag_is_no_filter_flag c Hc) in Hf. discriminate Hf. }
  assert (Hpd : preset_default st2 = false).
  { apply (parse_options_stays_explicit _ _ _ Hrest). subst st1.
    reflexivity. }
  split; [exact Hpd |]. split.
  - intros Hafter.
    destruct (parse_options_same_chain _ _ _ Hafter Hrest) as (Hn & _).
    rewrite Hn. subst st1. reflexivity.
  - intros o. apply explicit_chain_over_budget. exact Hpd.
Qed.

(** *** The two passes *)

Lemma parse_real_run (argv : list string) (st st' : state)
  (argv' : list string) :
  parse_real argv st = Ok (st', argv') ->
  exists st0 n,
    parse_options (command_line_returned argv) st = Ok st0 /\
    st' = set_optind n st0.
Proof.
  unfold parse_real, command_line_returned. intros H.
  apply bind_ok in H as (st0 & H0 & H). inversion H; subst. eauto.
Qed.

Lemma parse_environment_run (getenv_LZMA_OPT : option string)
  (argv0 : string) (st st' : state) :
  parse_environment getenv_LZMA_OPT argv0 st = Ok st' ->
  exists st0 n,
    parse_options (environment_returned getenv_LZMA_OPT argv0) st = Ok st0 /\
    st' = set_optind n st0.
Proof.
  unfold parse_environment, environment_returned.
  destruct getenv_LZMA_OPT as [env |].
  - intros H. apply bind_ok in H as (v & Hv & H). rewrite Hv.
    apply bind_ok in H as ([st1 argv'] & Hreal & H).
    inversion H; subst. simpl.
    apply parse_real_run in Hreal as (st0 & n & H0 & ->). eauto.
  - intros H. inversion H; subst. exists st', (optind st').
    split; [reflexivity |]. destruct st'; reflexivity.
Qed.

Lemma name_defaults_same_chain (arg0 : string) (st : state) :
  same_chain st (name_defaults arg0 st).
Proof.
  unfold name_defaults. destruct (str_filename arg0); [| repeat split].
  destruct (non_null (strstr s "lz")), (non_null (strstr s "cat")),
    (non_null (strstr s "un")); repeat split.
Qed.

(** The states between the stages of [parse_flags]. *)
Lemma parse_flags_run (getenv_LZMA_OPT : option string) (argv0 : string)
  (argv : list string) (st st' : state) (argv' : list string) :
  parse_flags getenv_LZMA_OPT argv0 argv st = Ok (st', argv') ->
  exists sta stb stc n m,
    same_chain st sta /\
    parse_options (environment_returned getenv_LZMA_OPT argv0) sta = Ok stb /\
    parse_options (command_line_returned argv) (set_optind 1 (set_optind n stb))
      = Ok stc /\
    st' = set_optind m stc.
Proof.
  unfold parse_flags. intros H.
  apply bind_ok in H as (st1 & Henv & Hreal).
  apply parse_environment_run in Henv as (stb & n & Hb & ->).
  apply parse_real_run in Hreal as (stc & m & Hc & ->).
  eexists _, stb, stc, n, m.
  split; [| split; [exact Hb | split; [exact Hc | reflexivity]]].
  destruct argv; [repeat split | apply name_defaults_same_chain].
Qed.

Lemma stdout_and_format_same_chain (st : state) :
  same_chain st (stdout_and_format st).
Proof.
  unfold stdout_and_format.
  destruct (opt_stdout st || tool_mode_eqb (opt_mode st) MODE_TEST); simpl;
    destruct (_ && _); repeat split.
Qed.

(** C10.  When neither pass meets a preset flag or a filter flag, the two
    passes leave the preset at the 7 of its initialiser, with an empty
    chain still marked as default, and the default chain the Resolver
    then fills in holds the options of [lzma_lzma_preset] at level 7. *)
Theorem default_preset_is_seven
  (getenv_LZMA_OPT : option string) (argv0 : string) (argv : list string)
  (memory threads : N) (verbose : Z) (st' : state) (argv' : list string) :
  Forall leaves_chain_alone (environment_returned getenv_LZMA_OPT argv0) ->
  Forall leaves_chain_alone (command_line_returned argv) ->
  parse_flags getenv_LZMA_OPT argv0 argv
    (initial_state memory threads verbose) = Ok (st', argv') ->
  preset_number st' = 7 /\ preset_default st' = true /\
  filter_count st' = 0%nat /\
  forall o,
    lzma_lzma_preset 7 = Some o ->
    exists st1,
      default_chain (stdout_and_format st') = Ok st1 /\
      opt_lzma st1 = o /\
      chain (terminate_chain st1) =
        preset_chain (opt_format (stdout_and_format st')) o.
Proof.
  intros Henv Hcmd Hrun.
  apply parse_flags_run in Hrun
    as (sta & stb & stc & n & m & Ha & Hb & Hc & ->).
  apply (parse_options_same_chain _ _ _ Henv) in Hb.
  apply (parse_options_same_chain _ _ _ Hcmd) in Hc.
  assert (Hsame : same_chain (initial_state memory threads verbose)
                    (set_optind m stc)).
  { eapply same_chain_trans; [exact Ha |].
    eapply same_chain_trans; [exact Hb |].
    eapply same_chain_trans; [| eapply same_chain_trans; [exact Hc |]];
      repeat split. }
  destruct Hsame as (Hn & Hpd & Hcount & Hfilters). simpl in Hn, Hpd, Hcount.
  repeat (split; [assumption |]).
  intros o Ho.
  destruct (stdout_and_format_same_chain (set_optind m stc))
    as (Hn' & _ & Hcount' & Hfilters').
  destruct (default_chain_run (stdout_and_format (set_optind m stc)) o)
    as (st1 & Hrun & _ & Hlz & Hdef & _).
  - rewrite Hcount'. exact Hcount.
  - unfold array_sized. rewrite Hfilters', Hfilters. reflexivity.
  - rewrite Hn'. change (preset_number (set_optind m stc))
      with (preset_number stc). rewrite Hn. exact Ho.
  - exists st1. split; [exact Hrun |]. split; [exact Hlz |].
    rewrite (chain_of_default _ Hdef).
    change (opt_lzma (terminate_chain st1)) with (opt_lzma st1).
    change (opt_format (terminate_chain st1)) with (opt_format st1).
    apply default_chain_frame in Hrun. decompose [and] Hrun. congruence.
Qed.

(** *** After the passes *)

(** C9.  When [parse_args] returns, the mode is the one the two passes
    left, and if they left [opt_stdout] set or the mode at [MODE_TEST],
    both [opt_keep_original] and [opt_stdout] are set. *)
Theorem stdout_or_test_keeps_original
  (getenv_LZMA_OPT : option string) (argv0 : string) (argv : list string)
  (st st' : state) (files : list string) :
  parse_args getenv_LZMA_OPT argv0 argv st = Ok (st', files) ->
  exists st2 argv',
    parse_flags getenv_LZMA_OPT argv0 argv st = Ok (st2, argv') /\
    opt_mode st' = opt_mode st2 /\
    (opt_stdout st2 = true \/ opt_mode st2 = MODE_TEST ->
     opt_keep_original st' = true /\ opt_stdout st' = true) /\
    (opt_mode st' = MODE_TEST ->
     opt_keep_original st' = true /\ opt_stdout st' = true).
Proof.
  unfold parse_args. intros H.
  apply bind_ok in H as ([st2 argv'] & Hflags & H).
  apply bind_ok in H as (st3 & Hfinish & H). simpl in Hfinish, H.
  assert (st3 = st') as ->
    by (destruct (_ !! _), (opt_files_name st3); congruence).
  clear H. exists st2, argv'. split; [exact Hflags |].
  unfold finish_settings in Hfinish.
  assert (Hkept : opt_mode st' = opt_mode (stdout_and_format st2) /\
                  opt_stdout st' = opt_stdout (stdout_and_format st2) /\
                  opt_keep_original st'
                  = opt_keep_original (stdout_and_format st2)).
  { destruct (_ || _).
    - apply set_compression_settings_frame. exact Hfinish.
    - inversion Hfinish; subst. repeat split. }
  destruct Hkept as (Hmode & Hout & Hkeep).
  assert (Hmode2 : opt_mode (stdout_and_format st2) = opt_mode st2).
  { unfold stdout_and_format.
    destruct (opt_stdout st2 || tool_mode_eqb (opt_mode st2) MODE_TEST);
      simpl; destruct (_ && _); reflexivity. }
  assert (Hforced : opt_stdout st2 = true \/ opt_mode st2 = MODE_TEST ->
                    opt_keep_original st' = true /\ opt_stdout st' = true).
  { intros Hcase. rewrite Hout, Hkeep. unfold stdout_and_format.
    assert (Hcond : opt_stdout st2 || tool_mode_eqb (opt_mode st2) MODE_TEST
                    = true).
    { destruct Hcase as [-> | ->]; [reflexivity | apply orb_true_r]. }
    rewrite Hcond. simpl. destruct (_ && _); split; reflexivity. }
  split; [congruence |]. split; [exact Hforced |].
  intros Htest. apply Hforced. right. congruence.
Qed.

(** *** One option at a time *)

(** Every turn of the loop that does not end the process follows one of
    the rules of [option_effect]. *)
Lemma parse_option_effect (c : Z) (optarg : option string) (st st' : state) :
  parse_option c optarg st = Ok st' -> option_effect st c optarg st'.
Proof.
  intros H. switch_cases H; eqb_facts; subst.
  all: try match goal with
         | Hr : required ?o = Ok _ |- _ =>
             destruct o; simpl in Hr; inversion Hr; subst; clear Hr
         end.
  all: try match goal with
         | Hr : or_exit _ ?o = Ok _ |- _ =>
             destruct o eqn:?; simpl in Hr; inversion Hr; subst; clear Hr
         end.
  all: try (inversion H; subst; clear H).
  all: try (econstructor; (eassumption || reflexivity); fail).
  all: try (eapply effect_filter; [reflexivity | eassumption]; fail).
  match goal with
  | Hb : _ || _ = false |- option_effect _ _ (Some ?arg) _ =>
      apply orb_false_iff in Hb as [Hne Hsl]; apply effect_suffix;
        [intros ->; discriminate Hne
        | destruct (strchr arg "/"); [discriminate Hsl | reflexivity]]
  end.
Qed.

(** Settles goals about which group an option value belongs to. *)
Ltac flag_groups :=
  unfold is_preset_flag, is_filter_flag, is_files_flag, mode_of_flag,
    filter_of_flag in *;
  repeat match goal with
    | H : context [(?c =? ?k)%Z] |- _ => destruct (Z.eqb_spec c k); subst
    | |- context [(?c =? ?k)%Z] => destruct (Z.eqb_spec c k); subst
    end;
  simpl in *; try discriminate; try reflexivity; try congruence.

Lemma preset_flag_alone (c : Z) :
  is_preset_flag c = true ->
  mode_of_flag c = None /\ filter_of_flag c = None /\
  is_files_flag c = false.
Proof. intros H. repeat split; flag_groups. Qed.

Lemma mode_flag_alone (c : Z) (m : tool_mode) :
  mode_of_flag c = Some m ->
  is_preset_flag c = false /\ filter_of_flag c = None /\
  is_files_flag c = false.
Proof. intros H. repeat split; flag_groups. Qed.

Lemma filter_flag_alone (c : Z) (i : lzma_vli) :
  filter_of_flag c = Some i ->
  is_preset_flag c = false /\ mode_of_flag c = None /\
  is_files_flag c = false /\ is_filter_flag c = true.
Proof. intros H. repeat split; flag_groups. Qed.

Lemma files_flag_alone (c : Z) :
  is_files_flag c = true ->
  is_preset_flag c = false /\ mode_of_flag c = None /\
  filter_of_flag c = None.
Proof. intros H. repeat split; flag_groups. Qed.

(** What [add_filter] returns when it returns. *)
Lemma add_filter_run (i : lzma_vli) (opt_str : option string)
  (st st' : state) :
  add_filter i opt_str st = Ok st' ->
  exists o,
    filter_count st <> LZMA_BLOCK_FILTERS_MAX /\
    (i <> LZMA_VLI_UNKNOWN -> i <> VLI_ZERO ->
     kind_fits i (deref st o) = true) /\
    st' = set_preset_default false
            (set_filter_count (S (filter_count st))
               (set_opt_filters
                  (<[filter_count st := {| id := i; options := o |}]>
                     (opt_filters st)) st)).
Proof.
  unfold add_filter.
  destruct (Nat.eqb_spec (filter_count st) LZMA_BLOCK_FILTERS_MAX)
    as [| Hc]; [discriminate |].
  intros H. apply bind_ok in H as (o & Ho & H). inversion H; subst.
  exists o. split; [exact Hc |]. split; [| reflexivity].
  intros Hunknown Hzero.
  destruct i; cbv beta iota in Ho; try congruence;
    first [ apply bind_ok in Ho as (b & _ & Ho); inversion Ho; reflexivity
          | destruct opt_str; inversion Ho; reflexivity ].
Qed.

Lemma filter_flag_names_a_filter (c : Z) (i : lzma_vli) :
  filter_of_flag c = Some i -> i <> LZMA_VLI_UNKNOWN /\ i <> VLI_ZERO.
Proof. intros H. split; intros ->; flag_groups. Qed.

(** The chain after one option: as before, or longer by the filter of a
    filter option. *)
Lemma option_effect_chain (c : Z) (optarg : option string) (st st' : state) :
  option_effect st c optarg st' ->
  (filter_of_flag c = None /\
   opt_filters st' = opt_filters st /\ filter_count st' = filter_count st)
  \/ (exists i opt_str,
        filter_of_flag c = Some i /\ add_filter i opt_str st = Ok st').
Proof.
  intros H. destruct H; try (left; repeat split; reflexivity).
  - left. destruct (preset_flag_alone c) as (_ & Hf & _); auto.
  - left. destruct (mode_flag_alone c m) as (_ & Hf & _); auto.
  - left. destruct (_ >? _)%Z; repeat split.
  - left. destruct (_ <? _)%Z; repeat split.
  - right. eauto.
  - left. destruct (files_flag_alone c) as (_ & _ & Hf); [assumption |].
    destruct (c =? OPT_FILES)%Z; auto.
Qed.

Lemma filters_of_flags_cons (c : Z) (optarg : option string)
  (rets : list (Z * option string)) :
  filters_of_flags ((c, optarg) :: rets)
  = match filter_of_flag c with
    | Some i => i :: filters_of_flags rets
    | None => filters_of_flags rets
    end.
Proof. reflexivity. Qed.

Lemma parse_options_chain_ok (rets : list (Z * option string))
  (st st' : state) :
  chain_ok st ->
  parse_options rets st = Ok st' ->
  chain_ok st' /\
  filter_count st' = (filter_count st + length (filters_of_flags rets))%nat /\
  (filter_count st + length (filters_of_flags rets)
   <= LZMA_BLOCK_FILTERS_MAX)%nat.
Proof.
  revert st. induction rets as [| [c optarg] rets IH]; intros st Hok Hrun;
    simpl in Hrun.
  - inversion Hrun; subst. simpl. destruct Hok as (? & ? & ?).
    split; [repeat split; assumption |]. split; lia.
  - apply bind_ok in Hrun as (st0 & Hone & Hrun).
    apply parse_option_effect, option_effect_chain in Hone.
    rewrite filters_of_flags_cons.
    destruct Hone as [(Hnone & Hf & Hc) | (i & opt_str & Hsome & Hadd)].
    + rewrite Hnone. rewrite <- Hc. apply IH; [| exact Hrun].
      apply (chain_ok_same st); assumption.
    + rewrite Hsome. change (length (i :: filters_of_flags rets))
        with (S (length (filters_of_flags rets))).
      apply add_filter_run in Hadd as (o & Hroom & Hfit & ->).
      destruct (filter_flag_names_a_filter c i Hsome) as [Hu Hz].
      specialize (Hfit Hu Hz).
      match type of Hrun with
      | parse_options _ ?s = _ => assert (Hok1 : chain_ok s)
      end.
      { destruct Hok as (Hlen & Hle & Hfits).
        unfold chain_ok, array_sized, LZMA_BLOCK_FILTERS_MAX in *.
        simpl. rewrite length_insert.
        split; [exact Hlen |]. split; [lia |].
        intros k f Hk Hlook.
        destruct (Nat.eq_dec k (filter_count st)) as [-> | Hne].
        - rewrite list_lookup_insert_eq in Hlook by (rewrite Hlen; lia).
          inversion Hlook; subst. simpl.
          rewrite (kind_fits_any_state st). exact Hfit.
        - rewrite list_lookup_insert_ne in Hlook by auto.
          rewrite (kind_fits_any_state st).
          apply (Hfits k); [lia | exact Hlook]. }
      destruct (IH _ Hok1 Hrun) as (Hok' & Hcount & Hmax).
      simpl in Hcount, Hmax. split; [exact Hok' |]. split; lia.
Qed.

(** X6.  [add_filter] keeps the chain in order: over any sequence of
    options that is processed to its end the array keeps its eight
    slots, the filter count grows by the number of filter options met and
    stays at or below seven, and every slot in use holds options of the
    kind of its filter.  A sequence with more filter options than there
    is room for is never processed to its end. *)
Theorem filter_options_are_counted (rets : list (Z * option string))
  (st st' : state) :
  chain_ok st ->
  parse_options rets st = Ok st' ->
  chain_ok st' /\
  filter_count st' = (filter_count st + length (filters_of_flags rets))%nat /\
  (filter_count st + length (filters_of_flags rets)
   <= LZMA_BLOCK_FILTERS_MAX)%nat.
Proof. apply parse_options_chain_ok. Qed.

(** X7.  The filters are added in the order of their options and none is
    dropped, merged or moved: the ids in the slots in use are the ids
    that were there, followed by the ids of the filter options of the
    sequence, one for one. *)
Theorem filters_keep_their_order (rets : list (Z * option string))
  (st st' : state) :
  chain_ok st ->
  parse_options rets st = Ok st' ->
  map id (take (filter_count st') (opt_filters st'))
  = (map id (take (filter_count st) (opt_filters st))
     ++ filters_of_flags rets)%list.
Proof.
  revert st. induction rets as [| [c optarg] rets IH]; intros st Hok Hrun;
    simpl in Hrun.
  - inversion Hrun; subst. change (filters_of_flags []) with (@nil lzma_vli).
    rewrite app_nil_r. reflexivity.
  - apply bind_ok in Hrun as (st0 & Hone & Hrun).
    assert (Hok0 : chain_ok st0).
    { apply (parse_options_chain_ok [(c, optarg)] st st0 Hok).
      simpl. rewrite Hone. reflexivity. }
    rewrite (IH st0 Hok0 Hrun).
    apply parse_option_effect, option_effect_chain in Hone.
    rewrite filters_of_flags_cons.
    destruct Hone as [(Hnone & Hf & Hc) | (i & opt_str & Hsome & Hadd)].
    + rewrite Hnone, Hf, Hc. reflexivity.
    + rewrite Hsome.
      apply add_filter_run in Hadd as (o & Hroom & Hfit & ->).
      change (filter_count (set_preset_default _ _))
        with (S (filter_count st)).
      change (opt_filters (set_preset_default _ _))
        with (<[filter_count st := {| id := i; options := o |}]>
                (opt_filters st)).
      destruct Hok as (Hlen & Hle & _). unfold array_sized in Hlen.
      rewrite (take_S_r _ _ {| id := i; options := o |})
        by (apply list_lookup_insert_eq; rewrite Hlen; lia).
      rewrite take_insert_ge by lia.
      rewrite map_app, <- app_assoc. reflexivity.
Qed.

(** *** Through the two passes *)

Lemma parse_flags_stages (getenv_LZMA_OPT : option string) (argv0 : string)
  (argv : list string) (st st' : state) (argv' : list string) :
  parse_flags getenv_LZMA_OPT argv0 argv st = Ok (st', argv') ->
  exists stb stc n m,
    parse_options (environment_returned getenv_LZMA_OPT argv0)
      (named_state argv st) = Ok stb /\
    parse_options (command_line_returned argv) (set_optind 1 (set_optind n stb))
      = Ok stc /\
    st' = set_optind m stc.
Proof.
  unfold parse_flags. fold (named_state argv st). intros H.
  apply bind_ok in H as (st1 & Henv & Hreal).
  apply parse_environment_run in Henv as (stb & n & Hb & ->).
  apply parse_real_run in Hreal as (stc & m & Hc & ->).
  exists stb, stc, n, m. auto.
Qed.

(** A property of the globals that every step of [parse_args] keeps
    holds when [parse_args] returns. *)
Lemma parse_args_invariant (P : state -> Prop) :
  (forall c optarg st st',
      parse_option c optarg st = Ok st' -> P st -> P st') ->
  (forall n st, P st -> P (set_optind n st)) ->
  (forall arg0 st, P st -> P (name_defaults arg0 st)) ->
  (forall st, P st -> P (stdout_and_format st)) ->
  (forall st st', set_compression_settings st = Ok st' -> P st -> P st') ->
  forall getenv_LZMA_OPT argv0 argv st st' files,
    parse_args getenv_LZMA_OPT argv0 argv st = Ok (st', files) ->
    P st -> P st'.
Proof.
  intros Hoption Hoptind Hname Hformat Hsettings env argv0 argv st st' files
    Hrun HP.
  assert (Hoptions : forall rets s s',
             parse_options rets s = Ok s' -> P s -> P s').
  { induction rets as [| [c optarg] rets IH]; intros s s' H Hs; simpl in H.
    - inversion H; subst. exact Hs.
    - apply bind_ok in H as (s0 & H0 & H). eauto. }
  unfold parse_args in Hrun.
  apply bind_ok in Hrun as ([st2 argv'] & Hflags & Hrun).
  apply bind_ok in Hrun as (st3 & Hfinish & Hrun). simpl in Hfinish, Hrun.
  assert (st3 = st') as ->
    by (destruct (_ !! _), (opt_files_name st3); congruence).
  apply parse_flags_stages in Hflags as (stb & stc & n & m & Hb & Hc & ->).
  assert (P2 : P (set_optind m stc)).
  { apply Hoptind. apply (Hoptions _ _ _ Hc). apply Hoptind, Hoptind.
    apply (Hoptions _ _ _ Hb). unfold named_state.
    destruct argv; [exact HP | apply Hname; exact HP]. }
  unfold finish_settings in Hfinish. destruct (_ || _).
  - apply (Hsettings _ _ Hfinish). apply Hformat. exact P2.
  - inversion Hfinish; subst. apply Hformat. exact P2.
Qed.

(** *** The mode *)

Lemma add_filter_fields (i : lzma_vli) (opt_str : option string)
  (st st' : state) :
  add_filter i opt_str st = Ok st' ->
  opt_mode st' = opt_mode st /\ opt_suffix st' = opt_suffix st /\
  opt_files_name st' = opt_files_name st /\
  format_compress_auto st' = format_compress_auto st /\
  preset_number st' = preset_number st.
Proof.
  intros H. apply add_filter_run in H as (o & _ & _ & ->). repeat split.
Qed.

Lemma option_effect_mode (c : Z) (optarg : option string) (st st' : state) :
  option_effect st c optarg st' ->
  opt_mode st' = match mode_of_flag c with
                 | Some m => m
                 | None => opt_mode st
                 end.
Proof.
  intros H. destruct H; try reflexivity.
  - destruct (preset_flag_alone c) as (-> & _); auto.
  - match goal with Hm : mode_of_flag _ = Some _ |- _ => rewrite Hm end.
    reflexivity.
  - destruct (_ >? _)%Z; reflexivity.
  - destruct (_ <? _)%Z; reflexivity.
  - destruct (filter_flag_alone c i) as (_ & -> & _); [assumption |].
    match goal with
    | Ha : add_filter _ _ _ = Ok _ |- _ => apply add_filter_fields in Ha
    end.
    tauto.
  - destruct (files_flag_alone c) as (_ & -> & _); [assumption |].
    destruct (c =? OPT_FILES)%Z; reflexivity.
Qed.

Lemma parse_options_mode (rets : list (Z * option string)) (st st' : state) :
  parse_options rets st = Ok st' ->
  opt_mode st' = last_mode rets (opt_mode st).
Proof.
  revert st. induction rets as [| [c optarg] rets IH]; intros st H;
    simpl in H.
  - inversion H; subst. reflexivity.
  - apply bind_ok in H as (st0 & H0 & H). rewrite (IH st0 H).
    apply parse_option_effect, option_effect_mode in H0.
    unfold last_mode. simpl. rewrite H0. reflexivity.
Qed.

(** X10.  The mode the two passes leave is the mode of the last mode
    option ([-d], [-l], [-t], [-z]) met, the options of the command line
    coming after those of [LZMA_OPT]; without any it is the mode the
    invocation name gave. *)
Theorem last_mode_flag_decides
  (getenv_LZMA_OPT : option string) (argv0 : string) (argv : list string)
  (st st' : state) (argv' : list string) :
  parse_flags getenv_LZMA_OPT argv0 argv st = Ok (st', argv') ->
  opt_mode st'
  = last_mode (environment_returned getenv_LZMA_OPT argv0
               ++ command_line_returned argv)%list
      (opt_mode (named_state argv st)).
Proof.
  intros H.
  apply parse_flags_stages in H as (stb & stc & n & m & Hb & Hc & ->).
  apply parse_options_mode in Hb, Hc.
  unfold last_mode in *. rewrite fold_left_app.
  change (opt_mode (set_optind m stc)) with (opt_mode stc).
  rewrite Hc. simpl. rewrite Hb. reflexivity.
Qed.

(** *** The list of files *)

Lemma option_effect_files (c : Z) (optarg : option string) (st st' : state) :
  option_effect st c optarg st' ->
  if is_files_flag c
  then opt_files_name st = None /\ opt_files_name st' <> None
  else opt_files_name st' = opt_files_name st.
Proof.
  intros H. destruct H; try reflexivity.
  - destruct (preset_flag_alone c) as (_ & _ & ->); auto.
  - destruct (mode_flag_alone c m) as (_ & _ & ->); auto.
  - destruct (_ >? _)%Z; reflexivity.
  - destruct (_ <? _)%Z; reflexivity.
  - destruct (filter_flag_alone c i) as (_ & _ & -> & _); [assumption |].
    match goal with
    | Ha : add_filter _ _ _ = Ok _ |- _ => apply add_filter_fields in Ha
    end.
    tauto.
  - match goal with Hf : is_files_flag _ = true |- _ => rewrite Hf end.
    split; [assumption | discriminate].
Qed.

Lemma parse_options_files (rets : list (Z * option string)) (st st' : state) :
  parse_options rets st = Ok st' ->
  named_lists st' = (named_lists st + files_flags rets)%nat.
Proof.
  revert st. induction rets as [| [c optarg] rets IH]; intros st H;
    simpl in H.
  - inversion H; subst. unfold files_flags. simpl. lia.
  - apply bind_ok in H as (st0 & H0 & H). rewrite (IH st0 H).
    apply parse_option_effect, option_effect_files in H0.
    unfold files_flags, named_lists in *. simpl.
    destruct (is_files_flag c); simpl.
    + destruct H0 as [-> Hsome].
      destruct (opt_files_name st0); [lia | congruence].
    + rewrite H0. lia.
Qed.

(** X8.  Starting without a file list, the two passes are processed to
    their end only if they hold at most one [--files] or [--files0]
    between them, and a file list is named afterwards exactly when they
    hold one. *)
Theorem one_file_list_at_most
  (getenv_LZMA_OPT : option string) (argv0 : string) (argv : list string)
  (st st' : state) (argv' : list string) :
  opt_files_name st = None ->
  parse_flags getenv_LZMA_OPT argv0 argv st = Ok (st', argv') ->
  (files_flags (environment_returned getenv_LZMA_OPT argv0
                ++ command_line_returned argv)%list <= 1)%nat /\
  (opt_files_name st' = None <->
   files_flags (environment_returned getenv_LZMA_OPT argv0
                ++ command_line_returned argv)%list = 0%nat).
Proof.
  intros Hnone H.
  apply parse_flags_stages in H as (stb & stc & n & m & Hb & Hc & ->).
  apply parse_options_files in Hb, Hc.
  assert (Hstart : named_lists (named_state argv st) = 0%nat).
  { unfold named_lists, named_state, name_defaults.
    destruct argv as [| arg0 argv]; [rewrite Hnone; reflexivity |].
    destruct (str_filename arg0); [| rewrite Hnone; reflexivity].
    destruct (non_null (strstr s "lz")), (non_null (strstr s "cat")),
      (non_null (strstr s "un")); simpl; rewrite Hnone; reflexivity. }
  assert (Htotal :
            named_lists stc
            = files_flags (environment_returned getenv_LZMA_OPT argv0
                           ++ command_line_returned argv)%list).
  { unfold files_flags in *. rewrite List.filter_app, length_app.
    rewrite Hc. change (named_lists (set_optind 1 (set_optind n stb)))
      with (named_lists stb). rewrite Hb, Hstart. reflexivity. }
  rewrite <- Htotal. change (opt_files_name (set_optind m stc))
    with (opt_files_name stc).
  unfold named_lists. destruct (opt_files_name stc); split;
    try lia; split; intros; (reflexivity || discriminate).
Qed.

(** *** The suffix *)

Lemma strchr_none (s : string) (c : ascii) :
  strchr s c = None -> ~ In c (list_ascii_of_string s).
Proof.
  induction s as [| a rest IH]; simpl; [tauto |].
  destruct (Ascii.eqb_spec a c) as [| Hne]; [discriminate |].
  intros H [Heq | Hin]; [exact (Hne Heq) | exact (IH H Hin)].
Qed.

Lemma option_effect_suffix (c : Z) (optarg : option string) (st st' : state) :
  option_effect st c optarg st' ->
  opt_suffix st' = opt_suffix st
  \/ exists arg, usable_suffix arg /\ opt_suffix st' = Some arg.
Proof.
  intros H. destruct H; try (left; reflexivity).
  - right. exists arg. split; [| reflexivity].
    split; [assumption | apply strchr_none; assumption].
  - left. destruct (_ >? _)%Z; reflexivity.
  - left. destruct (_ <? _)%Z; reflexivity.
  - left.
    match goal with
    | Ha : add_filter _ _ _ = Ok _ |- _ => apply add_filter_fields in Ha
    end.
    tauto.
  - left. destruct (c =? OPT_FILES)%Z; reflexivity.
Qed.

(** X9.  [parse_args] never leaves a suffix that is empty or holds a
    slash: if the suffix it starts with is usable or absent, so is the
    one it returns with. *)
Theorem suffix_stays_usable
  (getenv_LZMA_OPT : option string) (argv0 : string) (argv : list string)
  (st st' : state) (files : list string) :
  (forall s, opt_suffix st = Some s -> usable_suffix s) ->
  parse_args getenv_LZMA_OPT argv0 argv st = Ok (st', files) ->
  forall s, opt_suffix st' = Some s -> usable_suffix s.
Proof.
  intros Hstart Hrun. revert Hstart.
  apply (parse_args_invariant
           (fun st => forall s, opt_suffix st = Some s -> usable_suffix s))
    with (6 := Hrun).
  - intros c optarg s0 s1 Hone Hs0 s Hs.
    apply parse_option_effect, option_effect_suffix in Hone.
    destruct Hone as [Hsame | (arg & Harg & Hnew)].
    + apply Hs0. congruence.
    + rewrite Hnew in Hs. inversion Hs; subst. exact Harg.
  - intros n s0 Hs0. exact Hs0.
  - intros arg0 s0 Hs0 s Hs. apply Hs0. rewrite <- Hs.
    unfold name_defaults. destruct (str_filename arg0); [| reflexivity].
    destruct (non_null (strstr s1 "lz")), (non_null (strstr s1 "cat")),
      (non_null (strstr s1 "un")); reflexivity.
  - intros s0 Hs0 s Hs. apply Hs0. rewrite <- Hs. unfold stdout_and_format.
    destruct (opt_stdout s0 || _); simpl; destruct (_ && _); reflexivity.
  - intros s0 s1 Hset Hs0 s Hs. apply Hs0.
    apply set_compression_settings_untouched in Hset.
    destruct Hset as (_ & _ & Hsuffix & _). congruence.
Qed.

(** *** The verbosity *)

(** X11.  Whatever the options of the two passes are, a verbosity that
    starts within [V_SILENT, V_DEBUG] is within it when [parse_args]
    returns. *)
Theorem verbosity_never_leaves_its_range
  (getenv_LZMA_OPT : option string) (argv0 : string) (argv : list string)
  (st st' : state) (files : list string) :
  verbosity_in_range st ->
  parse_args getenv_LZMA_OPT argv0 argv st = Ok (st', files) ->
  verbosity_in_range st'.
Proof.
  intros Hstart Hrun. revert Hstart.
  apply (parse_args_invariant verbosity_in_range) with (6 := Hrun).
  - intros c optarg s0 s1 Hone.
    apply (parse_options_verbosity_in_range [(c, optarg)]).
    simpl. rewrite Hone. reflexivity.
  - intros n s0 Hs0. exact Hs0.
  - intros arg0 s0 Hs0. unfold verbosity_in_range, name_defaults in *.
    destruct (str_filename arg0); [| exact Hs0].
    destruct (non_null (strstr s "lz")), (non_null (strstr s "cat")),
      (non_null (strstr s "un")); exact Hs0.
  - intros s0 Hs0. unfold verbosity_in_range, stdout_and_format in *.
    destruct (opt_stdout s0 || _); simpl; destruct (_ && _); exact Hs0.
  - intros s0 s1 Hset Hs0. unfold verbosity_in_range in *.
    apply set_compression_settings_untouched in Hset.
    destruct Hset as (_ & _ & _ & _ & _ & _ & _ & _ & _ & _ & _ & _ & _ & _
                      & Hv & _).
    rewrite Hv. exact Hs0.
Qed.

(** *** The default mark and the preset *)

Lemma parse_options_default_mark (rets : list (Z * option string))
  (st st' : state) :
  parse_options rets st = Ok st' ->
  preset_default st' = true ->
  Forall leaves_chain_alone rets.
Proof.
  revert st. induction rets as [| [c optarg] rets IH]; intros st H Hpd;
    simpl in H; [constructor |].
  apply bind_ok in H as (st0 & H0 & H).
  destruct (parse_option_chain _ _ _ _ H0)
    as [[_ ->] | [(_ & i & s & Hadd) | (Hp & Hf & _)]].
  - rewrite (parse_options_stays_explicit _ _ _ H eq_refl) in Hpd.
    discriminate Hpd.
  - apply add_filter_effect in Hadd as (Hfalse & _).
    rewrite (parse_options_stays_explicit _ _ _ H Hfalse) in Hpd.
    discriminate Hpd.
  - constructor; [split; assumption | apply (IH st0 H Hpd)].
Qed.

(** X12.  From a state with the default mark, the two passes leave the
    mark exactly when neither of them met a preset option or a filter
    option. *)
Theorem default_mark_means_no_chain_option
  (getenv_LZMA_OPT : option string) (argv0 : string) (argv : list string)
  (st st' : state) (argv' : list string) :
  preset_default st = true ->
  parse_flags getenv_LZMA_OPT argv0 argv st = Ok (st', argv') ->
  (preset_default st' = true <->
   Forall leaves_chain_alone
     (environment_returned getenv_LZMA_OPT argv0
      ++ command_line_returned argv)%list).
Proof.
  intros Hstart H.
  apply parse_flags_stages in H as (stb & stc & n & m & Hb & Hc & ->).
  change (preset_default (set_optind m stc)) with (preset_default stc).
  assert (Hnamed : preset_default (named_state argv st) = true).
  { unfold named_state. destruct argv as [| arg0 argv]; [exact Hstart |].
    destruct (name_defaults_same_chain arg0 st) as (_ & -> & _).
    exact Hstart. }
  split.
  - intros Hpd. apply Forall_app. 
    pose proof (parse_options_default_mark _ _ _ Hc Hpd) as Hcmd.
    split; [| exact Hcmd].
    apply (parse_options_default_mark _ _ _ Hb).
    destruct (parse_options_same_chain _ _ _ Hcmd Hc) as (_ & Hsame & _).
    simpl in Hsame. rewrite <- Hsame. exact Hpd.
  - intros Hall. apply Forall_app in Hall as [Henv Hcmd].
    destruct (parse_options_same_chain _ _ _ Henv Hb) as (_ & Hb' & _).
    destruct (parse_options_same_chain _ _ _ Hcmd Hc) as (_ & Hc' & _).
    rewrite Hc'. simpl. rewrite Hb'. exact Hnamed.
Qed.

Lemma option_effect_level (c : Z) (optarg : option string) (st st' : state) :
  option_effect st c optarg st' ->
  1 <= preset_number st <= 9 -> 1 <= preset_number st' <= 9.
Proof.
  intros H Hn. destruct H; try exact Hn.
  - simpl. unfold is_preset_flag in *.
    match goal with
    | Hp : _ && _ = true |- _ => apply andb_true_iff in Hp as [Hlo Hhi]
    end.
    apply Z.leb_le in Hlo, Hhi.
    change (chr "1") with 49%Z in Hlo. change (chr "9") with 57%Z in Hhi.
    change (chr "0") with 48%Z. lia.
  - destruct (_ >? _)%Z; exact Hn.
  - destruct (_ <? _)%Z; exact Hn.
  - match goal with
    | Ha : add_filter _ _ _ = Ok _ |- _ =>
        apply add_filter_fields in Ha; destruct Ha as (_ & _ & _ & _ & ->)
    end.
    exact Hn.
  - destruct (c =? OPT_FILES)%Z; exact Hn.
Qed.

(** X13.  The preset level is always one of 1 to 9: if [parse_args]
    starts with such a level it returns with such a level, whatever the
    options and however far the Resolver lowered it. *)
Theorem preset_level_stays_in_range
  (getenv_LZMA_OPT : option string) (argv0 : string) (argv : list string)
  (st st' : state) (files : list string) :
  1 <= preset_number st <= 9 ->
  parse_args getenv_LZMA_OPT argv0 argv st = Ok (st', files) ->
  1 <= preset_number st' <= 9.
Proof.
  intros Hstart Hrun. revert Hstart.
  apply (parse_args_invariant (fun st => 1 <= preset_number st <= 9))
    with (6 := Hrun).
  - intros c optarg s0 s1 Hone.
    apply (option_effect_level c optarg). apply parse_option_effect.
    exact Hone.
  - intros n s0 Hs0. exact Hs0.
  - intros arg0 s0 Hs0.
    destruct (name_defaults_same_chain arg0 s0) as (-> & _). exact Hs0.
  - intros s0 Hs0.
    destruct (stdout_and_format_same_chain s0) as (-> & _). exact Hs0.
  - intros s0 s1 Hset Hs0.
    pose proof (settings_keep_level_in_range _ _ Hset Hs0). lia.
Qed.

(** *** After the passes, further *)

Lemma parse_option_chain_ok (c : Z) (optarg : option string)
  (st st' : state) :
  parse_option c optarg st = Ok st' -> chain_ok st -> chain_ok st'.
Proof.
  intros Hrun Hok.
  apply (parse_options_chain_ok [(c, optarg)] st st' Hok).
  simpl. rewrite Hrun. reflexivity.
Qed.

Lemma name_defaults_chain_ok (arg0 : string) (st : state) :
  chain_ok st -> chain_ok (name_defaults arg0 st).
Proof.
  intros Hok. apply (chain_ok_same st); [| | exact Hok];
    unfold name_defaults; destruct (str_filename arg0); try reflexivity;
    repeat (destruct (non_null _)); reflexivity.
Qed.

Lemma stdout_and_format_chain_ok (st : state) :
  chain_ok st -> chain_ok (stdout_and_format st).
Proof.
  intros Hok. destruct (stdout_and_format_same_chain st) as (_ & _ & Hc & Hf).
  apply (chain_ok_same st); assumption.
Qed.

(** X19.  From globals whose chain is in order, a [parse_args] that
    returns leaves a chain in order; and when it returns in compress mode
    or with the raw format, the chain holds at least one filter and the
    slot behind the last one holds [LZMA_VLI_UNKNOWN]. *)
Theorem parse_args_hands_on_a_sound_chain
  (getenv_LZMA_OPT : option string) (argv0 : string) (argv : list string)
  (st st' : state) (files : list string) :
  chain_ok st ->
  parse_args getenv_LZMA_OPT argv0 argv st = Ok (st', files) ->
  chain_ok st' /\
  (opt_mode st' = MODE_COMPRESS \/ opt_format st' = FORMAT_RAW ->
   (1 <= filter_count st')%nat /\
   filter_id st' (filter_count st') = LZMA_VLI_UNKNOWN).
Proof.
  intros Hok Hrun. split.
  - revert Hok.
    apply (parse_args_invariant chain_ok) with (6 := Hrun).
    + apply parse_option_chain_ok.
    + intros n s Hs. apply (chain_ok_same s); [reflexivity | reflexivity |].
      exact Hs.
    + intros arg0 s. apply name_defaults_chain_ok.
    + apply stdout_and_format_chain_ok.
    + intros s s' Hs Hs0.
      apply (set_compression_settings_chain s s' Hs0 Hs).
  - intros Hmode.
    assert (Hflags_ok : forall st2 argv',
               parse_flags getenv_LZMA_OPT argv0 argv st = Ok (st2, argv') ->
               chain_ok st2).
    { intros st2 argv' Hflags.
      apply parse_flags_stages in Hflags
        as (stb & stc & n & m & Hb & Hc & ->).
      apply (chain_ok_same stc); [reflexivity | reflexivity |].
      apply (parse_options_chain_ok _ _ _) with (2 := Hc).
      apply (chain_ok_same stb); [reflexivity | reflexivity |].
      apply (parse_options_chain_ok _ _ _) with (2 := Hb).
      unfold named_state. destruct argv; [exact Hok |].
      apply name_defaults_chain_ok. exact Hok. }
    unfold parse_args in Hrun.
    apply bind_ok in Hrun as ([st2 argv'] & Hflags & Hrun).
    apply bind_ok in Hrun as (st3 & Hfinish & Hrun). simpl in Hfinish, Hrun.
    assert (st3 = st') as ->
        by (destruct (argv' !! optind st3), (opt_files_name st3);
            inversion Hrun; reflexivity).
    specialize (Hflags_ok _ _ Hflags).
    apply stdout_and_format_chain_ok in Hflags_ok.
    unfold finish_settings in Hfinish.
    destruct (tool_mode_eqb (opt_mode (stdout_and_format st2)) MODE_COMPRESS
              || format_type_eqb (opt_format (stdout_and_format st2))
                   FORMAT_RAW) eqn:Hcond.
    + destruct (set_compression_settings_chain _ _ Hflags_ok Hfinish)
        as (_ & Hone & Hend & _).
      split; assumption.
    + inversion Hfinish; subst. exfalso.
      apply orb_false_iff in Hcond as [Hm Hf].
      destruct Hmode as [Hmode | Hmode]; rewrite Hmode in *; discriminate.
Qed.

(** *** Exits of the loop *)

Lemma parse_options_stops (pre post : list (Z * option string))
  (c : Z) (optarg : option string) (st st1 : state) (e : exit_reason) :
  parse_options pre st = Ok st1 ->
  parse_option c optarg st1 = Exit e ->
  parse_options (pre ++ (c, optarg) :: post) st = Exit e.
Proof.
  revert st. induction pre as [| [c0 o0] pre IH]; intros st Hpre Hexit;
    simpl in *.
  - inversion Hpre; subst. rewrite Hexit. reflexivity.
  - apply bind_ok in Hpre as (st0 & H0 & Hpre). rewrite H0. simpl.
    apply IH; assumption.
Qed.

Lemma filter_flag_adds (c : Z) (i : lzma_vli) (optarg : option string)
  (st : state) :
  filter_of_flag c = Some i ->
  exists opt_str, parse_option c optarg st = add_filter i opt_str st.
Proof.
  intros Hflag.
  destruct (filter_flag_alone c i Hflag) as (Hpreset & _ & _ & _).
  unfold is_preset_flag in Hpreset. unfold parse_option. rewrite Hpreset.
  unfold filter_of_flag in Hflag.
  repeat match type of Hflag with
    | (if (?c =? ?k)%Z then _ else _) = _ =>
        destruct (Z.eqb_spec c k) as [-> | ?]
    end;
    try discriminate Hflag;
    inversion Hflag; subst; eexists; reflexivity.
Qed.

(** X20.  [--help] and [--version] end the process where the loop meets
    them: with the options before them processed, the exit is the one of
    the help or of the version text, whatever follows on the line. *)
Theorem help_and_version_end_the_loop
  (pre post : list (Z * option string)) (c : Z) (optarg : option string)
  (st st1 : state) :
  parse_options pre st = Ok st1 ->
  c = chr "h" \/ c = chr "V" ->
  parse_options (pre ++ (c, optarg) :: post) st
  = Exit (if (c =? chr "h")%Z then X_show_help else X_show_version).
Proof.
  intros Hpre Hc. apply (parse_options_stops pre post c optarg st st1);
    [exact Hpre |].
  destruct Hc as [-> | ->]; reflexivity.
Qed.

(** X21.  A filter option met with seven filters in the chain ends the
    process with the "too many filters" exit, before its argument is
    looked at and whatever follows on the line. *)
Theorem eighth_filter_is_refused
  (pre post : list (Z * option string)) (c : Z) (i : lzma_vli)
  (optarg : option string) (st st1 : state) :
  parse_options pre st = Ok st1 ->
  filter_count st1 = LZMA_BLOCK_FILTERS_MAX ->
  filter_of_flag c = Some i ->
  parse_options (pre ++ (c, optarg) :: post) st = Exit E_too_many_filters.
Proof.
  intros Hpre Hfull Hflag.
  apply (parse_options_stops pre post c optarg st st1); [exact Hpre |].
  destruct (filter_flag_adds c i optarg st1 Hflag) as [opt_str ->].
  unfold add_filter. rewrite Hfull. reflexivity.
Qed.

(** X14.  When the two passes leave a mode other than compress and a
    format other than raw, [parse_args] returns without running the
    Resolver: the budget cannot end the process, and the preset, the
    chain and the thread count are as the passes left them. *)
Theorem decoding_skips_the_settings
  (getenv_LZMA_OPT : option string) (argv0 : string) (argv : list string)
  (st st2 : state) (argv' : list string) :
  parse_flags getenv_LZMA_OPT argv0 argv st = Ok (st2, argv') ->
  opt_mode st2 <> MODE_COMPRESS ->
  opt_format st2 <> FORMAT_RAW ->
  exists st' files,
    parse_args getenv_LZMA_OPT argv0 argv st = Ok (st', files) /\
    st' = stdout_and_format st2 /\
    same_chain st2 st' /\
    opt_lzma st' = opt_lzma st2 /\ opt_threads st' = opt_threads st2 /\
    opt_format st' = opt_format st2.
Proof.
  intros Hflags Hmode Hformat.
  assert (Hnot : tool_mode_eqb (opt_mode st2) MODE_COMPRESS = false)
    by (destruct (opt_mode st2); (reflexivity || congruence)).
  assert (Hraw : format_type_eqb (opt_format st2) FORMAT_RAW = false)
    by (destruct (opt_format st2); (reflexivity || congruence)).
  assert (Hkept : opt_mode (stdout_and_format st2) = opt_mode st2 /\
                  opt_format (stdout_and_format st2) = opt_format st2 /\
                  opt_lzma (stdout_and_format st2) = opt_lzma st2 /\
                  opt_threads (stdout_and_format st2) = opt_threads st2).
  { unfold stdout_and_format.
    destruct (opt_stdout st2 || _); simpl; rewrite Hnot; simpl;
      repeat split. }
  destruct Hkept as (Hm & Hf & Hl & Ht).
  unfold parse_args. rewrite Hflags. simpl. unfold finish_settings.
  rewrite Hm, Hf, Hnot, Hraw. simpl.
  destruct (argv' !! optind (stdout_and_format st2)),
    (opt_files_name (stdout_and_format st2));
    eexists; eexists; (split; [reflexivity |]);
    (split; [reflexivity |]);
    (split; [apply stdout_and_format_same_chain |]); auto.
Qed.

(** X15.  A [parse_args] that starts with [xz] or [lzma] as the format
    for automatic selection and returns in compress mode has settled the
    format: it is not [FORMAT_AUTO] any more. *)
Theorem compressing_settles_the_format
  (getenv_LZMA_OPT : option string) (argv0 : string) (argv : list string)
  (st st' : state) (files : list string) :
  format_compress_auto st <> FORMAT_AUTO ->
  parse_args getenv_LZMA_OPT argv0 argv st = Ok (st', files) ->
  opt_mode st' = MODE_COMPRESS ->
  opt_format st' <> FORMAT_AUTO.
Proof.
  intros Hauto Hrun.
  unfold parse_args in Hrun.
  apply bind_ok in Hrun as ([st2 argv'] & Hflags & Hrun).
  apply bind_ok in Hrun as (st3 & Hfinish & Hrun). simpl in Hfinish, Hrun.
  assert (st3 = st') as ->
    by (destruct (_ !! _), (opt_files_name st3); congruence).
  clear Hrun.
  assert (Hauto2 : format_compress_auto st2 <> FORMAT_AUTO).
  { apply parse_flags_stages in Hflags as (stb & stc & n & m & Hb & Hc & ->).
    assert (Hoptions : forall rets s s',
               parse_options rets s = Ok s' ->
               format_compress_auto s' = format_compress_auto s).
    { induction rets as [| [c optarg] rets IH]; intros s s' H; simpl in H.
      - inversion H; subst. reflexivity.
      - apply bind_ok in H as (s0 & H0 & H). rewrite (IH _ _ H).
        apply parse_option_effect in H0.
        destruct H0; try reflexivity.
        + destruct (_ >? _)%Z; reflexivity.
        + destruct (_ <? _)%Z; reflexivity.
        + match goal with
          | Ha : add_filter _ _ _ = Ok _ |- _ =>
              apply add_filter_fields in Ha
          end.
          tauto.
        + destruct (c =? OPT_FILES)%Z; reflexivity. }
    change (format_compress_auto (set_optind m stc))
      with (format_compress_auto stc).
    rewrite (Hoptions _ _ _ Hc). simpl. rewrite (Hoptions _ _ _ Hb).
    unfold named_state, name_defaults.
    destruct argv as [| arg0 argv]; [exact Hauto |].
    destruct (str_filename arg0); [| exact Hauto].
    destruct (non_null (strstr s "lz")), (non_null (strstr s "cat")),
      (non_null (strstr s "un")); simpl; (exact Hauto || discriminate). }
  assert (Hsettled : opt_mode (stdout_and_format st2) = MODE_COMPRESS ->
                     opt_format (stdout_and_format st2) <> FORMAT_AUTO).
  { unfold stdout_and_format. intros Hm.
    destruct (opt_stdout st2 || _); simpl in *;
      (destruct (tool_mode_eqb (opt_mode st2) MODE_COMPRESS
                 && format_type_eqb (opt_format st2) FORMAT_AUTO) eqn:Hcond;
       simpl in *;
       [exact Hauto2
       | rewrite Hm in Hcond; simpl in Hcond; intros Heq;
         rewrite Heq in Hcond; discriminate Hcond]). }
  unfold finish_settings in Hfinish. destruct (_ || _).
  - apply set_compression_settings_untouched in Hfinish.
    destruct Hfinish as (Hm & Hf & _). rewrite Hm, Hf. exact Hsettled.
  - inversion Hfinish; subst. exact Hsettled.
Qed.

(** X16.  The list of files [parse_args] returns is the rest of the
    permuted argument vector from [optind] on, or the single name ["-"]
    when that rest is empty and no file list was named; so it is empty
    only when a file list was named. *)
Theorem files_default_to_stdin
  (getenv_LZMA_OPT : option string) (argv0 : string) (argv : list string)
  (st st' : state) (files : list string) :
  parse_args getenv_LZMA_OPT argv0 argv st = Ok (st', files) ->
  exists st2 argv',
    parse_flags getenv_LZMA_OPT argv0 argv st = Ok (st2, argv') /\
    optind st' = optind st2 /\
    (files = ["-"] /\ drop (optind st') argv' = [] /\
     opt_files_name st' = None
     \/ files = drop (optind st') argv' /\
        (files <> [] \/ opt_files_name st' <> None)) /\
    (opt_files_name st' = None -> files <> []).
Proof.
  unfold parse_args. intros Hrun.
  apply bind_ok in Hrun as ([st2 argv'] & Hflags & Hrun).
  apply bind_ok in Hrun as (st3 & Hfinish & Hrun). simpl in Hfinish, Hrun.
  exists st2, argv'. split; [exact Hflags |].
  assert (Hoptind : optind st3 = optind st2).
  { unfold finish_settings in Hfinish.
    assert (Hf : optind (stdout_and_format st2) = optind st2).
    { unfold stdout_and_format.
      destruct (opt_stdout st2 || _); simpl; destruct (_ && _);
        reflexivity. }
    destruct (_ || _).
    - apply set_compression_settings_untouched in Hfinish.
      destruct Hfinish as (_ & _ & _ & _ & _ & _ & _ & _ & _ & _ & _ & _ & _
                           & _ & _ & Ho).
      congruence.
    - inversion Hfinish; subst. exact Hf. }
  destruct (argv' !! optind st3) as [name |] eqn:Hlook.
  - assert (Hdrop : drop (optind st3) argv' <> []).
    { intros Hnil. apply lookup_lt_Some in Hlook.
      apply (f_equal length) in Hnil. rewrite length_drop in Hnil.
      simpl in Hnil. lia. }
    assert (Hres : (st', files) = (st3, drop (optind st3) argv'))
      by (destruct (opt_files_name st3); congruence).
    inversion Hres; subst. split; [exact Hoptind |].
    split; [right; split; [reflexivity | left; exact Hdrop] |].
    intros _. exact Hdrop.
  - apply lookup_ge_None_1 in Hlook.
    destruct (opt_files_name st3) as [list_name |] eqn:Hname;
      inversion Hrun; subst; (split; [exact Hoptind |]).
    + split; [right; split; [reflexivity | right; congruence] |].
      rewrite Hname. discriminate.
    + split; [| intros _; discriminate].
      left. split; [reflexivity |]. split; [| exact Hname].
      apply drop_ge. exact Hlook.
Qed.

End FlagFacts.

Section EnvironmentFacts.

Local Open Scope list_scope.

Lemma uint_inc_small (n : N) :
  (Z.of_N n <= INT_MAX)%Z -> uint_inc n = n + 1.
Proof.
  unfold uint_inc, UINT_MOD, INT_MAX. intros H. apply N.mod_small. lia.
Qed.

Lemma token_starts_length (env : string) (i j : nat) (prev : bool) :
  length (token_starts env i prev) = length (token_starts env j prev).
Proof.
  revert i j prev. induction env as [| a rest IH]; intros i j prev; simpl.
  - reflexivity.
  - destruct (isspace a); [apply IH |].
    destruct prev; simpl; [f_equal |]; apply IH.
Qed.

(** The first loop counts the token starts, and lets no count above
    [INT_MAX] through. *)
Lemma count_args_counts (env : string) (i : nat) :
  forall (argc : N) (prev : bool) (n : N),
    (Z.of_N argc <= INT_MAX)%Z ->
    count_args env argc prev = Ok n ->
    n = argc + N.of_nat (length (token_starts env i prev)) /\
    (Z.of_N n <= INT_MAX)%Z.
Proof.
  revert i. induction env as [| a rest IH]; intros i argc prev n Hmax Hrun;
    simpl in *.
  - inversion Hrun; subst. split; [lia | exact Hmax].
  - destruct (isspace a); [apply (IH (S i)); assumption |].
    destruct prev; [| apply (IH (S i)); assumption].
    rewrite (uint_inc_small _ Hmax) in Hrun.
    destruct (Z.gtb_spec (Z.of_N (argc + 1)) INT_MAX) as [Hgt | Hle];
      [discriminate |].
    destruct (IH (S i) _ _ _ Hle Hrun) as [-> Hn]. simpl. split; lia.
Qed.

(** The second loop writes the token starts into the slots that follow
    the [argc] slots it is entered with, and nothing else. *)
Lemma fill_args_fills (env : string) :
  forall (i : nat) (argc : N) (prev : bool) (pre mid post : list arg_ptr),
    length pre = N.to_nat argc ->
    length mid = length (token_starts env i prev) ->
    (Z.of_N argc + Z.of_nat (length mid) <= INT_MAX)%Z ->
    fill_args env i argc prev (pre ++ mid ++ post) =
      (pre ++ map PTR_env (token_starts env i prev) ++ post,
       argc + N.of_nat (length mid)).
Proof.
  induction env as [| a rest IH]; intros i argc prev pre mid post Hpre Hmid
    Hmax; simpl in *.
  - destruct mid; [| discriminate Hmid]. simpl. f_equal. lia.
  - destruct (isspace a); [apply IH; assumption |].
    destruct prev; [| apply IH; assumption].
    destruct mid as [| m mid]; [discriminate Hmid |]. simpl in *.
    rewrite <- Hpre.
    replace (length pre) with (length pre + 0)%nat by lia.
    rewrite insert_app_r. simpl.
    rewrite uint_inc_small by lia.
    change (PTR_env i :: mid ++ post) with ([PTR_env i] ++ mid ++ post).
    rewrite (app_assoc pre).
    rewrite (IH (S i) (argc + 1) false (pre ++ [PTR_env i]) mid post).
    + rewrite <- !app_assoc. simpl. f_equal. lia.
    + rewrite length_app. simpl. lia.
    + lia.
    + lia.
Qed.

(** What holds of the vector for every value of [LZMA_OPT]: slot 0 is
    [argv0], the last slot is the null pointer, and between them there is
    one slot per token, in order, that points at the first character of
    the token. *)
Lemma environment_argv_slots (env : string) (argv : list arg_ptr) (argc : N) :
  environment_argv env = Ok (argv, argc) ->
  argv = PTR_argv0 :: map PTR_env (token_starts env 0 true) ++ [PTR_NULL] /\
  argc = 1 + N.of_nat (length (token_starts env 0 true)).
Proof.
  unfold environment_argv. intros H.
  apply bind_ok in H as (n & Hcount & H).
  destruct (count_args_counts env 0 1 true n) as [Hn Hmax];
    [unfold INT_MAX; lia | exact Hcount |].
  set (k := length (token_starts env 0 true)) in *.
  assert (Hshape :
            <[N.to_nat n := PTR_NULL]>
              (<[0%nat := PTR_argv0]> (replicate (N.to_nat n + 1) UNINIT))
            = [PTR_argv0] ++ replicate k UNINIT ++ [PTR_NULL]).
  { replace (N.to_nat n + 1)%nat with (S (k + 1)) by lia.
    replace (N.to_nat n) with (length (PTR_argv0 :: replicate k UNINIT) + 0)%nat
      by (simpl; rewrite length_replicate; lia).
    rewrite replicate_S, replicate_add. simpl replicate.
    change (<[0%nat:=PTR_argv0]> (UNINIT :: replicate k UNINIT ++ [UNINIT]))
      with ((PTR_argv0 :: replicate k UNINIT) ++ [UNINIT]).
    rewrite insert_app_r. reflexivity. }
  rewrite Hshape in H.
  rewrite (fill_args_fills env 0 1 true [PTR_argv0] (replicate k UNINIT)
             [PTR_NULL]) in H.
  - inversion H; subst. rewrite length_replicate. split; reflexivity.
  - reflexivity.
  - rewrite length_replicate. reflexivity.
  - rewrite length_replicate. lia.
Qed.

Lemma string_at_next (s : string) (i : nat) (a : ascii) (rest : string) :
  string_at s i = String a rest -> string_at s (S i) = rest.
Proof.
  revert s. induction i as [| i IH]; intros s H.
  - destruct s as [| b s']; simpl in H; [discriminate H |].
    inversion H; subst. destruct rest; reflexivity.
  - destruct s as [| b s']; [discriminate H |]. simpl in H.
    change (string_at s' (S i) = rest). apply IH. exact H.
Qed.

Lemma strings_at_token_starts (value env : string) (i : nat) (prev : bool) :
  string_at value i = env ->
  map (string_at value) (token_starts env i prev) = token_suffixes env prev.
Proof.
  revert i prev. induction env as [| a rest IH]; intros i prev H; simpl.
  - reflexivity.
  - pose proof (string_at_next _ _ _ _ H) as Hnext.
    destruct (isspace a); [apply IH; exact Hnext |].
    destruct prev; simpl; [rewrite H; f_equal |]; apply IH; exact Hnext.
Qed.

Lemma split_at_spaces_head (s : string) :
  exists pieces, split_at_spaces s = first_token s :: pieces.
Proof.
  induction s as [| a rest [pieces IH]]; simpl.
  - eauto.
  - destruct (isspace a); [eauto |]. rewrite IH. eauto.
Qed.

(** The strings the slots point at begin with the tokens of the value,
    one after the other. *)
Lemma token_suffixes_begin_with_tokens (env : string) :
  map first_token (token_suffixes env true) = tokens env /\
  map first_token (token_suffixes env false)
  = List.filter non_empty (tail (split_at_spaces env)).
Proof.
  unfold tokens. induction env as [| a rest [IHt IHf]]; simpl.
  - split; reflexivity.
  - destruct (isspace a) eqn:Ha; simpl.
    + split; exact IHt.
    + rewrite Ha. destruct (split_at_spaces_head rest) as [pieces Hhead].
      rewrite Hhead in *. simpl in *. rewrite IHf. split; reflexivity.
Qed.

Lemma string_at_start (s : string) : string_at s 0 = s.
Proof. destruct s; reflexivity. Qed.

(** Every value of [LZMA_OPT] that gets through the first loop yields the
    program name, then for each token of the value, in order, the rest of
    the value from that token on, then the null pointer. *)
Lemma environment_arguments_are_token_suffixes
  (argv0 env : string) (argv : list arg_ptr) (argc : N) :
  environment_argv env = Ok (argv, argc) ->
  argv_view argv0 env argv
  = Some argv0 :: map Some (token_suffixes env true) ++ [None] /\
  map first_token (token_suffixes env true) = tokens env /\
  N.to_nat argc = S (length (tokens env)).
Proof.
  intros H. apply environment_argv_slots in H as [-> ->].
  pose proof (strings_at_token_starts env env 0 true (string_at_start env))
    as Hstrings.
  destruct (token_suffixes_begin_with_tokens env) as [Htokens _].
  split; [| split; [exact Htokens |]].
  - unfold argv_view. simpl. f_equal.
    rewrite map_app, map_map. simpl. f_equal.
    rewrite <- Hstrings, map_map. reflexivity.
  - rewrite <- Htokens, <- Hstrings, !length_map. lia.
Qed.

(** The first loop, in closed form. *)
Lemma count_args_closed (env : string) (i : nat) :
  forall (argc : N) (prev : bool),
    (Z.of_N argc <= INT_MAX)%Z ->
    count_args env argc prev
    = if (Z.of_N argc + Z.of_nat (length (token_starts env i prev))
          <=? INT_MAX)%Z
      then Ok (argc + N.of_nat (length (token_starts env i prev)))
      else Exit E_env_too_many_args.
Proof.
  revert i. induction env as [| a rest IH]; intros i argc prev Hmax; simpl.
  - rewrite (proj2 (Z.leb_le _ _)) by lia. f_equal. lia.
  - destruct (isspace a); [apply (IH (S i)); exact Hmax |].
    destruct prev; [| apply (IH (S i)); exact Hmax].
    rewrite (uint_inc_small _ Hmax). simpl length.
    destruct (Z.gtb_spec (Z.of_N (argc + 1)) INT_MAX) as [Hgt | Hle].
    + rewrite (proj2 (Z.leb_gt _ _)) by lia. reflexivity.
    + rewrite (IH (S i) _ _ Hle).
      replace (Z.of_N (argc + 1)
               + Z.of_nat (length (token_starts rest (S i) false)))%Z
        with (Z.of_N argc
              + Z.of_nat (S (length (token_starts rest (S i) false))))%Z
        by lia.
      destruct (_ <=? _)%Z; [f_equal; lia | reflexivity].
Qed.

Lemma token_starts_count (env : string) :
  length (token_starts env 0 true) = length (tokens env).
Proof.
  destruct (token_suffixes_begin_with_tokens env) as [<- _].
  rewrite <- (strings_at_token_starts env env 0 true (string_at_start env)).
  rewrite !length_map. reflexivity.
Qed.

Lemma environment_argv_closed (env : string) :
  environment_argv env
  = if (Z.of_nat (length (tokens env)) <? INT_MAX)%Z
    then Ok (PTR_argv0 :: map PTR_env (token_starts env 0 true) ++ [PTR_NULL],
             N.of_nat (S (length (tokens env))))
    else Exit E_env_too_many_args.
Proof.
  rewrite <- token_starts_count.
  destruct (environment_argv env) as [[argv argc] | e] eqn:Hrun.
  - apply environment_argv_slots in Hrun as Hslots.
    destruct Hslots as [-> ->].
    unfold environment_argv in Hrun.
    rewrite (count_args_closed env 0 1 true) in Hrun
      by (unfold INT_MAX; lia).
    destruct (Z.leb_spec
                (Z.of_N 1 + Z.of_nat (length (token_starts env 0 true)))
                INT_MAX) as [Hle | Hgt]; [| discriminate Hrun].
    rewrite (proj2 (Z.ltb_lt _ _)) by lia. do 2 f_equal. lia.
  - unfold environment_argv in Hrun.
    rewrite (count_args_closed env 0 1 true) in Hrun
      by (unfold INT_MAX; lia).
    destruct (Z.leb_spec
                (Z.of_N 1 + Z.of_nat (length (token_starts env 0 true)))
                INT_MAX) as [Hle | Hgt]; [discriminate Hrun |].
    simpl in Hrun. inversion Hrun; subst.
    rewrite (proj2 (Z.ltb_ge _ _)) by lia. reflexivity.
Qed.

(** X17.  [parse_environment] builds its vector for every value with
    fewer than [INT_MAX] tokens, with one slot per token between the
    program name and the null pointer and [argc] at one more than the
    number of tokens; every other value ends the process with the "too
    many arguments" exit. *)
Theorem environment_vector_or_too_many (env : string) :
  environment_argv env
  = if (Z.of_nat (length (tokens env)) <? INT_MAX)%Z
    then Ok (PTR_argv0 :: map PTR_env (token_starts env 0 true) ++ [PTR_NULL],
             N.of_nat (S (length (tokens env))))
    else Exit E_env_too_many_args.
Proof. apply environment_argv_closed. Qed.

Lemma token_suffixes_in_a_token (s : string) :
  (forall a, In a (list_ascii_of_string s) -> isspace a = false) ->
  token_suffixes s false = [].
Proof.
  induction s as [| a rest IH]; intros Hs; simpl; [reflexivity |].
  rewrite (Hs a) by (left; reflexivity).
  apply IH. intros b Hb. apply Hs. right. exact Hb.
Qed.

Lemma token_suffixes_one (spaces token : string) :
  (forall a, In a (list_ascii_of_string spaces) -> isspace a = true) ->
  (forall a, In a (list_ascii_of_string token) -> isspace a = false) ->
  token <> EmptyString ->
  token_suffixes (spaces ++ token)%string true = [token].
Proof.
  intros Hspaces Htoken Hne.
  induction spaces as [| a rest IH]; simpl.
  - destruct token as [| b token]; [congruence |]. simpl.
    rewrite (Htoken b) by (left; reflexivity). f_equal.
    apply token_suffixes_in_a_token.
    intros c Hc. apply Htoken. right. exact Hc.
  - rewrite (Hspaces a) by (left; reflexivity).
    apply IH. intros b Hb. apply Hspaces. right. exact Hb.
Qed.

(** X18.  A value of [LZMA_OPT] that is one token, with or without
    spaces before it and with none after it, is handed to [parse_real]
    as the program name followed by exactly that token. *)
Theorem single_token_is_handed_over (argv0 spaces token : string) :
  (forall a, In a (list_ascii_of_string spaces) -> isspace a = true) ->
  (forall a, In a (list_ascii_of_string token) -> isspace a = false) ->
  token <> EmptyString ->
  exists argv,
    environment_argv (spaces ++ token)%string = Ok (argv, 2) /\
    argv_view argv0 (spaces ++ token)%string argv
    = [Some argv0; Some token; None] /\
    argv_strings argv0 (spaces ++ token)%string argv 2 = [argv0; token].
Proof.
  intros Hspaces Htoken Hne.
  pose proof (token_suffixes_one spaces token Hspaces Htoken Hne) as Hone.
  set (env := (spaces ++ token)%string) in *.
  assert (Hcount : length (tokens env) = 1%nat).
  { destruct (token_suffixes_begin_with_tokens env) as [<- _].
    rewrite Hone. reflexivity. }
  pose proof (environment_argv_closed env) as Hrun.
  rewrite Hcount in Hrun. simpl in Hrun.
  eexists. split; [exact Hrun |].
  destruct (environment_arguments_are_token_suffixes argv0 env _ _ Hrun)
    as (Hview & _).
  rewrite Hone in Hview.
  change (Some argv0 :: map Some [token] ++ [None])%list
    with [Some argv0; Some token; None] in Hview.
  split; [exact Hview |].
  unfold argv_strings, argv_view in *. clear Hrun.
  destruct (PTR_argv0 :: map PTR_env (token_starts env 0 true) ++ [PTR_NULL])
    as [| p0 [| p1 [| p2 [| p3 l]]]]; try discriminate Hview.
  simpl in Hview. inversion Hview as [[H0 H1 H2]]. simpl.
  rewrite H0, H1. reflexivity.
Qed.

End EnvironmentFacts.

(** * The model at work on the sample *)

(** C7: the vector for [LZMA_OPT="-9 -v"].  The slots are [argv0], the
    addresses of the two tokens and the null pointer, but the second
    loop stores the addresses without ending the tokens: the string at
    slot 1 runs to the end of the value and is ["-9 -v"], not ["-9"]. *)
Theorem environment_arguments_run_to_the_end :
  environment_argv "-9 -v" = Ok ([PTR_argv0; PTR_env 0; PTR_env 3; PTR_NULL], 3)
  /\ argv_view "xz" "-9 -v" [PTR_argv0; PTR_env 0; PTR_env 3; PTR_NULL]
     = [Some "xz"; Some "-9 -v"; Some "-v"; None]
  /\ argv_strings "xz" "-9 -v" [PTR_argv0; PTR_env 0; PTR_env 3; PTR_NULL] 3
     <> ["xz"; "-9"; "-v"].
Proof.
  split; [vm_compute; reflexivity |].
  split; [vm_compute; reflexivity |].
  vm_compute. discriminate.
Qed.

(** C4: decoding a raw stream on the default path with a budget of 65.
    The decoder needs 70 for the level-7 chain and 60 for the level-6
    one, so level 6 fits; the loop recomputes with the encoder's cost,
    600 down to 100, and ends with the exit of level 1. *)
Theorem raw_decoding_is_degraded_at_encoder_cost :
  lzma_memusage_decoder (preset_chain FORMAT_RAW 7) = 70
  /\ lzma_memusage_decoder (preset_chain FORMAT_RAW 6) = 60
  /\ lzma_memusage_encoder (preset_chain FORMAT_RAW 1) = 100
  /\ parse_args None "xz" ["xz"; "-d"; "-F"; "raw"; "-M"; "65"] Sample.start
     = Exit E_memlimit_preset.
Proof. repeat split; vm_compute; reflexivity. Qed.

(** C2: the Resolver as [xz -d -F raw -M 65] runs it, on the default
    path at level 7 in decompress mode.  The estimate of the mode is the
    decoder's: 70 at level 7, over the budget, and 60 at level 6, within
    it, so level 6 is the first level whose usage fits.  The loop does
    not stop there: it measures every level from 6 down to 1 at the
    encoder's cost, 600 down to 100, and the Resolver ends with the exit
    of level 1. *)
Theorem raw_decoding_preset_not_lowered_to_first_fit :
  exists st,
    parse_flags None "xz" ["xz"; "-d"; "-F"; "raw"; "-M"; "65"] Sample.start
    = Ok (st, ["xz"; "-d"; "-F"; "raw"; "-M"; "65"])
    /\ opt_mode (stdout_and_format st) = MODE_DECOMPRESS
    /\ opt_format (stdout_and_format st) = FORMAT_RAW
    /\ preset_default (stdout_and_format st) = true
    /\ filter_count (stdout_and_format st) = 0%nat
    /\ preset_number (stdout_and_format st) = 7
    /\ opt_memory (stdout_and_format st) = 65
    /\ lzma_lzma_preset 7 = Some 7 /\ lzma_lzma_preset 6 = Some 6
    /\ first_estimate (stdout_and_format st) 7 = 70
    /\ first_estimate (stdout_and_format st) 6 = 60
    /\ lzma_memusage_encoder (preset_chain FORMAT_RAW 6) = 600
    /\ set_compression_settings (stdout_and_format st)
       = Exit E_memlimit_preset.
Proof.
  eexists. split; [vm_compute; reflexivity |].
  repeat split; vm_compute; reflexivity.
Qed.

(** C1 fails at [xz -5 -M 450]: the level-5 chain costs 500 and the
    level-4 chain 400, so a lower level fits the budget, yet the run ends
    with the exit of an explicit setup.  Without [-5] the same budget
    takes the default level 7 down to 4. *)
Lemma preset_flag_counterexample :
  lzma_memusage_encoder (preset_chain FORMAT_XZ 5) = 500
  /\ lzma_memusage_encoder (preset_chain FORMAT_XZ 4) = 400
  /\ parse_args None "xz" ["xz"; "-5"; "-M"; "450"] Sample.start
     = Exit E_memlimit_filter_setup
  /\ exists st',
       parse_args None "xz" ["xz"; "-M"; "450"] Sample.start = Ok (st', ["-"])
       /\ preset_number st' = 4.
Proof.
  split; [vm_compute; reflexivity |].
  split; [vm_compute; reflexivity |].
  split; [vm_compute; reflexivity |].
  eexists. split; vm_compute; reflexivity.
Qed.

(** C5 fails at [xz -5]: the Resolver meets an empty chain at level 5 and
    returns with the one-filter chain of the level-5 preset, but the
    chain is not marked as default. *)
Lemma explicit_level_counterexample :
  exists st st',
    parse_flags None "xz" ["xz"; "-5"] Sample.start = Ok (st, ["xz"; "-5"])
    /\ filter_count st = 0%nat /\ preset_number st = 5
    /\ set_compression_settings (stdout_and_format st) = Ok st'
    /\ chain st' = preset_chain FORMAT_XZ 5
    /\ preset_default st' = false.
Proof.
  eexists. eexists.
  split; [vm_compute; reflexivity |].
  split; [reflexivity |]. split; [reflexivity |].
  split; [vm_compute; reflexivity |].
  split; vm_compute; reflexivity.
Qed.

(** [xz -5 -M 450]: the flag clears the mark, the level is 5, and the
    estimate of 500 over the budget of 450 is fatal. *)
Lemma preset_flag_makes_setup_explicit_witness :
  is_preset_flag (chr "5") = true /\
  exists st2,
    parse_options ([] ++ (chr "5", None) :: [(chr "M", Some "450")])
      Sample.start = Ok st2 /\
    preset_default st2 = false /\
    preset_number st2 = 5 /\
    set_compression_settings st2 = Exit E_memlimit_filter_setup.
Proof.
  split; [reflexivity |].
  eexists. split; [vm_compute; reflexivity |].
  destruct (preset_flag_makes_setup_explicit (C := Sample.collaborators)
              [] [(chr "M", Some "450")] (chr "5") None Sample.start _
              eq_refl ltac:(vm_compute; reflexivity))
    as (Hpd & Hnum & Hexit).
  split; [exact Hpd |].
  split.
  - apply Hnum. repeat constructor.
  - apply (Hexit 5); [reflexivity | reflexivity | reflexivity |].
    vm_compute. reflexivity.
Defined.

(** The default level 7 under a budget of 450, with the sample's cost of
    100 per level: levels 6 and 5 do not fit, level 4 does. *)
Lemma compressing_preset_lowered_to_first_fit_sample :
  opt_mode (Sample.start_with 450 4) = MODE_COMPRESS /\
  preset_default (Sample.start_with 450 4) = true /\
  1 <= preset_number (Sample.start_with 450 4) <= 9 /\
  450 < first_estimate (Sample.start_with 450 4) 7 /\
  ((exists p st',
       1 <= p < 7 /\
       first_estimate (Sample.start_with 450 4) p <= 450 /\
       (forall q, p < q < 7 ->
          450 < first_estimate (Sample.start_with 450 4) q) /\
       set_compression_settings (Sample.start_with 450 4) = Ok st' /\
       preset_number st' = p /\
       chain st' = preset_chain FORMAT_AUTO p)
   \/ ((forall q, 1 <= q < 7 ->
          450 < first_estimate (Sample.start_with 450 4) q) /\
       set_compression_settings (Sample.start_with 450 4)
       = Exit E_memlimit_preset)).
Proof.
  split; [reflexivity |].
  split; [reflexivity |].
  split; [vm_compute; split; discriminate |].
  split; [vm_compute; reflexivity |].
  apply (compressing_preset_lowered_to_first_fit (C := Sample.collaborators)
           (Sample.start_with 450 4) (fun q => q)).
  - reflexivity.
  - reflexivity.
  - reflexivity.
  - reflexivity.
  - vm_compute. split; discriminate.
  - intros q Hq. simpl in Hq. simpl. unfold Sample.preset.
    rewrite (proj2 (N.leb_le 1 q)), (proj2 (N.leb_le q 9)) by lia.
    reflexivity.
  - intros q Hq. unfold first_estimate. simpl. lia.
  - vm_compute. reflexivity.
Defined.

(** The empty chain at the explicit level 5. *)
Lemma default_chain_is_the_preset_witness :
  filter_count (set_preset_default false (set_preset_number 5 Sample.start))
  = 0%nat /\
  (exists st1,
      default_chain (set_preset_default false (set_preset_number 5 Sample.start))
      = Ok st1 /\
      filter_count st1 = 1%nat /\
      chain (terminate_chain st1) = preset_chain FORMAT_AUTO 5 /\
      preset_number st1 = 5 /\
      preset_default st1 = false).
Proof.
  split; [reflexivity |].
  apply (default_chain_is_the_preset (C := Sample.collaborators)
           (set_preset_default false (set_preset_number 5 Sample.start)) 5);
    reflexivity.
Defined.

(** [--lzma2 -F lzma]: one entry, but not LZMA1. *)
Lemma lzma_format_allows_only_lzma1_witness :
  exists st st1,
    parse_options [(OPT_LZMA2, None); (chr "F", Some "lzma")] Sample.start
    = Ok st /\
    opt_format st = FORMAT_LZMA /\
    default_chain st = Ok st1 /\
    filter_id st1 0 = LZMA_FILTER_LZMA2 /\
    set_compression_settings st = Exit E_lzma_format_filter.
Proof.
  eexists. eexists.
  split; [vm_compute; reflexivity |].
  split; [reflexivity |].
  split; [reflexivity |].
  split; [reflexivity |].
  match goal with
  | |- set_compression_settings ?st = _ =>
      apply (proj2 (lzma_format_allows_only_lzma1 (C := Sample.collaborators)
                      st _ eq_refl eq_refl))
  end.
  intros [_ Hid]. discriminate Hid.
Defined.

(** Ten [--quiet] from the level 2, with the floor at 0. *)
Lemma verbosity_saturates_witness :
  verbosity_in_range Sample.start /\
  exists st',
    parse_options (repeat (chr "q", None) 10) Sample.start = Ok st' /\
    verbosity st' = 0%Z /\
    verbosity_in_range st'.
Proof.
  split; [vm_compute; split; discriminate |].
  destruct (verbosity_saturates (C := Sample.collaborators)
              (repeat (chr "q", None) 10) Sample.start)
    as (st' & Hrun & Hval & Hrange).
  - vm_compute. split; discriminate.
  - repeat constructor.
  - exists st'. split; [exact Hrun |]. split; [exact Hval | exact Hrange].
Defined.

(** [xz -t]: neither [--keep] nor [--stdout] is given. *)
Lemma stdout_or_test_keeps_original_witness :
  exists st' files,
    parse_args None "xz" ["xz"; "-t"] Sample.start = Ok (st', files) /\
    opt_mode st' = MODE_TEST /\
    opt_keep_original st' = true /\ opt_stdout st' = true.
Proof.
  eexists. eexists.
  split; [vm_compute; reflexivity |].
  split; [reflexivity |].
  destruct (stdout_or_test_keeps_original (C := Sample.collaborators)
              None "xz" ["xz"; "-t"] Sample.start _ _
              ltac:(vm_compute; reflexivity))
    as (st2 & argv' & _ & _ & _ & Htest).
  apply Htest. reflexivity.
Defined.

(** [xz -v -k] with [LZMA_OPT] unset. *)
Lemma default_preset_is_seven_witness :
  Forall leaves_chain_alone (environment_returned None "xz") /\
  Forall leaves_chain_alone (command_line_returned ["xz"; "-v"; "-k"]) /\
  exists st' argv',
    parse_flags None "xz" ["xz"; "-v"; "-k"] (initial_state 1000 4 2)
    = Ok (st', argv') /\
    preset_number st' = 7 /\ preset_default st' = true /\
    filter_count st' = 0%nat.
Proof.
  assert (Hcmd : Forall leaves_chain_alone
                   (command_line_returned ["xz"; "-v"; "-k"])).
  { change (Forall leaves_chain_alone [(chr "v", None); (chr "k", None)]).
    repeat constructor. }
  split; [constructor |].
  split; [exact Hcmd |].
  eexists. eexists.
  split; [vm_compute; reflexivity |].
  destruct (default_preset_is_seven (C := Sample.collaborators)
              None "xz" ["xz"; "-v"; "-k"] 1000 4 2 _ _
              ltac:(constructor) Hcmd
              ltac:(vm_compute; reflexivity))
    as (Hn & Hpd & Hcount & _).
  split; [exact Hn |]. split; [exact Hpd | exact Hcount].
Defined.

(** The default level-7 chain costs 700 in the sample; a budget of 2000
    leaves room for two of the four threads asked for. *)
Lemma thread_limit_formula_witness :
  1 <= 4 /\ 0 < 700 /\
  exists st',
    set_compression_settings (Sample.start_with 2000 4) = Ok st' /\
    opt_threads st' = N.min 4 (N.max 1 (2000 / 700)) /\
    opt_threads st' <= 4 /\
    (4 = 1 -> opt_threads st' = 1).
Proof.
  split; [lia |]. split; [lia |].
  assert (Hrun : exists st1,
             settle_memory_usage (Sample.start_with 2000 4) = Ok (st1, 700))
    by (eexists; vm_compute; reflexivity).
  destruct Hrun as [st1 Hrun].
  apply (thread_limit_formula (C := Sample.collaborators)
           (Sample.start_with 2000 4) st1 700);
    [vm_compute; discriminate | lia | exact Hrun].
Defined.

(** ** The further statements on the sample *)

(** The globals at the start of the program hold an empty chain. *)
Lemma start_chain_ok (memory threads : N) :
  chain_ok (Sample.start_with memory threads).
Proof.
  split; [reflexivity |]. split.
  - unfold LZMA_BLOCK_FILTERS_MAX. simpl. lia.
  - intros i f Hi. simpl in Hi. lia.
Qed.

(** The default run with a budget of 2000 and four threads. *)
Lemma settings_touch_chain_and_threads_only_witness :
  exists st',
    set_compression_settings (Sample.start_with 2000 4) = Ok st' /\
    untouched_by_settings (Sample.start_with 2000 4) st'.
Proof.
  eexists. split; [vm_compute; reflexivity |].
  apply (settings_touch_chain_and_threads_only (C := Sample.collaborators)).
  vm_compute. reflexivity.
Defined.

(** The level-7 chain costs 700: two threads fit a budget of 2000. *)
Lemma threads_fit_the_budget_witness :
  exists st',
    set_compression_settings (Sample.start_with 2000 4) = Ok st' /\
    exists st1 U,
      settle_memory_usage (Sample.start_with 2000 4) = Ok (st1, U) /\
      0 < U <= 2000 /\
      opt_threads st' * U <= 2000 /\
      opt_threads st' <= 4 /\
      (1 <= 4 -> 1 <= opt_threads st').
Proof.
  eexists. split; [vm_compute; reflexivity |].
  apply (threads_fit_the_budget (C := Sample.collaborators)
           (Sample.start_with 2000 4)).
  vm_compute. reflexivity.
Defined.

(** The level-7 chain fits the budget of 2000 and is kept. *)
Lemma settings_kept_unless_default_over_budget_witness :
  exists st1 st',
    default_chain (Sample.start_with 2000 4) = Ok st1 /\
    set_compression_settings (Sample.start_with 2000 4) = Ok st' /\
    initial_memory_usage (terminate_chain st1) <= 2000 /\
    filter_count st' = filter_count st1 /\
    preset_number st' = 7 /\
    chain st' = chain (terminate_chain st1).
Proof.
  eexists. eexists.
  split; [vm_compute; reflexivity |].
  split; [vm_compute; reflexivity |].
  destruct (settings_kept_unless_default_over_budget
              (C := Sample.collaborators) (Sample.start_with 2000 4) _ _
              ltac:(vm_compute; reflexivity) ltac:(vm_compute; reflexivity))
    as (_ & Hcount & _ & Hlevel & Hchain & Hfits).
  - right. vm_compute. discriminate.
  - split; [exact Hfits |]. split; [exact Hcount |].
    split; [exact Hlevel | exact Hchain].
Defined.

(** The empty chain of the start becomes the terminated preset chain. *)
Lemma settled_chain_is_terminated_witness :
  chain_ok (Sample.start_with 2000 4) /\
  exists st',
    set_compression_settings (Sample.start_with 2000 4) = Ok st' /\
    chain_ok st' /\
    (1 <= filter_count st')%nat /\
    filter_id st' (filter_count st') = LZMA_VLI_UNKNOWN /\
    length (chain st') = filter_count st' /\
    Forall (fun e => kind_fits (fst e) (snd e) = true) (chain st').
Proof.
  split; [apply start_chain_ok |].
  eexists. split; [vm_compute; reflexivity |].
  apply (settled_chain_is_terminated (C := Sample.collaborators)
           (Sample.start_with 2000 4)).
  - apply start_chain_ok.
  - vm_compute. reflexivity.
Defined.

(** The explicit level 5 over a budget of 450. *)
Lemma settings_exits_witness :
  array_sized
    (set_preset_default false (set_preset_number 5 (Sample.start_with 450 4)))
  /\ set_compression_settings
       (set_preset_default false
          (set_preset_number 5 (Sample.start_with 450 4)))
     = Exit E_memlimit_filter_setup
  /\ ((E_memlimit_filter_setup = E_internal_error /\
       (0%nat = 0%nat \/ false = true))
      \/ (E_memlimit_filter_setup = E_lzma_format_filter /\
          FORMAT_AUTO = FORMAT_LZMA /\ 0%nat <> 0%nat)
      \/ (E_memlimit_filter_setup = E_memlimit_preset /\ false = true)
      \/ (E_memlimit_filter_setup = E_memlimit_filter_setup /\ false = false)
      \/ E_memlimit_filter_setup = A_assert_failed).
Proof.
  split; [reflexivity |].
  split; [vm_compute; reflexivity |].
  apply (settings_exits (C := Sample.collaborators)
           (set_preset_default false
              (set_preset_number 5 (Sample.start_with 450 4)))
           E_memlimit_filter_setup).
  - reflexivity.
  - vm_compute. reflexivity.
Defined.

(** [--x86 --lzma2] with a [--keep] between them: two filters. *)
Lemma filter_options_are_counted_witness :
  chain_ok Sample.start /\
  exists st',
    parse_options [(OPT_X86, None); (chr "k", None); (OPT_LZMA2, None)]
      Sample.start = Ok st' /\
    chain_ok st' /\
    filter_count st' = 2%nat.
Proof.
  split; [apply start_chain_ok |].
  eexists. split; [vm_compute; reflexivity |].
  destruct (filter_options_are_counted (C := Sample.collaborators)
              [(OPT_X86, None); (chr "k", None); (OPT_LZMA2, None)]
              Sample.start _ (start_chain_ok 1000 4)
              ltac:(vm_compute; reflexivity))
    as (Hok & Hcount & _).
  split; [exact Hok | exact Hcount].
Defined.

(** The same options: x86 comes first, LZMA2 second. *)
Lemma filters_keep_their_order_witness :
  chain_ok Sample.start /\
  exists st',
    parse_options [(OPT_X86, None); (chr "k", None); (OPT_LZMA2, None)]
      Sample.start = Ok st' /\
    map id (take (filter_count st') (opt_filters st'))
    = [LZMA_FILTER_X86; LZMA_FILTER_LZMA2].
Proof.
  split; [apply start_chain_ok |].
  eexists. split; [vm_compute; reflexivity |].
  apply (filters_keep_their_order (C := Sample.collaborators)
           [(OPT_X86, None); (chr "k", None); (OPT_LZMA2, None)]
           Sample.start _ (start_chain_ok 1000 4)).
  vm_compute. reflexivity.
Defined.

(** [xz --files=list.txt -v], read with the [getopt_long] that knows
    long options: the one list is accepted and named.  A second list,
    [xz --files=a.txt --files0=b.txt], ends the process. *)
Lemma one_file_list_at_most_witness :
  opt_files_name Sample.start = None /\
  (exists st' argv',
      parse_flags (C := Sample.collaborators_long) None "xz"
        ["xz"; "--files=list.txt"; "-v"] Sample.start = Ok (st', argv') /\
      command_line_returned (C := Sample.collaborators_long)
        ["xz"; "--files=list.txt"; "-v"]
      = [(OPT_FILES, Some "list.txt"); (chr "v", None)] /\
      opt_files_name st' = Some "list.txt" /\
      (files_flags
         (environment_returned (C := Sample.collaborators_long) None "xz"
          ++ command_line_returned (C := Sample.collaborators_long)
               ["xz"; "--files=list.txt"; "-v"])%list <= 1)%nat /\
      (opt_files_name st' = None <->
       files_flags
         (environment_returned (C := Sample.collaborators_long) None "xz"
          ++ command_line_returned (C := Sample.collaborators_long)
               ["xz"; "--files=list.txt"; "-v"])%list = 0%nat)) /\
  parse_flags (C := Sample.collaborators_long) None "xz"
    ["xz"; "--files=a.txt"; "--files0=b.txt"] Sample.start
  = Exit E_files_twice.
Proof.
  split; [reflexivity |].
  split; [| vm_compute; reflexivity].
  eexists. eexists. split; [vm_compute; reflexivity |].
  split; [vm_compute; reflexivity |].
  split; [reflexivity |].
  apply (one_file_list_at_most (C := Sample.collaborators_long)
           None "xz" ["xz"; "--files=list.txt"; "-v"] Sample.start _
           ["xz"; "--files=list.txt"; "-v"]).
  - reflexivity.
  - vm_compute. reflexivity.
Defined.

(** [xz -S .foo]. *)
Lemma suffix_stays_usable_witness :
  (forall s, opt_suffix Sample.start = Some s -> usable_suffix s) /\
  exists st' files,
    parse_args None "xz" ["xz"; "-S"; ".foo"] Sample.start = Ok (st', files) /\
    opt_suffix st' = Some ".foo" /\
    usable_suffix ".foo".
Proof.
  split; [intros s Hs; discriminate Hs |].
  eexists. eexists. split; [vm_compute; reflexivity |].
  split; [reflexivity |].
  apply (suffix_stays_usable (C := Sample.collaborators)
           None "xz" ["xz"; "-S"; ".foo"] Sample.start _ _
           ltac:(intros s Hs; discriminate Hs)
           ltac:(vm_compute; reflexivity)).
  reflexivity.
Defined.

(** [xz -d -z -t]: the last of the three decides. *)
Lemma last_mode_flag_decides_witness :
  exists st' argv',
    parse_flags None "xz" ["xz"; "-d"; "-z"; "-t"] Sample.start
    = Ok (st', argv') /\
    opt_mode st'
    = last_mode (environment_returned None "xz"
                 ++ command_line_returned ["xz"; "-d"; "-z"; "-t"])%list
        (opt_mode (named_state ["xz"; "-d"; "-z"; "-t"] Sample.start)).
Proof.
  eexists. eexists. split; [vm_compute; reflexivity |].
  apply (last_mode_flag_decides (C := Sample.collaborators)
           None "xz" ["xz"; "-d"; "-z"; "-t"] Sample.start _
           ["xz"; "-d"; "-z"; "-t"]).
  vm_compute. reflexivity.
Defined.

(** [xz -v -v -v] from the level 2, with the ceiling at 4. *)
Lemma verbosity_never_leaves_its_range_witness :
  verbosity_in_range Sample.start /\
  exists st' files,
    parse_args None "xz" ["xz"; "-v"; "-v"; "-v"] Sample.start
    = Ok (st', files) /\
    verbosity_in_range st'.
Proof.
  assert (Hstart : verbosity_in_range Sample.start)
    by (vm_compute; split; discriminate).
  split; [exact Hstart |].
  eexists. eexists. split; [vm_compute; reflexivity |].
  apply (verbosity_never_leaves_its_range (C := Sample.collaborators)
           None "xz" ["xz"; "-v"; "-v"; "-v"] Sample.start _ ["-"] Hstart).
  vm_compute. reflexivity.
Defined.

(** [xz -5]: the mark is cleared, and [-5] is a preset flag. *)
Lemma default_mark_means_no_chain_option_witness :
  preset_default Sample.start = true /\
  exists st' argv',
    parse_flags None "xz" ["xz"; "-5"] Sample.start = Ok (st', argv') /\
    (preset_default st' = true <->
     Forall leaves_chain_alone
       (environment_returned None "xz"
        ++ command_line_returned ["xz"; "-5"])%list).
Proof.
  split; [reflexivity |].
  eexists. eexists. split; [vm_compute; reflexivity |].
  apply (default_mark_means_no_chain_option (C := Sample.collaborators)
           None "xz" ["xz"; "-5"] Sample.start _ ["xz"; "-5"]).
  - reflexivity.
  - vm_compute. reflexivity.
Defined.

(** [xz -3]. *)
Lemma preset_level_stays_in_range_witness :
  1 <= preset_number Sample.start <= 9 /\
  exists st' files,
    parse_args None "xz" ["xz"; "-3"] Sample.start = Ok (st', files) /\
    1 <= preset_number st' <= 9.
Proof.
  assert (Hstart : 1 <= preset_number Sample.start <= 9)
    by (vm_compute; split; discriminate).
  split; [exact Hstart |].
  eexists. eexists. split; [vm_compute; reflexivity |].
  apply (preset_level_stays_in_range (C := Sample.collaborators)
           None "xz" ["xz"; "-3"] Sample.start _ ["-"] Hstart).
  vm_compute. reflexivity.
Defined.

(** [xz -d]: the Resolver is not run. *)
Lemma decoding_skips_the_settings_witness :
  exists st2 argv',
    parse_flags None "xz" ["xz"; "-d"] Sample.start = Ok (st2, argv') /\
    opt_mode st2 <> MODE_COMPRESS /\
    opt_format st2 <> FORMAT_RAW /\
    exists st' files,
      parse_args None "xz" ["xz"; "-d"] Sample.start = Ok (st', files) /\
      st' = stdout_and_format st2 /\
      same_chain st2 st' /\
      opt_lzma st' = opt_lzma st2 /\ opt_threads st' = opt_threads st2 /\
      opt_format st' = opt_format st2.
Proof.
  eexists. eexists. split; [vm_compute; reflexivity |].
  split; [vm_compute; discriminate |].
  split; [vm_compute; discriminate |].
  apply (decoding_skips_the_settings (C := Sample.collaborators)
           None "xz" ["xz"; "-d"] Sample.start _ ["xz"; "-d"]).
  - vm_compute. reflexivity.
  - vm_compute. discriminate.
  - vm_compute. discriminate.
Defined.

(** [xz] alone compresses to the format of automatic selection. *)
Lemma compressing_settles_the_format_witness :
  format_compress_auto Sample.start <> FORMAT_AUTO /\
  exists st' files,
    parse_args None "xz" ["xz"] Sample.start = Ok (st', files) /\
    opt_mode st' = MODE_COMPRESS /\
    opt_format st' <> FORMAT_AUTO.
Proof.
  assert (Hstart : format_compress_auto Sample.start <> FORMAT_AUTO)
    by (vm_compute; discriminate).
  split; [exact Hstart |].
  eexists. eexists. split; [vm_compute; reflexivity |].
  split; [reflexivity |].
  apply (compressing_settles_the_format (C := Sample.collaborators)
           None "xz" ["xz"] Sample.start _ ["-"] Hstart).
  - vm_compute. reflexivity.
  - reflexivity.
Defined.

(** [xz -k a.txt]: one file is named. *)
Lemma files_default_to_stdin_witness :
  exists st' files,
    parse_args None "xz" ["xz"; "-k"; "a.txt"] Sample.start
    = Ok (st', files) /\
    files = ["a.txt"] /\
    exists st2 argv',
      parse_flags None "xz" ["xz"; "-k"; "a.txt"] Sample.start
      = Ok (st2, argv') /\
      optind st' = optind st2 /\
      (files = ["-"] /\ drop (optind st') argv' = [] /\
       opt_files_name st' = None
       \/ files = drop (optind st') argv' /\
          (files <> [] \/ opt_files_name st' <> None)) /\
      (opt_files_name st' = None -> files <> []).
Proof.
  eexists. eexists. split; [vm_compute; reflexivity |].
  split; [reflexivity |].
  apply (files_default_to_stdin (C := Sample.collaborators)
           None "xz" ["xz"; "-k"; "a.txt"] Sample.start).
  vm_compute. reflexivity.
Defined.

(** [LZMA_OPT=" -9"]: one token after a space. *)
Lemma single_token_is_handed_over_witness :
  (forall a, In a (list_ascii_of_string " ") -> isspace a = true) /\
  (forall a, In a (list_ascii_of_string "-9") -> isspace a = false) /\
  "-9" <> EmptyString /\
  exists argv,
    environment_argv " -9" = Ok (argv, 2) /\
    argv_view "xz" " -9" argv = [Some "xz"; Some "-9"; None] /\
    argv_strings "xz" " -9" argv 2 = ["xz"; "-9"].
Proof.
  assert (Hspaces : forall a,
             In a (list_ascii_of_string " ") -> isspace a = true)
    by (intros a [<- | []]; reflexivity).
  assert (Htoken : forall a,
             In a (list_ascii_of_string "-9") -> isspace a = false)
    by (intros a [<- | [<- | []]]; reflexivity).
  assert (Hne : "-9" <> EmptyString) by discriminate.
  split; [exact Hspaces |]. split; [exact Htoken |]. split; [exact Hne |].
  apply (single_token_is_handed_over "xz" " " "-9" Hspaces Htoken Hne).
Defined.

(** [xz -6]: the whole of [parse_args] from the empty chain. *)
Lemma parse_args_hands_on_a_sound_chain_witness :
  chain_ok Sample.start /\
  exists st' files,
    parse_args None "xz" ["xz"; "-6"] Sample.start = Ok (st', files) /\
    chain_ok st' /\
    (opt_mode st' = MODE_COMPRESS \/ opt_format st' = FORMAT_RAW ->
     (1 <= filter_count st')%nat /\
     filter_id st' (filter_count st') = LZMA_VLI_UNKNOWN).
Proof.
  split; [apply start_chain_ok |].
  eexists. eexists. split; [vm_compute; reflexivity |].
  apply (parse_args_hands_on_a_sound_chain (C := Sample.collaborators)
           None "xz" ["xz"; "-6"] Sample.start _ ["-"]
           (start_chain_ok 1000 4)).
  vm_compute. reflexivity.
Defined.

(** [xz -k -h -9]: the help exit, and [-9] is never looked at. *)
Lemma help_and_version_end_the_loop_witness :
  exists st1,
    parse_options [(chr "k", None)] Sample.start = Ok st1 /\
    (chr "h" = chr "h" \/ chr "h" = chr "V") /\
    parse_options ([(chr "k", None)] ++ (chr "h", None) :: [(chr "9", None)])
      Sample.start
    = Exit X_show_help.
Proof.
  eexists. split; [vm_compute; reflexivity |].
  split; [left; reflexivity |].
  apply (help_and_version_end_the_loop (C := Sample.collaborators)
           [(chr "k", None)] [(chr "9", None)] (chr "h") None Sample.start _
           ltac:(vm_compute; reflexivity)).
  left. reflexivity.
Defined.

(** Seven [--x86], then [--delta]. *)
Lemma eighth_filter_is_refused_witness :
  exists st1,
    parse_options (repeat (OPT_X86, None) 7) Sample.start = Ok st1 /\
    filter_count st1 = LZMA_BLOCK_FILTERS_MAX /\
    filter_of_flag OPT_DELTA = Some LZMA_FILTER_DELTA /\
    parse_options (repeat (OPT_X86, None) 7 ++ (OPT_DELTA, Some "dist=1") :: [])
      Sample.start
    = Exit E_too_many_filters.
Proof.
  eexists. split; [vm_compute; reflexivity |].
  split; [reflexivity |]. split; [reflexivity |].
  apply (eighth_filter_is_refused (C := Sample.collaborators)
           (repeat (OPT_X86, None) 7) [] OPT_DELTA LZMA_FILTER_DELTA
           (Some "dist=1") Sample.start _
           ltac:(vm_compute; reflexivity));
    reflexivity.
Defined.
